(** * The WiFi router daemon of guest/commands/wifirouter/router.cc

    A shallow embedding of the MAC-keyed packet router: the subscription
    index ([MacToClientsTable], a [std::multimap<uint64_t,int>]), the client
    set ([ClientsTable], a [std::set<int>]), the hashing of MAC addresses
    ([GetMacHash]), client removal ([RemoveClient]), the fan-out of kernel
    notifications ([RouteWIFIPacket]), the handling of client requests
    ([HandleClientMessage]) and one iteration of [ServerLoop].

    Conventions.
    - Memory a pointer refers to is a [list byte] (the image at the pointer);
      a byte beyond the image reads as zero.  Multi-byte fields are read in
      host order, which is little-endian on the targets of this daemon.
    - C integers are [Z]; every conversion that can wrap is written out.
    - System calls ([send], [close]) are recorded in a trace; what [send]
      returns is given by an oracle that may depend on the whole history.
      What [recv], [nl_recv], [accept] and [select] return is an argument of
      the function that makes the call.
    - libnl (netlink/attr.h, netlink/msg.h, netlink/genl/genl.h) is modelled
      in [Module Netlink], on the wire format of linux/netlink.h. *)

From Stdlib Require Import ZArith Lia List Bool Sorted.
From coqutil Require Import Byte Word.LittleEndianList.
Import ListNotations.
Local Open Scope Z_scope.

Definition bytes := list byte.

(** ** C integer conversions *)

(** Conversion to [int] (32 bits, two's complement). *)
Definition to_int (z : Z) : Z := (z + 2 ^ 31) mod 2 ^ 32 - 2 ^ 31.
Definition to_uint8 (z : Z) : Z := z mod 2 ^ 8.
Definition to_uint16 (z : Z) : Z := z mod 2 ^ 16.
Definition to_uint32 (z : Z) : Z := z mod 2 ^ 32.
Definition to_uint64 (z : Z) : Z := z mod 2 ^ 64.

(** ** Memory *)

(** The unsigned little-endian integer held by the [n] bytes at offset [off]. *)
Definition load (n : nat) (mem : bytes) (off : Z) : Z :=
  le_combine (firstn n (skipn (Z.to_nat off) mem)).

(** The image at [mem + off]. *)
Definition at_offset (mem : bytes) (off : Z) : bytes := skipn (Z.to_nat off) mem.

(** The [len] bytes a [memcpy] reads from the image [src]. *)
Definition memcpy_src (src : bytes) (len : Z) : bytes :=
  firstn (Z.to_nat len) (src ++ repeat Byte.x00 (Z.to_nat len)).

(** ** libnl *)

Module Netlink.

Definition NLMSG_ALIGNTO : Z := 4.
Definition NLMSG_HDRLEN : Z := 16.
Definition GENL_HDRLEN : Z := 4.
Definition NLA_HDRLEN : Z := 4.
Definition NLA_TYPE_MASK : Z := 16383.   (* ~(NLA_F_NESTED | NLA_F_NET_BYTEORDER) *)
Definition NLMSG_ERROR : Z := 2.
Definition NLE_MSG_TOOSHORT : Z := 21.

(** [( (len) + ALIGNTO - 1 ) & ~(ALIGNTO - 1)] *)
Definition align_to (pad len : Z) : Z := Z.land (len + (pad - 1)) (Z.lnot (pad - 1)).
Definition NLMSG_ALIGN (len : Z) : Z := align_to NLMSG_ALIGNTO len.
Definition NLA_ALIGN (len : Z) : Z := align_to 4 len.

(** *** Fields of [struct nlmsghdr], [struct genlmsghdr] and [struct nlattr] *)

Definition nlmsg_len (nlh : bytes) : Z := load 4 nlh 0.
Definition nlmsg_type (nlh : bytes) : Z := load 2 nlh 4.
Definition nlmsg_flags (nlh : bytes) : Z := load 2 nlh 6.
Definition nlmsg_seq (nlh : bytes) : Z := load 4 nlh 8.
Definition nlmsg_pid (nlh : bytes) : Z := load 4 nlh 12.

(** [((genlmsghdr* ) nlmsg_data(nlh))->cmd] *)
Definition genl_cmd (nlh : bytes) : Z := load 1 nlh NLMSG_HDRLEN.

(** An attribute is named by its offset in the message. *)
Definition nla_len_field (nlh : bytes) (nla : Z) : Z := load 2 nlh nla.
Definition nla_type_field (nlh : bytes) (nla : Z) : Z := load 2 nlh (nla + 2).
Definition nla_type (nlh : bytes) (nla : Z) : Z :=
  Z.land (nla_type_field nlh nla) NLA_TYPE_MASK.
Definition nla_len (nlh : bytes) (nla : Z) : Z := nla_len_field nlh nla - NLA_HDRLEN.
Definition nla_data (nla : Z) : Z := nla + NLA_HDRLEN.

(** *** Parsing: [nla_ok], [nla_next], [nla_parse] without a policy *)

(** [struct nlattr *tb[]]: a slot is a null pointer or an attribute. *)
Definition attr_table := Z -> option Z.
Definition tb_empty : attr_table := fun _ => None.
Definition tb_set (tb : attr_table) (type nla : Z) : attr_table :=
  fun t => if t =? type then Some nla else tb t.

Definition nla_ok (nlh : bytes) (nla remaining : Z) : bool :=
  (NLA_HDRLEN <=? remaining)
  && (NLA_HDRLEN <=? nla_len_field nlh nla)
  && (nla_len_field nlh nla <=? remaining).

(** [nla_for_each_attr]; an attribute takes at least four bytes of
    [remaining], so [fuel] greater than [remaining / 4] is never used up. *)
Fixpoint nla_walk (fuel : nat) (nlh : bytes) (maxtype nla remaining : Z)
         (tb : attr_table) : attr_table :=
  match fuel with
  | O => tb
  | S fuel' =>
      if nla_ok nlh nla remaining then
        let totlen := NLA_ALIGN (nla_len_field nlh nla) in
        let type := nla_type nlh nla in
        let tb' := if type >? maxtype then tb else tb_set tb type nla in
        nla_walk fuel' nlh maxtype (nla + totlen) (remaining - totlen) tb'
      else tb
  end.

Definition nla_parse (nlh : bytes) (maxtype head len : Z) : Z * attr_table :=
  (0, nla_walk (S (Z.to_nat (len / 4))) nlh maxtype head len tb_empty).

Definition nlmsg_valid_hdr (nlh : bytes) (hdrlen : Z) : bool :=
  negb (nlmsg_len nlh <? NLMSG_HDRLEN + hdrlen).

(** [nlmsg_parse(nlh, hdrlen, tb, maxtype, NULL)] *)
Definition nlmsg_parse (nlh : bytes) (hdrlen maxtype : Z) : Z * attr_table :=
  if negb (nlmsg_valid_hdr nlh hdrlen) then (- NLE_MSG_TOOSHORT, tb_empty)
  else
    let attrlen := Z.max (to_int (nlmsg_len nlh - NLMSG_HDRLEN) - NLMSG_ALIGN hdrlen) 0 in
    nla_parse nlh maxtype (NLMSG_HDRLEN + NLMSG_ALIGN hdrlen) attrlen.

(** [genlmsg_len]: the payload length behind the generic netlink header. *)
Definition genlmsg_len (nlh : bytes) : Z :=
  to_int (nlmsg_len nlh - GENL_HDRLEN - NLMSG_HDRLEN).

Definition genlmsg_valid_hdr (nlh : bytes) (hdrlen : Z) : bool :=
  nlmsg_valid_hdr nlh GENL_HDRLEN
  && negb (genlmsg_len nlh <? NLMSG_ALIGN hdrlen).

(** [genlmsg_parse(nlh, hdrlen, tb, maxtype, NULL)] *)
Definition genlmsg_parse (nlh : bytes) (hdrlen maxtype : Z) : Z * attr_table :=
  if negb (genlmsg_valid_hdr nlh hdrlen) then (- NLE_MSG_TOOSHORT, tb_empty)
  else
    nla_parse nlh maxtype (NLMSG_HDRLEN + GENL_HDRLEN + NLMSG_ALIGN hdrlen)
              (genlmsg_len nlh - NLMSG_ALIGN hdrlen).

(** *** Construction: [struct nl_msg] *)

(** A message under construction: its capacity [nm_size], the fields of
    its header and the bytes behind the header; [nlmsg_len] is the header
    plus those bytes. *)
Record nl_msg := {
  nm_size : Z;
  nm_type : Z;
  nm_flags : Z;
  nm_seq : Z;
  nm_pid : Z;
  nm_payload : bytes
}.

Definition nm_len (n : nl_msg) : Z := NLMSG_HDRLEN + Z.of_nat (length (nm_payload n)).

(** [nlmsg_alloc()]: an empty message of the default capacity, zeroed. *)
Definition nlmsg_alloc (default_msg_size : Z) : nl_msg :=
  {| nm_size := default_msg_size; nm_type := 0; nm_flags := 0; nm_seq := 0;
     nm_pid := 0; nm_payload := [] |}.

Definition with_payload (n : nl_msg) (p : bytes) : nl_msg :=
  {| nm_size := nm_size n; nm_type := nm_type n; nm_flags := nm_flags n;
     nm_seq := nm_seq n; nm_pid := nm_pid n; nm_payload := p |}.

(** [nlmsg_hdr(n)]: the message as it lies in memory, header first. *)
Definition nlmsg_hdr (n : nl_msg) : bytes :=
  le_split 4 (nm_len n) ++ le_split 2 (nm_type n) ++ le_split 2 (nm_flags n)
  ++ le_split 4 (nm_seq n) ++ le_split 4 (nm_pid n) ++ nm_payload n.

(** [nlmsg_reserve(n, len, pad)] followed by the caller's copy of [fill]
    ([len] bytes) into the reserved room; [None] is the NULL result, which
    leaves the message as it was. *)
Definition nlmsg_reserve (n : nl_msg) (len pad : Z) (fill : bytes) : option nl_msg :=
  if len >? nm_size n then None
  else
    let tlen := if pad =? 0 then len else align_to pad len in
    if tlen + nm_len n >? nm_size n then None
    else Some (with_payload n (nm_payload n ++ memcpy_src fill len
                                 ++ repeat Byte.x00 (Z.to_nat (tlen - len)))).

(** [nlmsg_put(n, pid, seq, type, payload, flags)] with the reserved
    payload zeroed; the header fields are set also when it returns NULL. *)
Definition nlmsg_put (n : nl_msg) (pid seq type payload flags : Z) : nl_msg * bool :=
  let n1 := {| nm_size := nm_size n; nm_type := to_uint16 type;
               nm_flags := to_uint16 flags; nm_seq := to_uint32 seq;
               nm_pid := to_uint32 pid; nm_payload := nm_payload n |} in
  if payload >? 0 then
    match nlmsg_reserve n1 payload NLMSG_ALIGNTO [] with
    | Some n2 => (n2, true)
    | None => (n1, false)
    end
  else (n1, true).

(** [nlmsg_append(n, data, len, pad)] *)
Definition nlmsg_append (n : nl_msg) (data : bytes) (len pad : Z) : nl_msg :=
  match nlmsg_reserve n len pad data with
  | Some n' => n'
  | None => n
  end.

(** [genlmsg_put(msg, port, seq, family, hdrlen, flags, cmd, version)]:
    the generic header [{cmd, version, reserved = 0}] is copied to
    [nlmsg_data(nlh)], the start of the payload. *)
Definition genlmsg_put (n : nl_msg) (port seq family hdrlen flags cmd version : Z) : nl_msg :=
  match nlmsg_put n port seq family (GENL_HDRLEN + hdrlen) flags with
  | (n1, true) =>
      let hdr := [byte.of_Z (to_uint8 cmd); byte.of_Z (to_uint8 version);
                  Byte.x00; Byte.x00] in
      with_payload n1 (hdr ++ skipn 4 (nm_payload n1))
  | (n1, false) => n1
  end.

(** [nla_put(msg, attrtype, datalen, data)] through [nla_reserve]: the
    attribute goes to the aligned tail of the message; nothing is added
    when [datalen] is negative or the capacity would be exceeded. *)
Definition nla_put (n : nl_msg) (attrtype datalen : Z) (data : bytes) : nl_msg :=
  if datalen <? 0 then n
  else
    let tlen := NLMSG_ALIGN (nm_len n) + NLA_ALIGN (NLA_HDRLEN + datalen) in
    if tlen >? nm_size n then n
    else
      let gap := NLMSG_ALIGN (nm_len n) - nm_len n in
      let padlen := NLA_ALIGN (NLA_HDRLEN + datalen) - (NLA_HDRLEN + datalen) in
      with_payload n
        (nm_payload n ++ repeat Byte.x00 (Z.to_nat gap)
           ++ le_split 2 (to_uint16 (NLA_HDRLEN + datalen))
           ++ le_split 2 (to_uint16 attrtype)
           ++ memcpy_src data datalen
           ++ repeat Byte.x00 (Z.to_nat padlen)).

End Netlink.

(** An attribute as it lies on the wire: length, type, payload, and zeros
    up to a multiple of four bytes. *)
Definition nla_wire (type : Z) (payload : bytes) : bytes :=
  let attrlen := Netlink.NLA_HDRLEN + Z.of_nat (length payload) in
  le_split 2 attrlen ++ le_split 2 type ++ payload
  ++ repeat Byte.x00 (Z.to_nat (Netlink.NLA_ALIGN attrlen - attrlen)).

(** The layout of a fan-out frame: the netlink header with the length of
    the whole, the generic header with the command, the attribute of the
    address and the attribute of the packet. *)
Definition fanout_wire (cmd ty_mac ty_packet : Z) (M raw : bytes) : bytes :=
  (le_split 4 (32 + Netlink.NLA_ALIGN (4 + Z.of_nat (length raw)))
     ++ le_split 2 0 ++ le_split 2 0 ++ le_split 4 0 ++ le_split 4 0
     ++ [byte.of_Z (to_uint8 cmd); Byte.x00; Byte.x00; Byte.x00])
    ++ nla_wire ty_mac M ++ nla_wire ty_packet raw.

(** ** The containers of router.cc *)

(** [std::set<int>]: a strictly increasing list, iterated in that order. *)
Module IntSet.
Definition t := list Z.
Definition empty : t := [].

Fixpoint insert (x : Z) (s : t) : t :=
  match s with
  | [] => [x]
  | y :: s' => if x <? y then x :: s else if x =? y then s else y :: insert x s'
  end.

Definition erase (x : Z) (s : t) : t := filter (fun y => negb (y =? x)) s.

Definition mem (x : Z) (s : t) : bool := existsb (Z.eqb x) s.
End IntSet.

(** [std::multimap<uint64_t, int>]: a list of (key, value) in iteration
    order, that is by increasing key, equal keys in insertion order. *)
Module MultiMap.
Definition t := list (Z * Z).
Definition empty : t := [].

(** [emplace]: the new element goes behind every element whose key is not
    greater (the upper bound of its key). *)
Fixpoint emplace (k v : Z) (m : t) : t :=
  match m with
  | [] => [(k, v)]
  | (k', v') :: m' => if k <? k' then (k, v) :: m else (k', v') :: emplace k v m'
  end.

(** [find(k)]: the iterator to the first element of key [k], given as
    the elements from that iterator on; [[]] is [end()]. *)
Fixpoint find (k : Z) (m : t) : t :=
  match m with
  | [] => []
  | (k', v') :: m' => if k' <? k then find k m' else if k' =? k then m else []
  end.

(** The loop of [RemoveClient]: erase every element of value [v]. *)
Definition erase_value (v : Z) (m : t) : t :=
  filter (fun e => negb (snd e =? v)) m.

(** How often the pair [(k, v)] occurs. *)
Definition count (k v : Z) (m : t) : nat :=
  length (filter (fun e => (fst e =? k) && (snd e =? v)) m).
End MultiMap.

Definition MacHash := Z.
Definition MacToClientsTable := MultiMap.t.
Definition ClientsTable := IntSet.t.

(** The clients subscribed under [key], in iteration order. *)
Definition subscribers (key : MacHash) (m : MacToClientsTable) : list Z :=
  map snd (filter (fun e => fst e =? key) m).

(** The order a [std::multimap] keeps its elements in. *)
Definition key_ordered (m : MacToClientsTable) : Prop :=
  StronglySorted (fun a b => fst a <= fst b) m.

(** The order and uniqueness a [std::set] keeps its elements in. *)
Definition increasing (s : ClientsTable) : Prop := StronglySorted Z.lt s.

(** Copied out of mac80211_hwsim.h header. *)
Definition HWSIM_CMD_REGISTER : Z := 1.
Definition HWSIM_ATTR_ADDR_TRANSMITTER : Z := 2.
Definition HWSIM_ATTR_MAX : Z := 19.

Definition EINVAL : Z := 22.
Definition sizeof_nlmsghdr : Z := 16.
Definition sizeof_genlmsghdr : Z := 4.
Definition sizeof_nlmsgerr : Z := 20.

(** The bytes of [nlmsgerr err{.error = result}]: the [int] and a zeroed
    [nlmsghdr]. *)
Definition nlmsgerr_bytes (result : Z) : bytes :=
  le_split 4 result ++ repeat Byte.x00 (Z.to_nat sizeof_nlmsghdr).

(** ** GetMacHash *)

(** [typed[i]] for [typed = reinterpret_cast<const uint16_t*>(macaddr)]. *)
Definition typed (macaddr : bytes) (i : Z) : Z := load 2 macaddr (2 * i).

(** [(1ull * typed[0] << 32) | (typed[1] << 16) | typed[2]]: the first
    operand is an unsigned 64-bit value; [typed[1]] is promoted to [int], so
    [typed[1] << 16] is an [int] and is converted to 64 bits with its sign;
    [typed[2]] is a non-negative [int]. *)
Definition GetMacHash (macaddr : bytes) : MacHash :=
  Z.lor (Z.lor (to_uint64 (Z.shiftl (to_uint64 (1 * typed macaddr 0)) 32))
               (to_uint64 (to_int (Z.shiftl (typed macaddr 1) 16))))
        (to_uint64 (typed macaddr 2)).

(** ** The daemon *)

(** What the daemon does to the outside: [send(fd, frame, len, MSG_NOSIGNAL)]
    with the value it returned, and [close(fd)]. *)
Inductive event :=
| EvSend (fd : Z) (frame : bytes) (num_written : Z)
| EvClose (fd : Z).

Definition trace := list event.

Definition is_send (e : event) : bool :=
  match e with EvSend _ _ _ => true | EvClose _ => false end.

(** The frames handed to [send] for [fd], each with what [send] returned. *)
Definition sends_to (fd : Z) (tr : trace) : list (bytes * Z) :=
  flat_map (fun e => match e with
                     | EvSend fd' frame n => if fd' =? fd then [(frame, n)] else []
                     | EvClose _ => []
                     end) tr.

(** How often [fd] was closed. *)
Definition closes_of (fd : Z) (tr : trace) : nat :=
  length (filter (fun e => match e with EvClose fd' => fd' =? fd | _ => false end) tr).

(** The operating system as the daemon sees it: the page size, and what a
    [send] returns after a given history. *)
Record System := {
  getpagesize : Z;
  sys_send : trace -> Z -> bytes -> Z
}.

(** The constants of common/libs/wifi/router.h, a header that is not part
    of the sources at hand. *)
Record RouterH := {
  WIFIROUTER_CMD_REGISTER : Z;
  WIFIROUTER_CMD_NOTIFY : Z;
  WIFIROUTER_ATTR_MAC : Z;
  WIFIROUTER_ATTR_PACKET : Z;
  WIFIROUTER_ATTR_MAX : Z
}.

(** The state [ServerLoop] owns, and the history of system calls. *)
Record State := {
  clients : ClientsTable;
  targets : MacToClientsTable;
  history : trace
}.

Definition initial_state : State :=
  {| clients := IntSet.empty; targets := MultiMap.empty; history := [] |}.

(** The [len] bytes at [buf] pass the checks of [RouteWIFIPacket]: they
    were received, are of the netlink type of the simulated radio and parse,
    with the transmitter address in the attribute [addr]. *)
Definition hwsim_notification (family len : Z) (buf : bytes) (addr : Z) : Prop :=
  0 <= len
  /\ Netlink.nlmsg_type buf = family
  /\ fst (Netlink.genlmsg_parse buf 0 HWSIM_ATTR_MAX) = 0
  /\ snd (Netlink.genlmsg_parse buf 0 HWSIM_ATTR_MAX) HWSIM_ATTR_ADDR_TRANSMITTER = Some addr.

(** The MAC attribute of a request, when [nlmsg_parse] accepts the request
    and finds one. *)
Definition mac_attribute (H : RouterH) (msg : bytes) : option Z :=
  let '(err, attrs) :=
    Netlink.nlmsg_parse msg sizeof_genlmsghdr (WIFIROUTER_ATTR_MAX H - 1) in
  if err =? 0 then attrs (WIFIROUTER_ATTR_MAC H) else None.

(** The check [HandleClientMessage] makes on what [recv] returned. *)
Definition bad_framing (size : Z) (msg : bytes) : bool :=
  (size =? 0) || negb (size =? Netlink.nlmsg_len msg) || (size <? sizeof_nlmsghdr).

Section Router.
Import Netlink.
Variable H : RouterH.
Variable sys : System.

Definition kMaxSupportedPacketSize : Z := getpagesize sys.

(** [send(fd, buf, len, MSG_NOSIGNAL)]: the call is recorded with the
    [len] bytes at [buf], and its return value handed back. *)
Definition send (tr : trace) (fd : Z) (buf : bytes) (len : Z) : Z * trace :=
  let frame := memcpy_src buf len in
  let num_written := sys_send sys tr fd frame in
  (num_written, tr ++ [EvSend fd frame num_written]).

(** [AcceptNewClient], given what [accept] returned. *)
Definition AcceptNewClient (client : Z) (st : State) : State :=
  if client <? 0 then st
  else {| clients := IntSet.insert client (clients st);
          targets := targets st; history := history st |}.

(** [RemoveClient(client, clients, targets)] *)
Definition RemoveClient (client : Z) (st : State) : State :=
  {| clients := IntSet.erase client (clients st);
     targets := MultiMap.erase_value client (targets st);
     history := history st ++ [EvClose client] |}.

(** The fan-out loop of [RouteWIFIPacket]: [it] runs from [find(key)]
    while it is not [end()] and its key is [key]. *)
Fixpoint fanout (key : MacHash) (hdr : bytes) (it : MultiMap.t)
         (tr : trace) (pending_removals : IntSet.t) : trace * IntSet.t :=
  match it with
  | [] => (tr, pending_removals)
  | (first, second) :: it' =>
      if first =? key then
        let '(num_written, tr') := send tr second hdr (nlmsg_len hdr) in
        let pending' :=
          if negb (num_written =? nlmsg_len hdr)
          then IntSet.insert second pending_removals
          else pending_removals in
        fanout key hdr it' tr' pending'
      else (tr, pending_removals)
  end.

(** The fan-out over a list of subscribers: the loop above without the
    walk through the multimap. *)
Fixpoint deliver (hdr : bytes) (subs : list Z) (tr : trace)
         (pending_removals : IntSet.t) : trace * IntSet.t :=
  match subs with
  | [] => (tr, pending_removals)
  | c :: subs' =>
      let '(num_written, tr') := send tr c hdr (nlmsg_len hdr) in
      deliver hdr subs' tr'
              (if negb (num_written =? nlmsg_len hdr)
               then IntSet.insert c pending_removals else pending_removals)
  end.

(** The [send] calls of a fan-out of [frame] to [subs] after history [tr]. *)
Fixpoint sent (frame : bytes) (subs : list Z) (tr : trace) : list event :=
  match subs with
  | [] => []
  | c :: subs' =>
      let e := EvSend c frame (sys_send sys tr c frame) in
      e :: sent frame subs' (tr ++ [e])
  end.

(** The message [RouteWIFIPacket] builds for a notification of [len]
    bytes at [buf] whose transmitter attribute is [addr]. *)
Definition notify_msg (len : Z) (buf : bytes) (addr : Z) : nl_msg :=
  nla_put
    (nla_put (genlmsg_put (nlmsg_alloc (getpagesize sys)) 0 0 0 0 0
                          (WIFIROUTER_CMD_NOTIFY H) 0)
             (WIFIROUTER_ATTR_MAC H) (nla_len buf addr) (at_offset buf (nla_data addr)))
    (WIFIROUTER_ATTR_PACKET H) len buf.

(** The acknowledgement [HandleClientMessage] builds. *)
Definition ack_msg (msg : bytes) (result : Z) : nl_msg :=
  nlmsg_append
    (fst (nlmsg_put (nlmsg_alloc (getpagesize sys)) (nlmsg_pid msg) (nlmsg_seq msg)
                    NLMSG_ERROR 0 0))
    (nlmsgerr_bytes result) sizeof_nlmsgerr 0.

(** [RouteWIFIPacket], given what [nl_recv] returned: the length [len]
    and the image [buf] of the buffer it allocated. *)
Definition RouteWIFIPacket (simfamily : Z) (len : Z) (buf : bytes) (st : State) : State :=
  if len <? 0 then st
  else
    let msg := buf in
    if negb (nlmsg_type msg =? simfamily) then st
    else
      let rep := genlmsg_put (nlmsg_alloc (getpagesize sys)) 0 0 0 0 0
                             (WIFIROUTER_CMD_NOTIFY H) 0 in
      let '(err, attrs) := genlmsg_parse msg 0 HWSIM_ATTR_MAX in
      if negb (err =? 0) then st
      else
        match attrs HWSIM_ATTR_ADDR_TRANSMITTER with
        | None => st
        | Some addr =>
            let rep := nla_put rep (WIFIROUTER_ATTR_MAC H) (nla_len msg addr)
                               (at_offset msg (nla_data addr)) in
            let rep := nla_put rep (WIFIROUTER_ATTR_PACKET H) len buf in
            let hdr := nlmsg_hdr rep in
            let key := GetMacHash (at_offset msg (nla_data addr)) in
            let '(tr, pending_removals) :=
              fanout key hdr (MultiMap.find key (targets st)) (history st) IntSet.empty in
            fold_left (fun st' client => RemoveClient client st') pending_removals
                      {| clients := clients st; targets := targets st; history := tr |}
        end.

(** The [switch (ghdr->cmd)] of [HandleClientMessage], entered with
    [result = -EINVAL]: the result code and the table it leaves. *)
Definition switch_cmd (client : Z) (msg : bytes) (targets : MacToClientsTable)
  : Z * MacToClientsTable :=
  if genl_cmd msg =? WIFIROUTER_CMD_REGISTER H then
    let '(err, attrs) := nlmsg_parse msg sizeof_genlmsghdr (WIFIROUTER_ATTR_MAX H - 1) in
    if err =? 0 then
      match attrs (WIFIROUTER_ATTR_MAC H) with
      | Some mac =>
          (0, MultiMap.emplace (GetMacHash (at_offset msg (nla_data mac))) client targets)
      | None => (- EINVAL, targets)
      end
    else (- EINVAL, targets)
  else (- EINVAL, targets).

(** [HandleClientMessage], given what [recv] returned: [size], and the
    image [msg] of the buffer of [kMaxSupportedPacketSize] bytes behind
    it.  The result is the returned flag and the new state. *)
Definition HandleClientMessage (client : Z) (size : Z) (msg : bytes) (st : State)
  : bool * State :=
  if (size =? 0) || negb (size =? nlmsg_len msg) || (size <? sizeof_nlmsghdr)
  then (false, st)
  else
    let '(result, targets') := switch_cmd client msg (targets st) in
    let rsp := nlmsg_alloc (getpagesize sys) in
    let rsp := fst (nlmsg_put rsp (nlmsg_pid msg) (nlmsg_seq msg) NLMSG_ERROR 0 0) in
    let rsp := nlmsg_append rsp (nlmsgerr_bytes result) sizeof_nlmsgerr 0 in
    let hdr := nlmsg_hdr rsp in
    let '(num_written, tr) := send (history st) client hdr (nlmsg_len hdr) in
    (num_written =? nlmsg_len hdr,
     {| clients := clients st; targets := targets'; history := tr |}).

(** What one pass of the loop of [ServerLoop] gets from the system. *)
Record Readiness := {
  select_ret : Z;
  ready : Z -> bool;
  accept_ret : Z;
  nl_recv_ret : Z * bytes;
  recv_ret : Z -> Z * bytes
}.

(** The loop over the clients: a client whose message is not handled is
    removed; the iterator has moved on before, so the walk is the one
    over the set as it was. *)
Fixpoint client_loop (isset : Z -> bool) (rx : Z -> Z * bytes)
         (cs : list Z) (st : State) : State :=
  match cs with
  | [] => st
  | cfd :: cs' =>
      let st' :=
        if isset cfd then
          let '(ok, st1) := HandleClientMessage cfd (fst (rx cfd)) (snd (rx cfd)) st in
          if negb ok then RemoveClient cfd st1 else st1
        else st in
      client_loop isset rx cs' st'
  end.

(** One pass of the [while (true)] of [ServerLoop]. *)
Definition ServerLoop_pass (server_fd netlink_fd family : Z) (r : Readiness)
           (st : State) : State :=
  let fdset := server_fd :: netlink_fd :: clients st in
  if select_ret r <=? 0 then st
  else
    let FD_ISSET fd := existsb (Z.eqb fd) fdset && ready r fd in
    let st1 := if FD_ISSET server_fd then AcceptNewClient (accept_ret r) st else st in
    let st2 := if FD_ISSET netlink_fd
               then RouteWIFIPacket family (fst (nl_recv_ret r)) (snd (nl_recv_ret r)) st1
               else st1 in
    client_loop FD_ISSET (recv_ret r) (clients st2) st2.

(** The states [ServerLoop] goes through. *)
Inductive reachable (server_fd netlink_fd family : Z) : State -> Prop :=
| reachable_init : reachable server_fd netlink_fd family initial_state
| reachable_pass : forall st r,
    reachable server_fd netlink_fd family st ->
    reachable server_fd netlink_fd family (ServerLoop_pass server_fd netlink_fd family r st).

End Router.

(** ** Sample inputs *)

Module Sample.
(** Values for the constants of router.h. *)
Definition router_h : RouterH :=
  {| WIFIROUTER_CMD_REGISTER := 1; WIFIROUTER_CMD_NOTIFY := 2;
     WIFIROUTER_ATTR_MAC := 1; WIFIROUTER_ATTR_PACKET := 2;
     WIFIROUTER_ATTR_MAX := 3 |}.

(** A system of 4096-byte pages where every [send] takes the whole frame. *)
Definition sys_ok : System :=
  {| getpagesize := 4096;
     sys_send := fun _ _ frame => Z.of_nat (length frame) |}.

(** The same, but every [send] to descriptor 5 fails. *)
Definition sys_fail5 : System :=
  {| getpagesize := 4096;
     sys_send := fun _ fd frame => if fd =? 5 then -1 else Z.of_nat (length frame) |}.

Definition server_fd : Z := 3.
Definition netlink_fd : Z := 4.
Definition family : Z := 25.

(** AA:BB:CC:DD:EE:FF *)
Definition mac_c : bytes := [Byte.xaa; Byte.xbb; Byte.xcc; Byte.xdd; Byte.xee; Byte.xff].
(** 02:00:00:80:00:01 and 04:00:00:80:00:01 *)
Definition mac_a : bytes := [Byte.x02; Byte.x00; Byte.x00; Byte.x80; Byte.x00; Byte.x01].
Definition mac_b : bytes := [Byte.x04; Byte.x00; Byte.x00; Byte.x80; Byte.x00; Byte.x01].

Definition payload : bytes := [Byte.x01; Byte.x02; Byte.x03].

(** A REGISTER request of 32 bytes: header, generic header, MAC attribute. *)
Definition register_request (pid seq : Z) (mac : bytes) : bytes :=
  le_split 4 32 ++ le_split 2 16 ++ le_split 2 1 ++ le_split 4 seq ++ le_split 4 pid
  ++ [Byte.x01; Byte.x00; Byte.x00; Byte.x00] ++ nla_wire 1 mac.

(** A REGISTER request of 17 bytes: too short for [nlmsg_parse]. *)
Definition short_request : bytes :=
  le_split 4 17 ++ le_split 2 16 ++ le_split 2 1 ++ le_split 4 42 ++ le_split 4 7
  ++ [Byte.x01].

(** A request whose header declares 40 bytes where 32 were received. *)
Definition mismatched_request : bytes :=
  le_split 4 40 ++ skipn 4 (register_request 7 42 mac_c).

(** A notification of the simulated radio: transmitter address
    (attribute 2) and frame (attribute 3). *)
Definition notification (mac frame : bytes) : bytes :=
  le_split 4 (20 + Z.of_nat (length (nla_wire 2 mac ++ nla_wire 3 frame)))
  ++ le_split 2 family ++ le_split 2 0 ++ le_split 4 0 ++ le_split 4 0
  ++ [Byte.x02; Byte.x00; Byte.x00; Byte.x00] ++ nla_wire 2 mac ++ nla_wire 3 frame.

(** A message of another netlink family. *)
Definition foreign_message : bytes :=
  le_split 4 20 ++ le_split 2 16 ++ le_split 2 0 ++ le_split 4 0 ++ le_split 4 0
  ++ [Byte.x01; Byte.x00; Byte.x00; Byte.x00].

(** Eight bytes of a notification, and what an earlier notification left
    behind them in the buffer [nl_recv] allocated. *)
Definition truncated : bytes := firstn 8 (notification mac_c payload).
Definition stale : bytes := skipn 8 (notification mac_c payload).

Definition state (cs : list Z) : State :=
  {| clients := cs; targets := MultiMap.empty; history := [] |}.

(** Client 5 has registered [mac]. *)
Definition registered (sys : System) (cs : list Z) (mac : bytes) : State :=
  snd (HandleClientMessage router_h sys 5 32 (register_request 7 42 mac) (state cs)).

(** Clients 5 and 6 have registered [mac_a], client 7 [mac_b]. *)
Definition three_clients (sys : System) : State :=
  snd (HandleClientMessage router_h sys 7 32 (register_request 7 3 mac_b)
    (snd (HandleClientMessage router_h sys 6 32 (register_request 6 2 mac_a)
      (snd (HandleClientMessage router_h sys 5 32 (register_request 5 1 mac_a)
                                (state [5; 6; 7])))))).

(** Passes of the loop: a client connects and is given descriptor 5;
    client 5 sends a REGISTER for [mac_c]; the kernel sends a notification
    from [mac_c]. *)
Definition pass_accept : Readiness :=
  {| select_ret := 1; ready := fun fd => fd =? server_fd; accept_ret := 5;
     nl_recv_ret := (0, []); recv_ret := fun _ => (0, []) |}.
Definition pass_register : Readiness :=
  {| select_ret := 1; ready := fun fd => fd =? 5; accept_ret := -1;
     nl_recv_ret := (0, []);
     recv_ret := fun _ => (32, register_request 7 42 mac_c) |}.
Definition pass_notify : Readiness :=
  {| select_ret := 1; ready := fun fd => fd =? netlink_fd; accept_ret := -1;
     nl_recv_ret := (Z.of_nat (length (notification mac_c payload)),
                     notification mac_c payload);
     recv_ret := fun _ => (0, []) |}.

Definition loop_pass (sys : System) : Readiness -> State -> State :=
  ServerLoop_pass router_h sys server_fd netlink_fd family.

(** The state after client 5 has connected and registered [mac_c] twice. *)
Definition registered_twice : State :=
  loop_pass sys_ok pass_register
    (loop_pass sys_ok pass_register (loop_pass sys_ok pass_accept initial_state)).
End Sample.

(** ** Requests on the wire *)

(** Attributes, each given by its type and payload, laid out one after
    another. *)
Definition attrs_wire (attrs : list (Z * bytes)) : bytes :=
  flat_map (fun a => nla_wire (fst a) (snd a)) attrs.

(** A generic netlink request as a client sends it: the netlink header
    with the length of the whole, the generic header, the attributes. *)
Definition request_wire (type flags seq pid cmd version : Z) (attrs : list (Z * bytes))
  : bytes :=
  le_split 4 (20 + Z.of_nat (length (attrs_wire attrs)))
  ++ le_split 2 type ++ le_split 2 flags ++ le_split 4 seq ++ le_split 4 pid
  ++ [byte.of_Z (to_uint8 cmd); byte.of_Z (to_uint8 version); Byte.x00; Byte.x00]
  ++ attrs_wire attrs.

(** Whether an attribute of [type] is among [attrs]. *)
Definition has_attr (type : Z) (attrs : list (Z * bytes)) : bool :=
  existsb (fun a => fst a =? type) attrs.

(** Types and payload lengths that fit the 14 and 16 bits of the
    attribute header. *)
Definition attr_fits (a : Z * bytes) : Prop :=
  0 <= fst a <= 16383 /\ 4 + Z.of_nat (length (snd a)) < 2 ^ 16.

(** ** Startup: [RegisterForHWSimNotifications], [CreateWifiRouterServerSocket], [main] *)

(** A function that may call [exit]. *)
Inductive outcome (A : Type) :=
| Returns (a : A)
| Exits (status : Z).
Arguments Returns {A} a.
Arguments Exits {A} status.

(** The calls the startup makes, with their arguments. *)
Inductive startup_call :=
| CallNlConnect (protocol : Z)
| CallGenlCtrlResolve (name : bytes)
| CallNlSendAuto (msg : bytes)
| CallNlWaitForAck
| CallSocket (domain type protocol : Z)
| CallBind (fd : Z) (addr : bytes)
| CallListen (fd backlog : Z).

Definition AF_UNIX : Z := 1.
Definition SOCK_SEQPACKET : Z := 5.
Definition NETLINK_GENERIC : Z := 16.
Definition NL_AUTO_PID : Z := 0.
Definition NL_AUTO_SEQ : Z := 0.
Definition NLM_F_REQUEST : Z := 1.
Definition sizeof_sun_path : Z := 108.
Definition offsetof_sun_path : Z := 2.

(** [kWifiSimFamilyName], "MAC80211_HWSIM". *)
Definition kWifiSimFamilyName : bytes :=
  [Byte.x4d; Byte.x41; Byte.x43; Byte.x38; Byte.x30; Byte.x32; Byte.x31; Byte.x31;
   Byte.x5f; Byte.x48; Byte.x57; Byte.x53; Byte.x49; Byte.x4d].

(** The request [RegisterForHWSimNotifications] hands to [nl_send_auto]. *)
Definition hwsim_register_msg (pagesize family : Z) : Netlink.nl_msg :=
  Netlink.genlmsg_put (Netlink.nlmsg_alloc pagesize) NL_AUTO_PID NL_AUTO_SEQ family 0
                      NLM_F_REQUEST HWSIM_CMD_REGISTER 0.

(** [RegisterForHWSimNotifications(sock, family)], given what
    [nl_wait_for_ack] returns. *)
Definition RegisterForHWSimNotifications (pagesize family res : Z)
  : list startup_call * outcome unit :=
  let msg := hwsim_register_msg pagesize family in
  let hdr := Netlink.nlmsg_hdr msg in
  let calls := [CallNlSendAuto (memcpy_src hdr (Netlink.nlmsg_len hdr)); CallNlWaitForAck] in
  if res <? 0 then (calls, Exits 1) else (calls, Returns tt).

(** [strncpy(dst, src.c_str(), n)]: the characters up to the first NUL of
    the string or to its end, and NULs up to [n] bytes. *)
Fixpoint strncpy (src : bytes) (n : nat) {struct n} : bytes :=
  match n with
  | O => []
  | S n' =>
      match src with
      | [] => repeat Byte.x00 n
      | c :: src' =>
          if Byte.eqb c Byte.x00 then repeat Byte.x00 n else c :: strncpy src' n'
      end
  end.

(** The length [CreateWifiRouterServerSocket] copies of the name. *)
Definition socket_name_len (socket_name : bytes) : Z :=
  Z.min (sizeof_sun_path - 2) (Z.of_nat (length socket_name)).

(** [sockaddr_un addr{}] after the assignments: the family, and in
    [sun_path] a NUL followed by the name. *)
Definition sockaddr_un_bytes (socket_name : bytes) : bytes :=
  let len := socket_name_len socket_name in
  le_split 2 AF_UNIX ++ [Byte.x00] ++ strncpy socket_name (Z.to_nat len)
  ++ repeat Byte.x00 (Z.to_nat (sizeof_sun_path - 1 - len)).

(** The address handed to [bind]: the first
    [len + offsetof(sockaddr_un, sun_path) + 1] bytes of [addr]. *)
Definition bind_address (socket_name : bytes) : bytes :=
  memcpy_src (sockaddr_un_bytes socket_name)
             (socket_name_len socket_name + (offsetof_sun_path + 1)).

(** [CreateWifiRouterServerSocket], given what [socket] and [bind] return. *)
Definition CreateWifiRouterServerSocket (socket_name : bytes) (socket_ret bind_ret : Z)
  : list startup_call * outcome Z :=
  let fd := socket_ret in
  let c1 := [CallSocket AF_UNIX SOCK_SEQPACKET 0] in
  if fd <=? 0 then (c1, Exits 1)
  else
    let c2 := c1 ++ [CallBind fd (bind_address socket_name)] in
    let res := bind_ret in
    if res <? 0 then (c2, Exits 1)
    else (c2 ++ [CallListen fd 4], Returns fd).

(** What the system answers during the startup. *)
Record StartupEnv := {
  nl_connect_ret : Z;
  genl_ctrl_resolve_ret : Z;
  nl_wait_for_ack_ret : Z;
  socket_ret : Z;
  bind_ret : Z
}.

(** [main] up to the call of [ServerLoop]: the calls made, and either the
    exit status or the arguments [(server_fd, family)] of [ServerLoop]. *)
Definition main_startup (pagesize : Z) (socket_name : bytes) (env : StartupEnv)
  : list startup_call * outcome (Z * Z) :=
  let c1 := [CallNlConnect NETLINK_GENERIC] in
  if nl_connect_ret env <? 0 then (c1, Exits 1)
  else
    let mac80211_family := genl_ctrl_resolve_ret env in
    let c2 := c1 ++ [CallGenlCtrlResolve kWifiSimFamilyName] in
    if mac80211_family <=? 0 then (c2, Exits 1)
    else
      match RegisterForHWSimNotifications pagesize mac80211_family (nl_wait_for_ack_ret env) with
      | (c3, Exits s) => (c2 ++ c3, Exits s)
      | (c3, Returns _) =>
          match CreateWifiRouterServerSocket socket_name (socket_ret env) (bind_ret env) with
          | (c4, Exits s) => (c2 ++ c3 ++ c4, Exits s)
          | (c4, Returns server_fd) => (c2 ++ c3 ++ c4, Returns (server_fd, mac80211_family))
          end
      end.

(** ** Notions for the properties of the loop *)

(** Every client of the subscription index is a connected client. *)
Definition index_within_clients (st : State) : Prop :=
  forall k c, In (k, c) (targets st) -> In c (clients st).

(** The layout of a fan-out frame without the packet attribute. *)
Definition mac_only_wire (cmd ty_mac : Z) (M : bytes) : bytes :=
  (le_split 4 32 ++ le_split 2 0 ++ le_split 2 0 ++ le_split 4 0 ++ le_split 4 0
     ++ [byte.of_Z (to_uint8 cmd); Byte.x00; Byte.x00; Byte.x00])
    ++ nla_wire ty_mac M.

(** The descriptors the [send]s of a history went to, in order. *)
Definition sent_fds (tr : trace) : list Z :=
  flat_map (fun e => match e with EvSend fd _ _ => [fd] | EvClose _ => [] end) tr.

(** ** More sample inputs *)

Module Scenario.
(** "cvd-wifirouter", the default of the flag [socket_name]. *)
Definition default_socket_name : bytes :=
  [Byte.x63; Byte.x76; Byte.x64; Byte.x2d; Byte.x77; Byte.x69; Byte.x66; Byte.x69;
   Byte.x72; Byte.x6f; Byte.x75; Byte.x74; Byte.x65; Byte.x72].

(** A startup where every call succeeds. *)
Definition good_startup : StartupEnv :=
  {| nl_connect_ret := 0; genl_ctrl_resolve_ret := 25; nl_wait_for_ack_ret := 0;
     socket_ret := 3; bind_ret := 0 |}.

(** 02:00:00:00:01:00 and 02:00:00:00:02:00, as the simulated radios have. *)
Definition mac_1 : bytes := [Byte.x02; Byte.x00; Byte.x00; Byte.x00; Byte.x01; Byte.x00].
Definition mac_2 : bytes := [Byte.x02; Byte.x00; Byte.x00; Byte.x00; Byte.x02; Byte.x00].

(** A request with a command the router does not know. *)
Definition unknown_request : bytes :=
  le_split 4 20 ++ le_split 2 16 ++ le_split 2 1 ++ le_split 4 42 ++ le_split 4 7
  ++ [Byte.x09; Byte.x00; Byte.x00; Byte.x00].

(** A notification whose frame is 4080 bytes long. *)
Definition large_notification : bytes :=
  Sample.notification Sample.mac_c (repeat Byte.x00 4080).
End Scenario.

(** * Properties *)

(** ** Integers and memory *)

(** Powers of two as numerals, for [lia]. *)
Ltac pow2 :=
  change (2 ^ 8) with 256 in *; change (2 ^ 15) with 32768 in *;
  change (2 ^ 16) with 65536 in *; change (2 ^ 31) with 2147483648 in *;
  change (2 ^ 32) with 4294967296 in *; change (2 ^ 48) with 281474976710656 in *;
  change (2 ^ 64) with 18446744073709551616 in *.

Lemma align_to_4 (x : Z) : Netlink.align_to 4 x = 4 * ((x + 3) / 4).
Proof.
  unfold Netlink.align_to. change (4 - 1) with (Z.ones 2).
  rewrite <- Z.ldiff_land, Z.ldiff_ones_r by lia.
  rewrite Z.shiftr_div_pow2, Z.shiftl_mul_pow2 by lia.
  change (2 ^ 2) with 4. change (Z.ones 2) with 3. lia.
Qed.

Lemma load_range (n : nat) (mem : bytes) (off : Z) :
  0 <= load n mem off < 2 ^ (8 * Z.of_nat n).
Proof.
  unfold load.
  pose proof (le_combine_bound (firstn n (skipn (Z.to_nat off) mem))) as B.
  pose proof (firstn_le_length n (skipn (Z.to_nat off) mem)) as L.
  split; [lia|].
  eapply Z.lt_le_trans; [apply B|].
  apply Z.pow_le_mono_r; lia.
Qed.

Lemma typed_range (m : bytes) (i : Z) : 0 <= typed m i < 2 ^ 16.
Proof. unfold typed. apply (load_range 2). Qed.

Lemma testbit_small (a k n : Z) : 0 <= a < 2 ^ k -> k <= n -> Z.testbit a n = false.
Proof.
  intros Ha Hk.
  destruct (Z.eq_dec a 0) as [-> |Hnz]; [apply Z.bits_0|].
  apply Z.bits_above_log2; [lia|].
  assert (Z.log2 a < k) by (apply Z.log2_lt_pow2; lia). lia.
Qed.

(** When bit 15 of [typed[1]] is set, [typed[1] << 16] is a negative [int];
    widened to 64 bits it has bits 32 to 63 all set. *)
Lemma shifted_word_high_bits (t1 n : Z) :
  2 ^ 15 <= t1 < 2 ^ 16 -> 32 <= n < 64 ->
  Z.testbit (to_uint64 (to_int (Z.shiftl t1 16))) n = true.
Proof.
  intros Ht Hn. unfold to_uint64, to_int.
  rewrite Z.shiftl_mul_pow2 by lia.
  replace n with ((n - 32) + 32) by lia.
  rewrite <- Z.div_pow2_bits by lia.
  replace (((t1 * 2 ^ 16 + 2 ^ 31) mod 2 ^ 32 - 2 ^ 31) mod 2 ^ 64 / 2 ^ 32)
    with (Z.ones 32).
  - apply Z.ones_spec_low. lia.
  - change (Z.ones 32) with 4294967295. pow2.
    assert (E1 : (t1 * 65536 + 2147483648) mod 4294967296 = t1 * 65536 - 2147483648)
      by (symmetry; apply Z.mod_unique with 1; lia).
    rewrite E1.
    assert (E2 : (t1 * 65536 - 2147483648 - 2147483648) mod 18446744073709551616
                 = 18446744069414584320 + t1 * 65536)
      by (symmetry; apply Z.mod_unique with (-1); lia).
    rewrite E2.
    apply Z.div_unique with (t1 * 65536); lia.
Qed.

Lemma first_word_masked (t0 t1 : Z) :
  0 <= t0 < 2 ^ 16 -> 2 ^ 15 <= t1 < 2 ^ 16 ->
  Z.lor (to_uint64 (Z.shiftl (to_uint64 (1 * t0)) 32))
        (to_uint64 (to_int (Z.shiftl t1 16)))
  = to_uint64 (to_int (Z.shiftl t1 16)).
Proof.
  intros H0 H1. apply Z.bits_inj'. intros n Hn.
  rewrite Z.lor_spec.
  destruct (Z.testbit (to_uint64 (Z.shiftl (to_uint64 (1 * t0)) 32)) n) eqn:E; [|reflexivity].
  simpl. symmetry.
  assert (Hv : to_uint64 (Z.shiftl (to_uint64 (1 * t0)) 32) = t0 * 2 ^ 32).
  { unfold to_uint64. rewrite Z.mul_1_l, (Z.mod_small t0) by (pow2; lia).
    rewrite Z.shiftl_mul_pow2 by lia. apply Z.mod_small. pow2. lia. }
  rewrite Hv in E.
  destruct (Z_lt_le_dec n 32) as [Hlo|Hhi].
  - rewrite Z.mul_pow2_bits_low in E by lia. discriminate.
  - destruct (Z_lt_le_dec n 48) as [Hlt|Hge].
    + apply shifted_word_high_bits; lia.
    + rewrite Z.mul_pow2_bits in E by lia.
      rewrite (testbit_small t0 16) in E by lia. discriminate.
Qed.

(** ** GetMacHash *)

(** C10: two distinct 6-byte addresses have the same hash; whenever bit 15
    of the second 16-bit word is set, the hash is the one of the second and
    third word alone, whatever the first word is. *)
Theorem GetMacHash_not_injective :
  (exists m1 m2 : bytes,
      length m1 = 6%nat /\ length m2 = 6%nat /\ m1 <> m2 /\
      GetMacHash m1 = GetMacHash m2)
  /\ (forall m : bytes,
         2 ^ 15 <= typed m 1 ->
         GetMacHash m =
         Z.lor (to_uint64 (to_int (Z.shiftl (typed m 1) 16))) (to_uint64 (typed m 2))
         /\ forall n, 32 <= n < 64 -> Z.testbit (GetMacHash m) n = true).
Proof.
  split.
  - exists [Byte.x02; Byte.x00; Byte.x00; Byte.x80; Byte.x00; Byte.x01],
           [Byte.x04; Byte.x00; Byte.x00; Byte.x80; Byte.x00; Byte.x01].
    split; [reflexivity|]. split; [reflexivity|].
    split; [discriminate | vm_compute; reflexivity].
  - intros m Hhi.
    pose proof (typed_range m 0). pose proof (typed_range m 1).
    unfold GetMacHash. rewrite first_word_masked by lia.
    split; [reflexivity|].
    intros n Hn. rewrite Z.lor_spec, shifted_word_high_bits by lia. reflexivity.
Qed.

Lemma GetMacHash_not_injective_witness :
  2 ^ 15 <= typed [Byte.x02; Byte.x00; Byte.x00; Byte.x80; Byte.x00; Byte.x01] 1
  /\ GetMacHash [Byte.x02; Byte.x00; Byte.x00; Byte.x80; Byte.x00; Byte.x01]
     = Z.lor (to_uint64 (to_int (Z.shiftl
                (typed [Byte.x02; Byte.x00; Byte.x00; Byte.x80; Byte.x00; Byte.x01] 1) 16)))
             (to_uint64 (typed [Byte.x02; Byte.x00; Byte.x00; Byte.x80; Byte.x00; Byte.x01] 2)).
Proof.
  assert (Hhi : 2 ^ 15 <= typed [Byte.x02; Byte.x00; Byte.x00; Byte.x80; Byte.x00; Byte.x01] 1)
    by (vm_compute; discriminate).
  split; [exact Hhi|].
  exact (proj1 (proj2 GetMacHash_not_injective _ Hhi)).
Defined.

(** ** The containers *)

Lemma filter_idem {A} (f : A -> bool) (l : list A) : filter f (filter f l) = filter f l.
Proof.
  induction l as [|a l IH]; simpl; [reflexivity|].
  destruct (f a) eqn:E; simpl; rewrite ?E, IH; reflexivity.
Qed.

Lemma filter_all {A} (f : A -> bool) (l : list A) :
  (forall a, In a l -> f a = true) -> filter f l = l.
Proof.
  induction l as [|a l IH]; simpl; intros Hl; [reflexivity|].
  rewrite (Hl a) by auto. f_equal. apply IH. auto.
Qed.

Lemma filter_none {A} (f : A -> bool) (l : list A) :
  (forall a, In a l -> f a = false) -> filter f l = [].
Proof.
  induction l as [|a l IH]; simpl; intros Hl; [reflexivity|].
  rewrite (Hl a) by auto. apply IH. auto.
Qed.

Lemma mem_In (x : Z) (s : IntSet.t) : IntSet.mem x s = true <-> In x s.
Proof.
  unfold IntSet.mem. rewrite existsb_exists. split.
  - intros (y & Hy & E). apply Z.eqb_eq in E. subst. exact Hy.
  - intros Hx. exists x. split; [exact Hx | apply Z.eqb_refl].
Qed.

Lemma In_erase (x y : Z) (s : IntSet.t) : In y (IntSet.erase x s) <-> In y s /\ y <> x.
Proof.
  unfold IntSet.erase. rewrite filter_In, negb_true_iff, Z.eqb_neq. tauto.
Qed.

Lemma mem_erase (x : Z) (s : IntSet.t) : IntSet.mem x (IntSet.erase x s) = false.
Proof.
  destruct (IntSet.mem x (IntSet.erase x s)) eqn:E; [|reflexivity].
  apply mem_In, In_erase in E. tauto.
Qed.

Lemma erase_absent (x : Z) (s : IntSet.t) : IntSet.mem x s = false -> IntSet.erase x s = s.
Proof.
  intros Hx. apply filter_all. intros a Ha.
  apply negb_true_iff, Z.eqb_neq. intros ->.
  apply mem_In in Ha. congruence.
Qed.

Lemma In_insert (x y : Z) (s : IntSet.t) : In y (IntSet.insert x s) <-> y = x \/ In y s.
Proof.
  induction s as [|z s IH]; simpl; [intuition|].
  destruct (x <? z) eqn:E1; simpl; [intuition|].
  destruct (x =? z) eqn:E2; simpl.
  - apply Z.eqb_eq in E2. subst. intuition.
  - rewrite IH. intuition.
Qed.

Lemma insert_increasing (x : Z) (s : IntSet.t) : increasing s -> increasing (IntSet.insert x s).
Proof.
  unfold increasing. induction s as [|z s IH]; simpl; intros Hs.
  - repeat constructor.
  - inversion Hs as [|? ? Hs' Hz]; subst.
    destruct (x <? z) eqn:E1.
    + apply Z.ltb_lt in E1. constructor; [exact Hs|].
      constructor; [exact E1|]. rewrite Forall_forall in *. intros y Hy.
      specialize (Hz y Hy). lia.
    + destruct (x =? z) eqn:E2; [exact Hs|].
      apply Z.ltb_ge in E1. apply Z.eqb_neq in E2.
      constructor; [apply IH; exact Hs'|].
      rewrite Forall_forall in *. intros y Hy. apply In_insert in Hy.
      destruct Hy as [-> |Hy]; [lia | apply Hz; exact Hy].
Qed.

Lemma increasing_NoDup (s : IntSet.t) : increasing s -> NoDup s.
Proof.
  unfold increasing. induction 1 as [|z s Hs IH Hz]; constructor; [|exact IH].
  rewrite Forall_forall in Hz. intros Hin. specialize (Hz z Hin). lia.
Qed.

Lemma erase_increasing (x : Z) (s : IntSet.t) : increasing s -> increasing (IntSet.erase x s).
Proof.
  unfold increasing, IntSet.erase. induction 1 as [|z s Hs IH Hz]; simpl; [constructor|].
  destruct (negb (z =? x)); [|exact IH].
  constructor; [exact IH|].
  rewrite Forall_forall in *. intros y Hy. apply filter_In in Hy. apply Hz, Hy.
Qed.

Lemma count_erase_value (k v : Z) (m : MultiMap.t) :
  MultiMap.count k v (MultiMap.erase_value v m) = 0%nat.
Proof.
  unfold MultiMap.count, MultiMap.erase_value.
  rewrite filter_none; [reflexivity|].
  intros e He. apply filter_In in He. destruct He as [_ He].
  apply negb_true_iff in He. rewrite He. apply andb_false_r.
Qed.

Lemma count_erase_other (k v c : Z) (m : MultiMap.t) :
  v <> c -> MultiMap.count k v (MultiMap.erase_value c m) = MultiMap.count k v m.
Proof.
  intros Hne. unfold MultiMap.count, MultiMap.erase_value.
  induction m as [|[k' v'] m IH]; simpl; [reflexivity|].
  destruct (v' =? c) eqn:E; simpl.
  - apply Z.eqb_eq in E. subst.
    replace (c =? v) with false by (symmetry; apply Z.eqb_neq; congruence).
    rewrite andb_false_r. exact IH.
  - destruct ((k' =? k) && (v' =? v)); simpl; rewrite IH; reflexivity.
Qed.

Lemma erase_value_absent (v : Z) (m : MultiMap.t) :
  (forall k, MultiMap.count k v m = 0%nat) -> MultiMap.erase_value v m = m.
Proof.
  intros Hc. apply filter_all. intros [k v'] He. simpl.
  apply negb_true_iff, Z.eqb_neq. intros ->.
  specialize (Hc k). unfold MultiMap.count in Hc.
  apply length_zero_iff_nil in Hc.
  assert (Hin : In (k, v) (filter (fun e => (fst e =? k) && (snd e =? v)) m)).
  { apply filter_In. split; [exact He|]. simpl. rewrite !Z.eqb_refl. reflexivity. }
  rewrite Hc in Hin. exact Hin.
Qed.

Lemma erase_value_ordered (v : Z) (m : MultiMap.t) :
  key_ordered m -> key_ordered (MultiMap.erase_value v m).
Proof.
  unfold key_ordered, MultiMap.erase_value.
  induction 1 as [|e m Hm IH He]; simpl; [constructor|].
  destruct (negb (snd e =? v)); [|exact IH].
  constructor; [exact IH|].
  rewrite Forall_forall in *. intros y Hy. apply filter_In in Hy. apply He, Hy.
Qed.

Lemma In_emplace (k v : Z) (e : Z * Z) (m : MultiMap.t) :
  In e (MultiMap.emplace k v m) <-> e = (k, v) \/ In e m.
Proof.
  induction m as [|[k' v'] m IH]; simpl; [intuition|].
  destruct (k <? k'); simpl; [intuition|]. rewrite IH. intuition.
Qed.

Lemma emplace_ordered (k v : Z) (m : MultiMap.t) :
  key_ordered m -> key_ordered (MultiMap.emplace k v m).
Proof.
  unfold key_ordered. induction 1 as [|[k' v'] m Hm IH He]; simpl.
  - repeat constructor.
  - destruct (k <? k') eqn:E.
    + apply Z.ltb_lt in E. constructor; [constructor; assumption|].
      constructor; [simpl; lia|].
      rewrite Forall_forall in *. intros y Hy. specialize (He y Hy). simpl in *. lia.
    + apply Z.ltb_ge in E. constructor; [exact IH|].
      rewrite Forall_forall in *. intros y Hy. apply In_emplace in Hy.
      destruct Hy as [-> |Hy]; [simpl; lia | apply He; exact Hy].
Qed.

(** Registering under [k] appends to the subscribers of [k] and leaves the
    subscribers of every other key alone. *)
Lemma subscribers_emplace_same (k v : Z) (m : MultiMap.t) :
  key_ordered m ->
  subscribers k (MultiMap.emplace k v m) = subscribers k m ++ [v].
Proof.
  unfold key_ordered, subscribers. induction 1 as [|[k' v'] m Hm IH He]; simpl.
  - rewrite Z.eqb_refl. reflexivity.
  - destruct (k <? k') eqn:E; simpl.
    + apply Z.ltb_lt in E. rewrite Z.eqb_refl.
      replace (k' =? k) with false by (symmetry; apply Z.eqb_neq; lia).
      rewrite filter_none; [reflexivity|].
      intros y Hy. rewrite Forall_forall in He. specialize (He y Hy). simpl in He.
      apply Z.eqb_neq. lia.
    + destruct (k' =? k); simpl; rewrite IH; reflexivity.
Qed.

Lemma subscribers_emplace_other (key k v : Z) (m : MultiMap.t) :
  key <> k -> subscribers key (MultiMap.emplace k v m) = subscribers key m.
Proof.
  intros Hne. unfold subscribers. induction m as [|[k' v'] m IH]; simpl.
  - replace (k =? key) with false by (symmetry; apply Z.eqb_neq; congruence). reflexivity.
  - destruct (k <? k'); simpl.
    + replace (k =? key) with false by (symmetry; apply Z.eqb_neq; congruence). reflexivity.
    + destruct (k' =? key); simpl; rewrite IH; reflexivity.
Qed.

Lemma count_emplace_same (k v : Z) (m : MultiMap.t) :
  MultiMap.count k v (MultiMap.emplace k v m) = S (MultiMap.count k v m).
Proof.
  unfold MultiMap.count. induction m as [|[k' v'] m IH]; simpl.
  - rewrite !Z.eqb_refl. reflexivity.
  - destruct (k <? k'); simpl.
    + rewrite !Z.eqb_refl. reflexivity.
    + destruct ((k' =? k) && (v' =? v)); simpl; rewrite IH; reflexivity.
Qed.

Lemma count_emplace_other (k v k0 v0 : Z) (m : MultiMap.t) :
  (k0, v0) <> (k, v) ->
  MultiMap.count k0 v0 (MultiMap.emplace k v m) = MultiMap.count k0 v0 m.
Proof.
  intros Hne. unfold MultiMap.count.
  assert (E : (k =? k0) && (v =? v0) = false).
  { apply andb_false_iff. destruct (Z.eqb_spec k k0), (Z.eqb_spec v v0); subst; auto.
    congruence. }
  induction m as [|[k' v'] m IH]; simpl.
  - rewrite E. reflexivity.
  - destruct (k <? k'); simpl.
    + rewrite E. reflexivity.
    + destruct ((k' =? k0) && (v' =? v0)); simpl; rewrite IH; reflexivity.
Qed.

(** How often a client occurs among the subscribers of a key is how often
    the pair occurs in the table. *)
Lemma count_occ_subscribers (k v : Z) (m : MultiMap.t) :
  count_occ Z.eq_dec (subscribers k m) v = MultiMap.count k v m.
Proof.
  unfold subscribers, MultiMap.count. induction m as [|[k' v'] m IH]; simpl; [reflexivity|].
  destruct (k' =? k); simpl; [|exact IH].
  destruct (Z.eq_dec v' v) as [-> |Hne].
  - rewrite Z.eqb_refl. simpl. rewrite IH. reflexivity.
  - replace (v' =? v) with false by (symmetry; apply Z.eqb_neq; exact Hne). exact IH.
Qed.

Lemma subscribers_erase_value (k c : Z) (m : MultiMap.t) :
  subscribers k (MultiMap.erase_value c m) = filter (fun v => negb (v =? c)) (subscribers k m).
Proof.
  unfold subscribers, MultiMap.erase_value. induction m as [|[k' v'] m IH]; simpl; [reflexivity|].
  destruct (negb (v' =? c)) eqn:E2; simpl; destruct (k' =? k) eqn:E1; simpl;
    rewrite ?E2; simpl; rewrite IH; reflexivity.
Qed.

Lemma ordered_split (k : Z) (m : MultiMap.t) :
  key_ordered m -> (forall e, In e m -> k <= fst e) ->
  exists rest,
    m = filter (fun e => fst e =? k) m ++ rest /\ forall e, In e rest -> k < fst e.
Proof.
  unfold key_ordered. induction 1 as [|[k' v'] m Hm IH He]; simpl; intros Hge.
  - exists []. split; [reflexivity | intros e []].
  - destruct (k' =? k) eqn:E.
    + destruct IH as (rest & Hf & Hr); [intros e He'; apply Hge; auto|].
      exists rest. split; [|exact Hr]. simpl. f_equal. exact Hf.
    + apply Z.eqb_neq in E. exists ((k', v') :: m). split.
      * rewrite filter_none; [reflexivity|].
        intros y Hy. rewrite Forall_forall in He. specialize (He y Hy). simpl in He.
        specialize (Hge (k', v') (or_introl eq_refl)). simpl in Hge.
        apply Z.eqb_neq. lia.
      * intros e [<-|Hin].
        -- specialize (Hge (k', v') (or_introl eq_refl)). simpl in *. lia.
        -- specialize (Hge (k', v') (or_introl eq_refl)).
           rewrite Forall_forall in He. specialize (He e Hin). simpl in *. lia.
Qed.

(** On an ordered table, [find] leads to the subscribers of the key
    followed by elements of greater keys only. *)
Lemma find_ordered (k : Z) (m : MultiMap.t) :
  key_ordered m ->
  exists rest,
    MultiMap.find k m = filter (fun e => fst e =? k) m ++ rest
    /\ forall e, In e rest -> k < fst e.
Proof.
  intros Hord. pose proof Hord as Hord'. revert Hord'.
  unfold key_ordered. induction 1 as [|[k' v'] m Hm IH He]; simpl.
  - exists []. split; [reflexivity | intros e []].
  - assert (Hm' : key_ordered m) by exact Hm.
    destruct (k' <? k) eqn:E1.
    + apply Z.ltb_lt in E1.
      replace (k' =? k) with false by (symmetry; apply Z.eqb_neq; lia). exact (IH Hm').
    + apply Z.ltb_ge in E1. destruct (k' =? k) eqn:E2.
      * apply Z.eqb_eq in E2. subst k'.
        destruct (ordered_split k m Hm') as (rest & Hf & Hr).
        { intros e Hin. rewrite Forall_forall in He. exact (He e Hin). }
        exists rest. split; [|exact Hr]. simpl. f_equal. exact Hf.
      * apply Z.eqb_neq in E2. exists []. split.
        -- rewrite app_nil_r. symmetry. apply filter_none.
           intros y Hy. rewrite Forall_forall in He. specialize (He y Hy). simpl in He.
           apply Z.eqb_neq. lia.
        -- intros e [].
Qed.

(** ** RemoveClient *)

(** C4: removing a client is total (the result of [close] is not looked
    at); afterwards the client is in neither table, a second removal changes
    neither table, and removing a client that is in neither table changes
    neither table. *)
Theorem RemoveClient_idempotent (client : Z) (st : State) :
  let st1 := RemoveClient client st in
  let st2 := RemoveClient client st1 in
  IntSet.mem client (clients st1) = false
  /\ (forall k, MultiMap.count k client (targets st1) = 0%nat)
  /\ clients st2 = clients st1
  /\ targets st2 = targets st1
  /\ history st2 = history st ++ [EvClose client; EvClose client]
  /\ (IntSet.mem client (clients st) = false ->
      (forall k, MultiMap.count k client (targets st) = 0%nat) ->
      clients st1 = clients st /\ targets st1 = targets st).
Proof.
  simpl. split; [apply mem_erase|].
  split; [intros k; apply count_erase_value|].
  split; [apply filter_idem|].
  split; [apply filter_idem|].
  split; [rewrite <- app_assoc; reflexivity|].
  intros Hc Ht. split; [apply erase_absent; exact Hc | apply erase_value_absent; exact Ht].
Qed.

Lemma fold_RemoveClient_history (l : list Z) (st : State) :
  history (fold_left (fun st' c => RemoveClient c st') l st) = history st ++ map EvClose l.
Proof.
  revert st. induction l as [|c l IH]; intros st; simpl.
  - rewrite app_nil_r. reflexivity.
  - rewrite IH. simpl. rewrite <- app_assoc. reflexivity.
Qed.

Lemma fold_RemoveClient_clients (l : list Z) (st : State) (x : Z) :
  In x (clients (fold_left (fun st' c => RemoveClient c st') l st))
  <-> In x (clients st) /\ ~ In x l.
Proof.
  revert st. induction l as [|c l IH]; intros st; simpl; [tauto|].
  rewrite IH. simpl. rewrite In_erase. intuition congruence.
Qed.

Lemma fold_RemoveClient_subscribers (l : list Z) (st : State) (k : Z) :
  subscribers k (targets (fold_left (fun st' c => RemoveClient c st') l st))
  = filter (fun v => negb (IntSet.mem v l)) (subscribers k (targets st)).
Proof.
  revert st. induction l as [|c l IH]; intros st; simpl.
  - symmetry. apply filter_all. reflexivity.
  - rewrite IH. simpl. rewrite subscribers_erase_value.
    generalize (subscribers k (targets st)). intros s.
    induction s as [|v s IHs]; simpl; [reflexivity|].
    unfold IntSet.mem in *. simpl. rewrite (Z.eqb_sym v c).
    destruct (c =? v); simpl; rewrite IHs; reflexivity.
Qed.

Lemma fold_RemoveClient_count (l : list Z) (st : State) (k v : Z) :
  MultiMap.count k v (targets (fold_left (fun st' c => RemoveClient c st') l st))
  = if IntSet.mem v l then 0%nat else MultiMap.count k v (targets st).
Proof.
  revert st. induction l as [|c l IH]; intros st; simpl; [reflexivity|].
  rewrite IH. unfold IntSet.mem. simpl.
  destruct (existsb (Z.eqb v) l); [rewrite orb_true_r; reflexivity|].
  rewrite orb_false_r. destruct (Z.eqb_spec v c) as [-> |Hne].
  - apply count_erase_value.
  - apply count_erase_other. exact Hne.
Qed.

Lemma fold_RemoveClient_ordered (l : list Z) (st : State) :
  key_ordered (targets st) ->
  key_ordered (targets (fold_left (fun st' c => RemoveClient c st') l st)).
Proof.
  revert st. induction l as [|c l IH]; intros st Hord; simpl; [exact Hord|].
  apply IH. simpl. apply erase_value_ordered. exact Hord.
Qed.

Lemma fold_RemoveClient_increasing (l : list Z) (st : State) :
  increasing (clients st) ->
  increasing (clients (fold_left (fun st' c => RemoveClient c st') l st)).
Proof.
  revert st. induction l as [|c l IH]; intros st Hord; simpl; [exact Hord|].
  apply IH. simpl. apply erase_increasing. exact Hord.
Qed.

(** ** The fan-out *)

Section FanOut.
Variable sys : System.
Variable hdr : bytes.
Let frame := memcpy_src hdr (Netlink.nlmsg_len hdr).

Lemma fanout_deliver (key : Z) (l rest : MultiMap.t) (tr : trace) (p : IntSet.t) :
  (forall e, In e l -> fst e = key) ->
  (forall e, In e rest -> key < fst e) ->
  fanout sys key hdr (l ++ rest) tr p = deliver sys hdr (map snd l) tr p.
Proof.
  revert tr p. induction l as [|[k v] l IH]; intros tr p Hl Hr; simpl.
  - destruct rest as [|[k v] rest]; [reflexivity|]. simpl.
    specialize (Hr (k, v) (or_introl eq_refl)). simpl in Hr.
    replace (k =? key) with false by (symmetry; apply Z.eqb_neq; lia). reflexivity.
  - pose proof (Hl (k, v) (or_introl eq_refl)) as Hk. simpl in Hk. subst k.
    rewrite Z.eqb_refl.
    destruct (send sys tr v hdr (Netlink.nlmsg_len hdr)) as [n tr'].
    apply IH; [intros e He; apply Hl; right; exact He | exact Hr].
Qed.

Lemma fanout_find (key : Z) (m : MultiMap.t) (tr : trace) (p : IntSet.t) :
  key_ordered m ->
  fanout sys key hdr (MultiMap.find key m) tr p = deliver sys hdr (subscribers key m) tr p.
Proof.
  intros Hord. destruct (find_ordered key m Hord) as (rest & Hf & Hr).
  rewrite Hf. apply fanout_deliver; [|exact Hr].
  intros e He. apply filter_In in He. apply Z.eqb_eq, He.
Qed.

Lemma deliver_history (subs : list Z) (tr : trace) (p : IntSet.t) :
  fst (deliver sys hdr subs tr p) = tr ++ sent sys frame subs tr.
Proof.
  revert tr p. induction subs as [|c subs IH]; intros tr p; simpl.
  - rewrite app_nil_r. reflexivity.
  - rewrite IH. rewrite <- app_assoc. reflexivity.
Qed.

Lemma deliver_pending (subs : list Z) (tr : trace) (p : IntSet.t) (c : Z) :
  In c (snd (deliver sys hdr subs tr p))
  <-> In c p \/ exists n, In (EvSend c frame n) (sent sys frame subs tr)
                          /\ n <> Netlink.nlmsg_len hdr.
Proof.
  revert tr p. induction subs as [|c0 subs IH]; intros tr p; simpl.
  - split; [auto | intros [Hp|(n & [] & _)]; exact Hp].
  - rewrite IH. fold frame.
    destruct (Z.eqb_spec (sys_send sys tr c0 frame) (Netlink.nlmsg_len hdr)) as [E|E]; simpl.
    + split.
      * intros [Hp|(n & Hin & Hn)]; [left; exact Hp | right; exists n; auto].
      * intros [Hp|(n & [Heq|Hin] & Hn)]; [left; exact Hp | | right; exists n; auto].
        inversion Heq; subst. congruence.
    + rewrite In_insert. split.
      * intros [[-> |Hp]|(n & Hin & Hn)]; [right | left; exact Hp | right; exists n; auto].
        exists (sys_send sys tr c0 frame). split; [left; reflexivity | exact E].
      * intros [Hp|(n & [Heq|Hin] & Hn)]; [left; right; exact Hp | | right; exists n; auto].
        inversion Heq; subst. left; left; reflexivity.
Qed.

Lemma deliver_increasing (subs : list Z) (tr : trace) (p : IntSet.t) :
  increasing p -> increasing (snd (deliver sys hdr subs tr p)).
Proof.
  revert tr p. induction subs as [|c subs IH]; intros tr p Hp; simpl; [exact Hp|].
  apply IH. destruct (negb _); [apply insert_increasing|]; exact Hp.
Qed.

Lemma sent_all_sends (subs : list Z) (tr : trace) :
  forallb is_send (sent sys frame subs tr) = true.
Proof.
  revert tr. induction subs as [|c subs IH]; intros tr; simpl; [reflexivity | apply IH].
Qed.

Lemma sent_In (subs : list Z) (tr : trace) (e : event) :
  In e (sent sys frame subs tr) -> exists c n, e = EvSend c frame n /\ In c subs.
Proof.
  revert tr. induction subs as [|c subs IH]; intros tr; simpl; [intros []|].
  intros [<-|Hin]; [eauto|].
  destruct (IH _ Hin) as (c' & n & -> & Hc). eauto.
Qed.

Lemma In_sent (subs : list Z) (tr : trace) (c : Z) :
  In c subs -> exists n, In (EvSend c frame n) (sent sys frame subs tr).
Proof.
  revert tr. induction subs as [|c0 subs IH]; intros tr; simpl; [intros []|].
  intros [-> |Hin]; [eauto|].
  destruct (IH (tr ++ [EvSend c0 frame (sys_send sys tr c0 frame)]) Hin) as (n & Hn). eauto.
Qed.

(** The frames sent to [c]: the same frame, once for each time [c] is
    among the subscribers. *)
Lemma sends_to_sent (subs : list Z) (tr : trace) (c : Z) :
  map fst (sends_to c (sent sys frame subs tr))
  = repeat frame (count_occ Z.eq_dec subs c).
Proof.
  revert tr. induction subs as [|c0 subs IH]; intros tr; simpl; [reflexivity|].
  destruct (Z.eq_dec c0 c) as [-> |Hne].
  - rewrite Z.eqb_refl. simpl. rewrite IH. reflexivity.
  - replace (c0 =? c) with false by (symmetry; apply Z.eqb_neq; exact Hne).
    simpl. apply IH.
Qed.

(** When every [send] to [c] is complete, each frame sent to [c] is
    recorded as written in full. *)
Lemma sends_to_sent_complete (subs : list Z) (tr : trace) (c : Z) :
  (forall tr', sys_send sys tr' c frame = Netlink.nlmsg_len hdr) ->
  sends_to c (sent sys frame subs tr)
  = repeat (frame, Netlink.nlmsg_len hdr) (count_occ Z.eq_dec subs c).
Proof.
  intros Hok. revert tr. induction subs as [|c0 subs IH]; intros tr; simpl; [reflexivity|].
  destruct (Z.eq_dec c0 c) as [-> |Hne].
  - rewrite Z.eqb_refl. simpl. rewrite IH, Hok. reflexivity.
  - replace (c0 =? c) with false by (symmetry; apply Z.eqb_neq; exact Hne).
    simpl. apply IH.
Qed.
End FanOut.

Lemma sends_to_app (c : Z) (t1 t2 : trace) : sends_to c (t1 ++ t2) = sends_to c t1 ++ sends_to c t2.
Proof. unfold sends_to. apply flat_map_app. Qed.

Lemma sends_to_closes (c : Z) (l : list Z) : sends_to c (map EvClose l) = [].
Proof. induction l as [|x l IH]; simpl; [reflexivity | exact IH]. Qed.

(** What [RouteWIFIPacket] does with a notification of the simulated radio
    that carries a transmitter attribute [addr]: the frame goes to the
    subscribers of the key of the address, in the order of the table, and
    then the subscribers a [send] failed for are removed, in increasing
    order. *)
Lemma RouteWIFIPacket_routes (H : RouterH) (sys : System) (family len : Z) (buf : bytes)
      (st : State) (addr : Z) :
  hwsim_notification family len buf addr ->
  key_ordered (targets st) ->
  let hdr := Netlink.nlmsg_hdr (notify_msg H sys len buf addr) in
  let key := GetMacHash (at_offset buf (Netlink.nla_data addr)) in
  let r := deliver sys hdr (subscribers key (targets st)) (history st) IntSet.empty in
  RouteWIFIPacket H sys family len buf st
  = fold_left (fun st' c => RemoveClient c st') (snd r)
              {| clients := clients st; targets := targets st; history := fst r |}.
Proof.
  intros (Hlen & Hty & Herr & Hattr) Hord. unfold RouteWIFIPacket.
  replace (len <? 0) with false by (symmetry; apply Z.ltb_ge; exact Hlen).
  rewrite Hty, Z.eqb_refl. simpl negb. cbv iota.
  destruct (Netlink.genlmsg_parse buf 0 HWSIM_ATTR_MAX) as [err attrs]. simpl in Herr, Hattr.
  subst err. simpl. rewrite Hattr.
  rewrite fanout_find by exact Hord.
  fold (notify_msg H sys len buf addr).
  destruct (deliver sys _ _ _ _) as [tr pend]. reflexivity.
Qed.


Lemma count_occ_filter (f : Z -> bool) (l : list Z) (c : Z) :
  count_occ Z.eq_dec (filter f l) c = if f c then count_occ Z.eq_dec l c else 0%nat.
Proof.
  induction l as [|x l IH]; simpl; [destruct (f c); reflexivity|].
  destruct (Z.eq_dec x c) as [-> |Hne].
  - destruct (f c) eqn:E; simpl; [|exact IH].
    destruct (Z.eq_dec c c); [|contradiction]. rewrite IH. reflexivity.
  - destruct (f x); simpl; [|exact IH].
    destruct (Z.eq_dec x c); [contradiction | exact IH].
Qed.

Lemma mem_false_iff (x : Z) (s : IntSet.t) : IntSet.mem x s = false <-> ~ In x s.
Proof.
  rewrite <- mem_In. destruct (IntSet.mem x s); intuition congruence.
Qed.

(** The events of a second notification for a key after a set [removed]
    of clients was removed: to each client the frame once per remaining
    registration, and none to a removed client. *)
Lemma route_after_removal (H : RouterH) (sys : System) (family len : Z) (buf : bytes)
      (st : State) (addr : Z) (removed : list Z) :
  hwsim_notification family len buf addr ->
  key_ordered (targets st) ->
  let key := GetMacHash (at_offset buf (Netlink.nla_data addr)) in
  let hdr := Netlink.nlmsg_hdr (notify_msg H sys len buf addr) in
  let st1 := fold_left (fun st' c => RemoveClient c st') removed st in
  exists evs,
    history (RouteWIFIPacket H sys family len buf st1) = history st1 ++ evs
    /\ forall c, map fst (sends_to c evs)
                 = repeat (memcpy_src hdr (Netlink.nlmsg_len hdr))
                          (if IntSet.mem c removed then 0%nat
                           else MultiMap.count key c (targets st)).
Proof.
  intros Hn Hord key hdr st1.
  assert (Hord1 : key_ordered (targets st1)) by (apply fold_RemoveClient_ordered; exact Hord).
  rewrite (RouteWIFIPacket_routes H sys family len buf st1 addr Hn Hord1).
  fold key hdr. rewrite fold_RemoveClient_history. simpl.
  rewrite deliver_history.
  eexists. split; [rewrite <- app_assoc; reflexivity|].
  intros c. rewrite sends_to_app, sends_to_closes, app_nil_r, sends_to_sent.
  f_equal. unfold st1. rewrite fold_RemoveClient_subscribers, count_occ_filter.
  rewrite count_occ_subscribers. destruct (IntSet.mem c removed); reflexivity.
Qed.


(** ** Reading what was written *)

Lemma gtb_false (a b : Z) : a <= b -> (a >? b) = false.
Proof. intros. rewrite Z.gtb_ltb. apply Z.ltb_ge. lia. Qed.

Lemma gtb_true (a b : Z) : b < a -> (a >? b) = true.
Proof. intros. rewrite Z.gtb_ltb. apply Z.ltb_lt. lia. Qed.


Lemma load_at (n : nat) (pre post : bytes) (v : Z) :
  load n (pre ++ le_split n v ++ post) (Z.of_nat (length pre)) = v mod 2 ^ (Z.of_nat n * 8).
Proof.
  unfold load. rewrite Nat2Z.id, skipn_app, skipn_all, Nat.sub_diag. simpl.
  rewrite firstn_app, length_le_split, Nat.sub_diag. simpl.
  rewrite app_nil_r.
  rewrite <- (length_le_split n v) at 1. rewrite firstn_all.
  apply le_combine_split.
Qed.

Lemma load_at_offset (n : nat) (pre post : bytes) (v off : Z) :
  off = Z.of_nat (length pre) ->
  load n (pre ++ le_split n v ++ post) off = v mod 2 ^ (Z.of_nat n * 8).
Proof. intros ->. apply load_at. Qed.

Lemma load_first (n : nat) (post : bytes) (v : Z) :
  load n (le_split n v ++ post) 0 = v mod 2 ^ (Z.of_nat n * 8).
Proof. exact (load_at n [] post v). Qed.

Lemma load_skip (n : nat) (pre mem : bytes) (off : Z) :
  0 <= off ->
  load n (pre ++ mem) (Z.of_nat (length pre) + off) = load n mem off.
Proof.
  intros Hoff. unfold load.
  rewrite Z2Nat.inj_add, Nat2Z.id by lia.
  rewrite skipn_app.
  replace (length pre + Z.to_nat off - length pre)%nat with (Z.to_nat off) by lia.
  rewrite (skipn_all2 pre) by lia. reflexivity.
Qed.

Lemma memcpy_src_exact (src : bytes) (len : Z) :
  Z.of_nat (length src) = len -> memcpy_src src len = src.
Proof.
  intros <-. unfold memcpy_src. rewrite Nat2Z.id, firstn_app, Nat.sub_diag. simpl.
  rewrite firstn_all, app_nil_r. reflexivity.
Qed.

Lemma memcpy_src_app (src rest : bytes) (len : Z) :
  Z.of_nat (length src) = len -> memcpy_src (src ++ rest) len = src.
Proof.
  intros <-. unfold memcpy_src. rewrite Nat2Z.id, <- app_assoc, firstn_app, Nat.sub_diag.
  simpl. rewrite firstn_all, app_nil_r. reflexivity.
Qed.

Lemma length_memcpy_src (src : bytes) (len : Z) : length (memcpy_src src len) = Z.to_nat len.
Proof.
  unfold memcpy_src. rewrite length_firstn, length_app, repeat_length. lia.
Qed.

Lemma le_split_to_uint32 (v : Z) : le_split 4 (to_uint32 v) = le_split 4 v.
Proof. unfold to_uint32. symmetry. apply (le_split_mod v 4). Qed.

Lemma le_split_to_uint16 (v : Z) : le_split 2 (to_uint16 v) = le_split 2 v.
Proof. unfold to_uint16. symmetry. apply (le_split_mod v 2). Qed.

(** ** The acknowledgement *)

(** The 36 bytes of the acknowledgement: a header of type [NLMSG_ERROR]
    with the sequence number and port of the request, the result and a
    zeroed header. *)
Lemma ack_msg_bytes (sys : System) (msg : bytes) (result : Z) :
  36 <= getpagesize sys ->
  Netlink.nlmsg_hdr (ack_msg sys msg result)
  = (le_split 4 36 ++ le_split 2 2 ++ le_split 2 0)
      ++ le_split 4 (Netlink.nlmsg_seq msg)
      ++ le_split 4 (Netlink.nlmsg_pid msg)
      ++ le_split 4 result ++ repeat Byte.x00 16.
Proof.
  intros Hpage. unfold ack_msg, Netlink.nlmsg_append, Netlink.nlmsg_put, Netlink.nlmsg_reserve.
  simpl fst. cbn [Netlink.nm_size Netlink.nlmsg_alloc].
  unfold sizeof_nlmsgerr, Netlink.nm_len. cbn [Netlink.nm_payload length].
  replace (20 >? getpagesize sys) with false by (symmetry; apply gtb_false; lia).
  rewrite Z.eqb_refl.
  replace (20 + (Netlink.NLMSG_HDRLEN + Z.of_nat 0) >? getpagesize sys) with false
    by (symmetry; apply gtb_false; unfold Netlink.NLMSG_HDRLEN; lia).
  unfold Netlink.nlmsg_hdr, Netlink.with_payload, Netlink.nm_len.
  cbn [Netlink.nm_payload Netlink.nm_type Netlink.nm_flags Netlink.nm_seq Netlink.nm_pid].
  rewrite le_split_to_uint32, le_split_to_uint32.
  rewrite memcpy_src_exact
    by (unfold nlmsgerr_bytes; rewrite length_app, length_le_split, repeat_length; reflexivity).
  reflexivity.
Qed.

Lemma ack_fields (sys : System) (msg : bytes) (result : Z) :
  36 <= getpagesize sys ->
  let ack := Netlink.nlmsg_hdr (ack_msg sys msg result) in
  Netlink.nlmsg_len ack = 36
  /\ Z.of_nat (length ack) = 36
  /\ Netlink.nlmsg_type ack = Netlink.NLMSG_ERROR
  /\ Netlink.nlmsg_seq ack = Netlink.nlmsg_seq msg
  /\ Netlink.nlmsg_pid ack = Netlink.nlmsg_pid msg
  /\ load 4 ack 16 = to_uint32 result.
Proof.
  intros Hpage ack. unfold ack. rewrite ack_msg_bytes by exact Hpage.
  set (seq := Netlink.nlmsg_seq msg). set (pid := Netlink.nlmsg_pid msg).
  set (tail := repeat Byte.x00 16).
  split; [|split; [|split; [|split; [|split]]]].
  - rewrite <- !app_assoc.
    exact (load_at 4 [] (le_split 2 2 ++ le_split 2 0 ++ le_split 4 seq ++ le_split 4 pid
                           ++ le_split 4 result ++ tail) 36).
  - unfold tail. rewrite !length_app, !length_le_split, repeat_length. reflexivity.
  - rewrite <- !app_assoc.
    exact (load_at 2 (le_split 4 36) (le_split 2 0 ++ le_split 4 seq ++ le_split 4 pid
                                        ++ le_split 4 result ++ tail) 2).
  - unfold Netlink.nlmsg_seq at 1.
    rewrite (load_at_offset 4 (le_split 4 36 ++ le_split 2 2 ++ le_split 2 0)
                            (le_split 4 pid ++ le_split 4 result ++ tail) seq 8)
      by reflexivity.
    apply Z.mod_small. apply (load_range 4).
  - unfold Netlink.nlmsg_pid at 1.
    rewrite (app_assoc _ (le_split 4 seq)).
    rewrite (load_at_offset 4 ((le_split 4 36 ++ le_split 2 2 ++ le_split 2 0)
                                 ++ le_split 4 seq)
                            (le_split 4 result ++ tail) pid 12) by reflexivity.
    apply Z.mod_small. apply (load_range 4).
  - rewrite (app_assoc _ (le_split 4 seq)), (app_assoc _ (le_split 4 pid)).
    exact (load_at 4 (((le_split 4 36 ++ le_split 2 2 ++ le_split 2 0) ++ le_split 4 seq)
                        ++ le_split 4 pid) tail result).
Qed.

(** ** HandleClientMessage *)

Lemma switch_cmd_result (H : RouterH) (client : Z) (msg : bytes) (t : MacToClientsTable) :
  switch_cmd H client msg t
  = if Netlink.genl_cmd msg =? WIFIROUTER_CMD_REGISTER H then
      match mac_attribute H msg with
      | Some mac =>
          (0, MultiMap.emplace (GetMacHash (at_offset msg (Netlink.nla_data mac))) client t)
      | None => (- EINVAL, t)
      end
    else (- EINVAL, t).
Proof.
  unfold switch_cmd, mac_attribute.
  destruct (Netlink.genl_cmd msg =? WIFIROUTER_CMD_REGISTER H); [|reflexivity].
  destruct (Netlink.nlmsg_parse msg sizeof_genlmsghdr (WIFIROUTER_ATTR_MAX H - 1)) as [err attrs].
  destruct (err =? 0); reflexivity.
Qed.

(** A message that passes the check on its size is answered: the
    acknowledgement carries the result of the command, and the flag returned
    tells whether [send] took all of it. *)
Lemma HandleClientMessage_acks (H : RouterH) (sys : System) (client size : Z)
      (msg : bytes) (st : State) :
  36 <= getpagesize sys ->
  bad_framing size msg = false ->
  let r := switch_cmd H client msg (targets st) in
  let ack := Netlink.nlmsg_hdr (ack_msg sys msg (fst r)) in
  let n := sys_send sys (history st) client ack in
  HandleClientMessage H sys client size msg st
  = (n =? 36, {| clients := clients st; targets := snd r;
                 history := history st ++ [EvSend client ack n] |}).
Proof.
  intros Hpage Hframe r ack n. unfold HandleClientMessage.
  unfold bad_framing in Hframe. rewrite Hframe.
  fold r. destruct r as [result t'] eqn:Er. simpl in ack.
  fold (ack_msg sys msg result). fold ack.
  destruct (ack_fields sys msg result Hpage) as (Hlen & Hsize & _).
  fold ack in Hlen, Hsize.
  unfold send. rewrite Hlen, (memcpy_src_exact ack 36 Hsize). reflexivity.
Qed.

Lemma HandleClientMessage_rejects (H : RouterH) (sys : System) (client size : Z)
      (msg : bytes) (st : State) :
  bad_framing size msg = true ->
  HandleClientMessage H sys client size msg st = (false, st).
Proof.
  intros Hframe. unfold HandleClientMessage. unfold bad_framing in Hframe.
  rewrite Hframe. reflexivity.
Qed.

Lemma to_int_result (result : Z) :
  result = 0 \/ result = - EINVAL -> to_int (to_uint32 result) = result.
Proof. intros [-> | ->]; reflexivity. Qed.

(** C7, as the code has it: a message whose size is zero, is not the
    length it declares or is less than a header is not answered and the
    client is removed; a message that passes this check is answered, also
    when its attributes do not parse (the result is then [-EINVAL]), and the
    client is removed only when the acknowledgement is not sent in full. *)
Theorem protocol_violation (H : RouterH) (sys : System) (cfd size : Z) (msg : bytes)
        (st : State) (isset : Z -> bool) (rx : Z -> Z * bytes) :
  36 <= getpagesize sys ->
  isset cfd = true ->
  rx cfd = (size, msg) ->
  let st' := client_loop H sys isset rx [cfd] st in
  (bad_framing size msg = true -> st' = RemoveClient cfd st)
  /\ (bad_framing size msg = false ->
      exists ack n st1,
        HandleClientMessage H sys cfd size msg st = (n =? Netlink.nlmsg_len ack, st1)
        /\ history st1 = history st ++ [EvSend cfd ack n]
        /\ clients st1 = clients st
        /\ (n = Netlink.nlmsg_len ack -> st' = st1)
        /\ (n <> Netlink.nlmsg_len ack -> st' = RemoveClient cfd st1)
        /\ (fst (Netlink.nlmsg_parse msg sizeof_genlmsghdr (WIFIROUTER_ATTR_MAX H - 1)) <> 0 ->
            to_int (load 4 ack 16) = - EINVAL /\ targets st1 = targets st)).
Proof.
  intros Hpage Hset Hrx st'. unfold st'. simpl. rewrite Hset, Hrx. simpl.
  split.
  - intros Hbad. rewrite (HandleClientMessage_rejects H sys cfd size msg st Hbad). reflexivity.
  - intros Hframe.
    rewrite (HandleClientMessage_acks H sys cfd size msg st Hpage Hframe).
    destruct (ack_fields sys msg (fst (switch_cmd H cfd msg (targets st))) Hpage)
      as (Hlen & _ & _ & _ & _ & Hres).
    eexists. eexists. eexists. rewrite Hlen.
    split; [reflexivity|]. split; [reflexivity|]. split; [reflexivity|].
    split; [intros ->; rewrite Z.eqb_refl; reflexivity|].
    split.
    { intros Hne. apply Z.eqb_neq in Hne. rewrite Hne. reflexivity. }
    intros Hparse. rewrite Hres. simpl. rewrite switch_cmd_result.
    assert (Hnone : mac_attribute H msg = None).
    { unfold mac_attribute.
      destruct (Netlink.nlmsg_parse msg sizeof_genlmsghdr (WIFIROUTER_ATTR_MAX H - 1))
        as [err attrs]. simpl in Hparse. apply Z.eqb_neq in Hparse. rewrite Hparse.
      reflexivity. }
    rewrite Hnone. destruct (Netlink.genl_cmd msg =? WIFIROUTER_CMD_REGISTER H); split; reflexivity.
Qed.

(** ** The fan-out frame *)

Lemma NLA_ALIGN_bounds (x : Z) :
  x <= Netlink.NLA_ALIGN x < x + 4 /\ Netlink.NLA_ALIGN x mod 4 = 0.
Proof.
  unfold Netlink.NLA_ALIGN. rewrite align_to_4.
  pose proof (Z.div_mod (x + 3) 4 ltac:(lia)) as D.
  pose proof (Z.mod_pos_bound (x + 3) 4 ltac:(lia)) as B.
  split; [lia|]. rewrite Z.mul_comm. apply Z.mod_mul. lia.
Qed.

Lemma NLMSG_ALIGN_aligned (x : Z) : x mod 4 = 0 -> Netlink.NLMSG_ALIGN x = x.
Proof.
  intros Hx. unfold Netlink.NLMSG_ALIGN, Netlink.NLMSG_ALIGNTO. rewrite align_to_4.
  pose proof (Z.div_mod x 4 ltac:(lia)) as D. rewrite Hx in D.
  replace (x + 3) with (x / 4 * 4 + 3) by lia.
  rewrite Z.div_add_l by lia. change (3 / 4) with 0. lia.
Qed.

(** An attribute on the wire: length, type, payload, padding. *)
Lemma nla_put_aligned (n : Netlink.nl_msg) (attrtype datalen : Z) (data : bytes) :
  0 <= datalen ->
  Netlink.nm_len n mod 4 = 0 ->
  Netlink.nm_len n + Netlink.NLA_ALIGN (Netlink.NLA_HDRLEN + datalen) <= Netlink.nm_size n ->
  Netlink.nla_put n attrtype datalen data
  = Netlink.with_payload n
      (Netlink.nm_payload n
         ++ le_split 2 (Netlink.NLA_HDRLEN + datalen) ++ le_split 2 attrtype
         ++ memcpy_src data datalen
         ++ repeat Byte.x00 (Z.to_nat (Netlink.NLA_ALIGN (Netlink.NLA_HDRLEN + datalen)
                                       - (Netlink.NLA_HDRLEN + datalen)))).
Proof.
  intros Hlen Hal Hfit. unfold Netlink.nla_put.
  replace (datalen <? 0) with false by (symmetry; apply Z.ltb_ge; exact Hlen).
  rewrite (NLMSG_ALIGN_aligned _ Hal).
  rewrite gtb_false by exact Hfit.
  rewrite Z.sub_diag. change (repeat Byte.x00 (Z.to_nat 0)) with (@nil byte).
  rewrite app_nil_l.
  rewrite le_split_to_uint16, le_split_to_uint16. reflexivity.
Qed.

Lemma genlmsg_put_alloc (page cmd : Z) :
  20 <= page ->
  Netlink.genlmsg_put (Netlink.nlmsg_alloc page) 0 0 0 0 0 cmd 0
  = Netlink.with_payload (Netlink.nlmsg_alloc page)
      [byte.of_Z (to_uint8 cmd); Byte.x00; Byte.x00; Byte.x00].
Proof.
  intros Hpage. unfold Netlink.genlmsg_put, Netlink.nlmsg_put, Netlink.nlmsg_reserve.
  cbn [Netlink.nm_size Netlink.nlmsg_alloc Netlink.nm_payload].
  change (Netlink.GENL_HDRLEN + 0 >? 0) with true. cbv iota.
  change (Netlink.GENL_HDRLEN + 0) with 4.
  rewrite gtb_false by lia.
  change (Netlink.NLMSG_ALIGNTO =? 0) with false. cbv iota.
  change (Netlink.align_to Netlink.NLMSG_ALIGNTO 4) with 4.
  unfold Netlink.nm_len at 1. cbn [Netlink.nm_payload length].
  rewrite gtb_false by (unfold Netlink.NLMSG_HDRLEN; lia).
  reflexivity.
Qed.

Lemma length_nla_wire (type : Z) (payload : bytes) :
  Z.of_nat (length (nla_wire type payload))
  = Netlink.NLA_ALIGN (Netlink.NLA_HDRLEN + Z.of_nat (length payload)).
Proof.
  unfold nla_wire. rewrite !length_app, !length_le_split, repeat_length.
  pose proof (NLA_ALIGN_bounds (Netlink.NLA_HDRLEN + Z.of_nat (length payload))).
  unfold Netlink.NLA_HDRLEN in *. lia.
Qed.

Lemma nla_put_wire (n : Netlink.nl_msg) (attrtype datalen : Z) (data : bytes) :
  0 <= datalen ->
  Netlink.nm_len n mod 4 = 0 ->
  Netlink.nm_len n + Netlink.NLA_ALIGN (Netlink.NLA_HDRLEN + datalen) <= Netlink.nm_size n ->
  Netlink.nla_put n attrtype datalen data
  = Netlink.with_payload n (Netlink.nm_payload n ++ nla_wire attrtype (memcpy_src data datalen)).
Proof.
  intros Hlen Hal Hfit. rewrite nla_put_aligned by assumption.
  unfold nla_wire. rewrite length_memcpy_src, Z2Nat.id by exact Hlen. reflexivity.
Qed.

(** The frame [RouteWIFIPacket] sends for a notification with a 6-byte
    transmitter address, when the frame fits the message libnl allocated:
    header, generic header with the command, the address, the bytes
    received. *)
Lemma notify_frame (H : RouterH) (sys : System) (len : Z) (buf : bytes) (addr : Z) :
  0 <= len ->
  Netlink.nla_len buf addr = 6 ->
  32 + Netlink.NLA_ALIGN (4 + len) <= getpagesize sys ->
  Netlink.nlmsg_hdr (notify_msg H sys len buf addr)
  = fanout_wire (WIFIROUTER_CMD_NOTIFY H) (WIFIROUTER_ATTR_MAC H) (WIFIROUTER_ATTR_PACKET H)
                (memcpy_src (at_offset buf (Netlink.nla_data addr)) 6) (memcpy_src buf len).
Proof.
  intros Hlen Hmac Hfit.
  pose proof (NLA_ALIGN_bounds (4 + len)) as [Hb Hm].
  unfold fanout_wire. rewrite (length_memcpy_src buf len), Z2Nat.id by exact Hlen.
  unfold notify_msg. rewrite Hmac.
  rewrite genlmsg_put_alloc by lia.
  rewrite (nla_put_wire _ (WIFIROUTER_ATTR_MAC H));
    [| lia | reflexivity | change (16 + 4 + 12 <= getpagesize sys); lia].
  set (mac := nla_wire (WIFIROUTER_ATTR_MAC H) (memcpy_src (at_offset buf (Netlink.nla_data addr)) 6)).
  assert (Lmac : Z.of_nat (length mac) = 12).
  { unfold mac. rewrite length_nla_wire, length_memcpy_src. reflexivity. }
  cbn [Netlink.nm_payload Netlink.with_payload].
  rewrite nla_put_wire; [| exact Hlen | | ].
  - unfold Netlink.nlmsg_hdr, Netlink.nm_len.
    cbn [Netlink.nm_payload Netlink.with_payload Netlink.nlmsg_alloc Netlink.nm_type
         Netlink.nm_flags Netlink.nm_seq Netlink.nm_pid].
    rewrite !length_app. rewrite !Nat2Z.inj_add, Lmac, length_nla_wire, length_memcpy_src.
    rewrite Z2Nat.id by exact Hlen.
    rewrite <- !app_assoc. f_equal. f_equal.
    unfold Netlink.NLMSG_HDRLEN, Netlink.NLA_HDRLEN. simpl length. lia.
  - unfold Netlink.nm_len. cbn [Netlink.nm_payload Netlink.with_payload].
    rewrite length_app, Nat2Z.inj_add, Lmac. reflexivity.
  - unfold Netlink.nm_len.
    cbn [Netlink.nm_payload Netlink.with_payload Netlink.nm_size Netlink.nlmsg_alloc].
    rewrite length_app, Nat2Z.inj_add, Lmac.
    unfold Netlink.NLMSG_HDRLEN, Netlink.NLA_HDRLEN. simpl length. lia.
Qed.

(** ** Parsing what was built *)

Lemma land_type_mask (ty : Z) : 0 <= ty <= 16383 -> Z.land ty Netlink.NLA_TYPE_MASK = ty.
Proof.
  intros Hty. change Netlink.NLA_TYPE_MASK with (Z.ones 14).
  rewrite Z.land_ones by lia. apply Z.mod_small. change (2 ^ 14) with 16384. lia.
Qed.

Lemma at_offset_app (pre mem : bytes) (off : Z) :
  off = Z.of_nat (length pre) -> at_offset (pre ++ mem) off = mem.
Proof.
  intros ->. unfold at_offset. rewrite Nat2Z.id, skipn_app, skipn_all, Nat.sub_diag.
  reflexivity.
Qed.

Lemma nla_wire_fields (pre post : bytes) (ty : Z) (payload : bytes) (nla : Z) :
  nla = Z.of_nat (length pre) ->
  4 + Z.of_nat (length payload) < 2 ^ 16 ->
  0 <= ty <= 16383 ->
  let mem := pre ++ nla_wire ty payload ++ post in
  Netlink.nla_len_field mem nla = 4 + Z.of_nat (length payload)
  /\ Netlink.nla_type mem nla = ty
  /\ memcpy_src (at_offset mem (Netlink.nla_data nla)) (Z.of_nat (length payload)) = payload.
Proof.
  intros -> Hlen Hty mem. unfold mem, nla_wire, Netlink.NLA_HDRLEN.
  set (al := 4 + Z.of_nat (length payload)).
  set (pad := repeat Byte.x00 (Z.to_nat (Netlink.NLA_ALIGN al - al))).
  split; [|split].
  - unfold Netlink.nla_len_field. rewrite <- !app_assoc.
    rewrite (load_at 2 pre). apply Z.mod_small.
    change (2 ^ (Z.of_nat 2 * 8)) with (2 ^ 16). unfold al. lia.
  - unfold Netlink.nla_type, Netlink.nla_type_field. rewrite <- !app_assoc.
    rewrite (app_assoc pre (le_split 2 al)).
    rewrite (load_at_offset 2 (pre ++ le_split 2 al))
      by (rewrite length_app, length_le_split; lia).
    change (2 ^ (Z.of_nat 2 * 8)) with 65536.
    rewrite (Z.mod_small ty) by lia. apply land_type_mask. exact Hty.
  - rewrite <- !app_assoc.
    rewrite (app_assoc pre (le_split 2 al)), (app_assoc _ (le_split 2 ty)).
    rewrite at_offset_app
      by (unfold Netlink.nla_data, Netlink.NLA_HDRLEN;
          rewrite !length_app, !length_le_split; lia).
    apply memcpy_src_app. reflexivity.
Qed.

(** One turn of [nla_for_each_attr] over an attribute on the wire. *)
Lemma nla_walk_wire (fuel : nat) (pre post : bytes) (ty : Z) (payload : bytes)
      (maxtype nla remaining : Z) (tb : Netlink.attr_table) :
  nla = Z.of_nat (length pre) ->
  4 + Z.of_nat (length payload) < 2 ^ 16 ->
  0 <= ty <= 16383 -> ty <= maxtype ->
  Netlink.NLA_ALIGN (4 + Z.of_nat (length payload)) <= remaining ->
  let mem := pre ++ nla_wire ty payload ++ post in
  let totlen := Netlink.NLA_ALIGN (4 + Z.of_nat (length payload)) in
  Netlink.nla_walk (S fuel) mem maxtype nla remaining tb
  = Netlink.nla_walk fuel mem maxtype (nla + totlen) (remaining - totlen)
                     (Netlink.tb_set tb ty nla).
Proof.
  intros Hnla Hlen Hty Hmax Hrem mem totlen.
  destruct (nla_wire_fields pre post ty payload nla Hnla Hlen Hty) as (Hl & Ht & _).
  fold mem in Hl, Ht.
  pose proof (NLA_ALIGN_bounds (4 + Z.of_nat (length payload))) as [Hb _].
  cbn [Netlink.nla_walk]. unfold Netlink.nla_ok. rewrite Hl, Ht.
  unfold Netlink.NLA_HDRLEN.
  replace (4 <=? remaining) with true by (symmetry; apply Z.leb_le; lia).
  replace (4 <=? 4 + Z.of_nat (length payload)) with true by (symmetry; apply Z.leb_le; lia).
  replace (4 + Z.of_nat (length payload) <=? remaining) with true
    by (symmetry; apply Z.leb_le; lia).
  rewrite gtb_false by exact Hmax. reflexivity.
Qed.

Lemma nla_walk_end (fuel : nat) (mem : bytes) (maxtype nla remaining : Z)
      (tb : Netlink.attr_table) :
  remaining < 4 -> Netlink.nla_walk fuel mem maxtype nla remaining tb = tb.
Proof.
  intros Hrem. destruct fuel; [reflexivity|]. cbn [Netlink.nla_walk].
  unfold Netlink.nla_ok, Netlink.NLA_HDRLEN.
  replace (4 <=? remaining) with false by (symmetry; apply Z.leb_gt; exact Hrem).
  reflexivity.
Qed.

(** The fuel of [nla_parse] is never used up: any amount above a quarter of
    [remaining] gives the same table. *)
Lemma nla_walk_fuel_enough (fuel1 fuel2 : nat) (mem : bytes) (maxtype nla remaining : Z)
      (tb : Netlink.attr_table) :
  (Z.to_nat (remaining / 4) < fuel1)%nat ->
  (Z.to_nat (remaining / 4) < fuel2)%nat ->
  Netlink.nla_walk fuel1 mem maxtype nla remaining tb
  = Netlink.nla_walk fuel2 mem maxtype nla remaining tb.
Proof.
  revert fuel2 nla remaining tb.
  induction fuel1 as [|f1 IH]; intros fuel2 nla remaining tb H1 H2; [lia|].
  destruct fuel2 as [|f2]; [lia|].
  cbn [Netlink.nla_walk].
  destruct (Netlink.nla_ok mem nla remaining) eqn:Eok; [|reflexivity].
  unfold Netlink.nla_ok, Netlink.NLA_HDRLEN in Eok.
  apply andb_true_iff in Eok. destruct Eok as [Eok E3].
  apply andb_true_iff in Eok. destruct Eok as [E1 E2].
  apply Z.leb_le in E1, E2, E3.
  pose proof (NLA_ALIGN_bounds (Netlink.nla_len_field mem nla)) as [Hb _].
  set (totlen := Netlink.NLA_ALIGN (Netlink.nla_len_field mem nla)) in *.
  assert (Hlt : forall f, (Z.to_nat (remaining / 4) < S f)%nat ->
                          (Z.to_nat ((remaining - totlen) / 4) < f)%nat).
  { intros f Hf.
    assert (1 <= remaining / 4) by (apply Z.div_le_lower_bound; lia).
    assert ((remaining - totlen) / 4 <= remaining / 4 - 1).
    { replace (remaining / 4 - 1) with ((remaining + (-1) * 4) / 4)
        by (rewrite Z.div_add by lia; lia).
      apply Z.div_le_mono; lia. }
    lia. }
  apply IH; apply Hlt; assumption.
Qed.

Section FanOutFrame.
Variables (cmd ty1 ty2 maxtype : Z) (M raw : bytes).
Hypothesis HM : length M = 6%nat.
Hypothesis Hraw : 4 + Z.of_nat (length raw) < 2 ^ 16.
Hypothesis Hty1 : 0 <= ty1 <= maxtype.
Hypothesis Hty2 : 0 <= ty2 <= maxtype.
Hypothesis Hmax : maxtype <= 16383.
Hypothesis Hne : ty1 <> ty2.

Let total := 32 + Netlink.NLA_ALIGN (4 + Z.of_nat (length raw)).
Let hdr20 : bytes :=
  le_split 4 total ++ le_split 2 0 ++ le_split 2 0 ++ le_split 4 0 ++ le_split 4 0
  ++ [byte.of_Z (to_uint8 cmd); Byte.x00; Byte.x00; Byte.x00].
Let frame : bytes := hdr20 ++ nla_wire ty1 M ++ nla_wire ty2 raw.

Local Lemma total_bounds : 36 <= total < 2 ^ 17 /\ total mod 4 = 0.
Proof.
  unfold total. pose proof (NLA_ALIGN_bounds (4 + Z.of_nat (length raw))) as [Hb Hm].
  pow2. change (2 ^ 17) with 131072. split; [lia|].
  rewrite Z.add_comm, <- Zplus_mod_idemp_l, Hm. reflexivity.
Qed.

Local Lemma length_hdr20 : length hdr20 = 20%nat.
Proof. unfold hdr20. rewrite !length_app, !length_le_split. reflexivity. Qed.

Local Lemma length_wire1 : Z.of_nat (length (nla_wire ty1 M)) = 12.
Proof. rewrite length_nla_wire, HM. reflexivity. Qed.

Lemma fanout_frame_len :
  Netlink.nlmsg_len (fanout_wire cmd ty1 ty2 M raw)
  = Z.of_nat (length (fanout_wire cmd ty1 ty2 M raw))
  /\ Netlink.nlmsg_len (fanout_wire cmd ty1 ty2 M raw)
     = 32 + Netlink.NLA_ALIGN (4 + Z.of_nat (length raw)).
Proof.
  change (fanout_wire cmd ty1 ty2 M raw) with frame.
  change (32 + Netlink.NLA_ALIGN (4 + Z.of_nat (length raw))) with total.
  pose proof total_bounds as [Hb _].
  assert (E : Netlink.nlmsg_len frame = total).
  { unfold frame, hdr20. rewrite <- !app_assoc.
    unfold Netlink.nlmsg_len. rewrite load_first.
    apply Z.mod_small. change (2 ^ (Z.of_nat 4 * 8)) with 4294967296.
    change (2 ^ 17) with 131072 in Hb. lia. }
  split; [|exact E]. rewrite E. unfold frame.
  rewrite !length_app, !Nat2Z.inj_add, length_hdr20, length_wire1, length_nla_wire.
  unfold total, Netlink.NLA_HDRLEN. lia.
Qed.

Lemma fanout_frame_cmd :
  Netlink.genl_cmd (fanout_wire cmd ty1 ty2 M raw) = to_uint8 cmd.
Proof.
  change (fanout_wire cmd ty1 ty2 M raw) with frame.
  unfold Netlink.genl_cmd, frame, hdr20.
  change [byte.of_Z (to_uint8 cmd); Byte.x00; Byte.x00; Byte.x00]
    with (le_split 1 (to_uint8 cmd) ++ [Byte.x00; Byte.x00; Byte.x00]).
  rewrite <- !app_assoc.
  rewrite (app_assoc (le_split 4 total)), (app_assoc _ (le_split 2 0)),
          (app_assoc _ (le_split 4 0)), (app_assoc _ (le_split 4 0)).
  rewrite load_at_offset by (rewrite !length_app, !length_le_split; reflexivity).
  unfold to_uint8. change (2 ^ (Z.of_nat 1 * 8)) with (2 ^ 8).
  apply Z.mod_mod. discriminate.
Qed.

(** The two attributes at offsets 20 and 32 are what [genlmsg_parse]
    finds, and their payloads are the address and the bytes received. *)
Lemma fanout_frame_attrs :
  let wire := fanout_wire cmd ty1 ty2 M raw in
  fst (Netlink.genlmsg_parse wire 0 maxtype) = 0
  /\ snd (Netlink.genlmsg_parse wire 0 maxtype) ty1 = Some 20
  /\ snd (Netlink.genlmsg_parse wire 0 maxtype) ty2 = Some 32
  /\ Netlink.nla_len wire 20 = 6
  /\ memcpy_src (at_offset wire (Netlink.nla_data 20)) 6 = M
  /\ Netlink.nla_len wire 32 = Z.of_nat (length raw)
  /\ memcpy_src (at_offset wire (Netlink.nla_data 32)) (Z.of_nat (length raw)) = raw.
Proof.
  intros wire. change wire with frame. clear wire.
  pose proof total_bounds as [Hb Hm4].
  pose proof fanout_frame_len as [_ Hlen].
  change (fanout_wire cmd ty1 ty2 M raw) with frame in Hlen.
  change (32 + Netlink.NLA_ALIGN (4 + Z.of_nat (length raw))) with total in Hlen.
  pose proof (NLA_ALIGN_bounds (4 + Z.of_nat (length raw))) as [Hb2 _].
  assert (HM6 : Z.of_nat (length M) = 6) by (rewrite HM; reflexivity).
  assert (Hw1 : 4 + Z.of_nat (length M) < 2 ^ 16) by (rewrite HM6; reflexivity).
  destruct (nla_wire_fields hdr20 (nla_wire ty2 raw) ty1 M 20) as (Hl1 & _ & Hp1);
    [rewrite length_hdr20; reflexivity | exact Hw1 | lia |].
  fold frame in Hl1, Hp1.
  assert (Hframe2 : frame = (hdr20 ++ nla_wire ty1 M) ++ nla_wire ty2 raw ++ []).
  { unfold frame. rewrite app_nil_r, app_assoc. reflexivity. }
  destruct (nla_wire_fields (hdr20 ++ nla_wire ty1 M) [] ty2 raw 32) as (Hl2 & _ & Hp2);
    [rewrite length_app, Nat2Z.inj_add, length_hdr20, length_wire1; reflexivity
    | exact Hraw | lia |].
  rewrite <- Hframe2 in Hl2, Hp2.
  assert (Hparse : Netlink.genlmsg_parse frame 0 maxtype
                   = (0, Netlink.tb_set (Netlink.tb_set Netlink.tb_empty ty1 20) ty2 32)).
  { unfold Netlink.genlmsg_parse, Netlink.genlmsg_valid_hdr, Netlink.nlmsg_valid_hdr,
      Netlink.genlmsg_len. rewrite Hlen.
    change (Netlink.NLMSG_ALIGN 0) with 0.
    unfold Netlink.NLMSG_HDRLEN, Netlink.GENL_HDRLEN.
    assert (Ei : to_int (total - 4 - 16) = total - 20).
    { unfold to_int. change (2 ^ 17) with 131072 in Hb. pow2.
      rewrite Z.mod_small by lia. lia. }
    rewrite Ei.
    replace (total <? 16 + 4) with false by (symmetry; apply Z.ltb_ge; lia).
    replace (total - 20 <? 0) with false by (symmetry; apply Z.ltb_ge; lia).
    simpl negb. cbv iota. unfold Netlink.nla_parse. f_equal.
    rewrite Z.sub_0_r.
    assert (Hfuel : exists f, Z.to_nat ((total - 20) / 4) = S f).
    { assert (4 <= (total - 20) / 4) by (apply Z.div_le_lower_bound; lia).
      exists (Nat.pred (Z.to_nat ((total - 20) / 4))). lia. }
    destruct Hfuel as (f & ->).
    change (16 + 4 + 0) with 20.
    unfold frame at 1.
    rewrite (nla_walk_wire (S f) hdr20 (nla_wire ty2 raw) ty1 M maxtype 20);
      [| rewrite length_hdr20; reflexivity | exact Hw1 | lia | lia
       | rewrite HM6; change (Netlink.NLA_ALIGN (4 + 6)) with 12; lia].
    rewrite HM6. change (Netlink.NLA_ALIGN (4 + 6)) with 12. change (20 + 12) with 32.
    fold frame. rewrite Hframe2.
    rewrite (nla_walk_wire f (hdr20 ++ nla_wire ty1 M) [] ty2 raw maxtype 32);
      [| rewrite length_app, Nat2Z.inj_add, length_hdr20, length_wire1; reflexivity
       | exact Hraw | lia | lia | unfold total; lia].
    apply nla_walk_end. unfold total. lia. }
  rewrite Hparse. simpl fst. simpl snd. unfold Netlink.tb_set.
  split; [reflexivity|].
  split.
  { replace (ty1 =? ty2) with false by (symmetry; apply Z.eqb_neq; exact Hne).
    rewrite Z.eqb_refl. reflexivity. }
  split; [rewrite Z.eqb_refl; reflexivity|].
  split; [unfold Netlink.nla_len; rewrite Hl1, HM6; reflexivity|].
  split; [rewrite <- HM6; exact Hp1|].
  split; [unfold Netlink.nla_len, Netlink.NLA_HDRLEN; rewrite Hl2; lia | exact Hp2].
Qed.
End FanOutFrame.

(** ** The key of an address *)

Lemma firstn_repeat_zero (k j : nat) :
  firstn k (repeat Byte.x00 j) = repeat Byte.x00 (Nat.min k j).
Proof.
  revert j. induction k as [|k IH]; intros j; [reflexivity|].
  destruct j as [|j]; [reflexivity|]. simpl. rewrite IH. reflexivity.
Qed.

Lemma le_combine_firstn_pad (n j : nat) (l : bytes) :
  le_combine (firstn n (l ++ repeat Byte.x00 j)) = le_combine (firstn n l).
Proof.
  revert l j. induction n as [|n IH]; intros l j; [reflexivity|].
  destruct l as [|a l].
  - rewrite app_nil_l, firstn_repeat_zero, le_combine_0. reflexivity.
  - change ((a :: l) ++ repeat Byte.x00 j) with (a :: (l ++ repeat Byte.x00 j)).
    rewrite !firstn_cons.
    change (le_combine (a :: firstn n (l ++ repeat Byte.x00 j)))
      with (Z.lor (byte.unsigned a) (Z.shiftl (le_combine (firstn n (l ++ repeat Byte.x00 j))) 8)).
    rewrite IH. reflexivity.
Qed.

Lemma skipn_repeat_zero (o j : nat) :
  skipn o (repeat Byte.x00 j) = repeat Byte.x00 (j - o).
Proof.
  revert j. induction o as [|o IH]; intros j; [rewrite Nat.sub_0_r; reflexivity|].
  destruct j as [|j]; [reflexivity|]. simpl. apply IH.
Qed.

(** A read inside the first [k] bytes sees the same in a copy of [k] bytes. *)
Lemma load_memcpy_src (n : nat) (m : bytes) (off k : Z) :
  0 <= off -> off + Z.of_nat n <= k ->
  load n (memcpy_src m k) off = load n m off.
Proof.
  intros Hoff Hk. unfold load, memcpy_src.
  rewrite skipn_firstn_comm, firstn_firstn.
  replace (Nat.min n (Z.to_nat k - Z.to_nat off)) with n by lia.
  rewrite skipn_app, skipn_repeat_zero. apply le_combine_firstn_pad.
Qed.

Lemma GetMacHash_six_bytes (m : bytes) : GetMacHash (memcpy_src m 6) = GetMacHash m.
Proof.
  unfold GetMacHash, typed.
  rewrite !(load_memcpy_src 2 m) by lia. reflexivity.
Qed.

(** ** Invariants of the loop *)

Lemma RouteWIFIPacket_invariant (H : RouterH) (sys : System) (family len : Z)
      (buf : bytes) (st : State) :
  key_ordered (targets st) /\ increasing (clients st) ->
  key_ordered (targets (RouteWIFIPacket H sys family len buf st))
  /\ increasing (clients (RouteWIFIPacket H sys family len buf st)).
Proof.
  intros Hinv. unfold RouteWIFIPacket.
  destruct (len <? 0); [exact Hinv|].
  destruct (negb (Netlink.nlmsg_type buf =? family)); [exact Hinv|].
  destruct (Netlink.genlmsg_parse buf 0 HWSIM_ATTR_MAX) as [err attrs].
  destruct (negb (err =? 0)); [exact Hinv|].
  destruct (attrs HWSIM_ATTR_ADDR_TRANSMITTER) as [addr|]; [|exact Hinv].
  destruct (fanout sys _ _ _ _ _) as [tr pend].
  split; [apply fold_RemoveClient_ordered | apply fold_RemoveClient_increasing]; apply Hinv.
Qed.

Lemma HandleClientMessage_invariant (H : RouterH) (sys : System) (client size : Z)
      (msg : bytes) (st : State) :
  key_ordered (targets st) /\ increasing (clients st) ->
  key_ordered (targets (snd (HandleClientMessage H sys client size msg st)))
  /\ increasing (clients (snd (HandleClientMessage H sys client size msg st))).
Proof.
  intros Hinv. unfold HandleClientMessage.
  destruct (_ || _ || _); [exact Hinv|].
  rewrite switch_cmd_result.
  destruct (Netlink.genl_cmd msg =? WIFIROUTER_CMD_REGISTER H);
    [destruct (mac_attribute H msg)|];
    destruct (send sys _ _ _ _) as [n tr]; simpl; split;
      try apply emplace_ordered; apply Hinv.
Qed.

Lemma client_loop_invariant (H : RouterH) (sys : System) (isset : Z -> bool)
      (rx : Z -> Z * bytes) (cs : list Z) (st : State) :
  key_ordered (targets st) /\ increasing (clients st) ->
  key_ordered (targets (client_loop H sys isset rx cs st))
  /\ increasing (clients (client_loop H sys isset rx cs st)).
Proof.
  revert st. induction cs as [|cfd cs IH]; intros st Hinv; simpl; [exact Hinv|].
  apply IH. destruct (isset cfd); [|exact Hinv].
  pose proof (HandleClientMessage_invariant H sys cfd (fst (rx cfd)) (snd (rx cfd)) st Hinv)
    as Hinv1.
  destruct (HandleClientMessage H sys cfd (fst (rx cfd)) (snd (rx cfd)) st) as [ok st1].
  simpl in Hinv1. destruct ok; simpl; [exact Hinv1|].
  split; [apply erase_value_ordered | apply erase_increasing]; apply Hinv1.
Qed.

(** In every state of the loop the table is in the order of its keys and
    the set of clients increasing. *)
Lemma reachable_invariant (H : RouterH) (sys : System) (server_fd netlink_fd family : Z)
      (st : State) :
  reachable H sys server_fd netlink_fd family st ->
  key_ordered (targets st) /\ increasing (clients st).
Proof.
  induction 1 as [|st r Hreach IH].
  - split; constructor.
  - unfold ServerLoop_pass. destruct (select_ret r <=? 0); [exact IH|].
    apply client_loop_invariant.
    match goal with |- context [if ?c then RouteWIFIPacket _ _ _ _ _ ?s else _] =>
      assert (Hs : key_ordered (targets s) /\ increasing (clients s)) end.
    { match goal with |- context [if ?c then AcceptNewClient _ _ else _] => destruct c end;
        [|exact IH].
      unfold AcceptNewClient. destruct (accept_ret r <? 0); [exact IH|]. simpl.
      split; [apply IH | apply insert_increasing; apply IH]. }
    match goal with |- context [if ?c then RouteWIFIPacket _ _ _ _ _ _ else _] => destruct c end;
      [apply RouteWIFIPacket_invariant|]; exact Hs.
Qed.

(** ** Registration *)

(** What a REGISTER with a MAC attribute does to the table. *)
Lemma HandleClientMessage_registers (H : RouterH) (sys : System) (client size : Z)
      (msg : bytes) (st : State) (mac : Z) :
  bad_framing size msg = false ->
  Netlink.genl_cmd msg = WIFIROUTER_CMD_REGISTER H ->
  mac_attribute H msg = Some mac ->
  let st1 := snd (HandleClientMessage H sys client size msg st) in
  targets st1
  = MultiMap.emplace (GetMacHash (at_offset msg (Netlink.nla_data mac))) client (targets st)
  /\ clients st1 = clients st
  /\ exists e, history st1 = history st ++ [e].
Proof.
  intros Hframe Hcmd Hmac. unfold HandleClientMessage.
  unfold bad_framing in Hframe. rewrite Hframe.
  rewrite switch_cmd_result, Hcmd, Z.eqb_refl, Hmac.
  destruct (send sys _ _ _ _) as [n tr] eqn:Es. simpl.
  split; [reflexivity|]. split; [reflexivity|].
  unfold send in Es. inversion Es; subst. eexists. reflexivity.
Qed.

(** C3, as the code has it: a REGISTER adds one more occurrence of the pair
    of the key and the client, whether or not the pair is there already, and
    leaves the other pairs alone; a notification for the key is then sent
    to the client once for each occurrence. *)
Theorem registration_counts (H : RouterH) (sys : System) (family client size : Z)
        (msg : bytes) (st : State) (mac : Z) :
  bad_framing size msg = false ->
  Netlink.genl_cmd msg = WIFIROUTER_CMD_REGISTER H ->
  mac_attribute H msg = Some mac ->
  key_ordered (targets st) ->
  let key := GetMacHash (at_offset msg (Netlink.nla_data mac)) in
  let st1 := snd (HandleClientMessage H sys client size msg st) in
  MultiMap.count key client (targets st1) = S (MultiMap.count key client (targets st))
  /\ (forall k c, (k, c) <> (key, client) ->
                  MultiMap.count k c (targets st1) = MultiMap.count k c (targets st))
  /\ forall len buf addr,
      hwsim_notification family len buf addr ->
      GetMacHash (at_offset buf (Netlink.nla_data addr)) = key ->
      exists evs,
        history (RouteWIFIPacket H sys family len buf st1) = history st1 ++ evs
        /\ length (sends_to client evs) = S (MultiMap.count key client (targets st)).
Proof.
  intros Hframe Hcmd Hmac Hord key st1.
  destruct (HandleClientMessage_registers H sys client size msg st mac Hframe Hcmd Hmac)
    as (Ht & _ & _).
  fold st1 key in Ht.
  split; [rewrite Ht; apply count_emplace_same|].
  split; [intros k c Hne; rewrite Ht; apply count_emplace_other; exact Hne|].
  intros len buf addr Hn Hkey.
  assert (Hord1 : key_ordered (targets st1)) by (rewrite Ht; apply emplace_ordered; exact Hord).
  destruct (route_after_removal H sys family len buf st1 addr [] Hn Hord1) as (evs & Hh & Hev).
  simpl in Hh, Hev. exists evs. split; [exact Hh|].
  specialize (Hev client). rewrite Hkey in Hev.
  rewrite <- (length_map fst), Hev, repeat_length, Ht. apply count_emplace_same.
Qed.

(** C1, as the code has it: after an acknowledged REGISTER of the address
    [M] by [client], who had no registration under the key of [M] before, a
    notification whose transmitter attribute is [M], and whose frame fits
    the message libnl allocates, makes exactly one [send] to [client],
    written in full; the frame sent has the command
    [WIFIROUTER_CMD_NOTIFY], the attribute [WIFIROUTER_ATTR_MAC] with the six
    bytes of [M], and the attribute [WIFIROUTER_ATTR_PACKET] with the [len]
    bytes received from the kernel. *)
Theorem registration_round_trip (H : RouterH) (sys : System) (family client size : Z)
        (msg : bytes) (st : State) (mac len : Z) (buf : bytes) (addr : Z) (M : bytes) :
  let maxtype := WIFIROUTER_ATTR_MAX H - 1 in
  0 <= WIFIROUTER_ATTR_MAC H <= maxtype ->
  0 <= WIFIROUTER_ATTR_PACKET H <= maxtype ->
  WIFIROUTER_ATTR_MAC H <> WIFIROUTER_ATTR_PACKET H ->
  maxtype <= 16383 ->
  32 + Netlink.NLA_ALIGN (4 + len) <= getpagesize sys ->
  4 + len < 2 ^ 16 ->
  key_ordered (targets st) ->
  length M = 6%nat ->
  Netlink.genl_cmd msg = WIFIROUTER_CMD_REGISTER H ->
  mac_attribute H msg = Some mac ->
  memcpy_src (at_offset msg (Netlink.nla_data mac)) 6 = M ->
  fst (HandleClientMessage H sys client size msg st) = true ->
  MultiMap.count (GetMacHash M) client (targets st) = 0%nat ->
  let st1 := snd (HandleClientMessage H sys client size msg st) in
  hwsim_notification family len buf addr ->
  Netlink.nla_len buf addr = 6 ->
  memcpy_src (at_offset buf (Netlink.nla_data addr)) 6 = M ->
  let frame := Netlink.nlmsg_hdr (notify_msg H sys len buf addr) in
  (forall tr, sys_send sys tr client frame = Netlink.nlmsg_len frame) ->
  exists evs,
    history (RouteWIFIPacket H sys family len buf st1) = history st1 ++ evs
    /\ sends_to client evs = [(frame, Z.of_nat (length frame))]
    /\ Netlink.genl_cmd frame = to_uint8 (WIFIROUTER_CMD_NOTIFY H)
    /\ exists a_mac a_packet,
        snd (Netlink.genlmsg_parse frame 0 maxtype) (WIFIROUTER_ATTR_MAC H) = Some a_mac
        /\ Netlink.nla_len frame a_mac = 6
        /\ memcpy_src (at_offset frame (Netlink.nla_data a_mac)) 6 = M
        /\ snd (Netlink.genlmsg_parse frame 0 maxtype) (WIFIROUTER_ATTR_PACKET H) = Some a_packet
        /\ Netlink.nla_len frame a_packet = len
        /\ memcpy_src (at_offset frame (Netlink.nla_data a_packet)) len = memcpy_src buf len.
Proof.
  intros maxtype Hmac_ty Hpkt_ty Hne Hmax Hfit Hlen16 Hord HM Hcmd Hmac HmsgM Hok Hfirst st1
         Hn Haddr6 HbufM frame Hsend.
  pose proof Hn as (Hlen & _).
  assert (Hframe : bad_framing size msg = false).
  { destruct (bad_framing size msg) eqn:E; [|reflexivity].
    rewrite (HandleClientMessage_rejects H sys client size msg st E) in Hok. discriminate. }
  destruct (HandleClientMessage_registers H sys client size msg st mac Hframe Hcmd Hmac)
    as (Ht & _ & _).
  fold st1 in Ht.
  assert (Hkey1 : GetMacHash (at_offset msg (Netlink.nla_data mac)) = GetMacHash M)
    by (rewrite <- HmsgM; symmetry; apply GetMacHash_six_bytes).
  assert (Hkey2 : GetMacHash (at_offset buf (Netlink.nla_data addr)) = GetMacHash M)
    by (rewrite <- HbufM; symmetry; apply GetMacHash_six_bytes).
  rewrite Hkey1 in Ht.
  assert (Hord1 : key_ordered (targets st1)) by (rewrite Ht; apply emplace_ordered; exact Hord).
  (* the frame *)
  set (raw := memcpy_src buf len).
  assert (Hraw : Z.of_nat (length raw) = len)
    by (unfold raw; rewrite length_memcpy_src; apply Z2Nat.id; exact Hlen).
  pose proof (notify_frame H sys len buf addr Hlen Haddr6 Hfit) as Hlayout.
  fold frame in Hlayout. rewrite HbufM in Hlayout. fold raw in Hlayout.
  assert (Hraw16 : 4 + Z.of_nat (length raw) < 2 ^ 16) by (rewrite Hraw; exact Hlen16).
  pose proof (fanout_frame_len (WIFIROUTER_CMD_NOTIFY H) (WIFIROUTER_ATTR_MAC H)
                (WIFIROUTER_ATTR_PACKET H) M raw HM Hraw16) as (Hflen & _).
  pose proof (fanout_frame_cmd (WIFIROUTER_CMD_NOTIFY H) (WIFIROUTER_ATTR_MAC H)
                (WIFIROUTER_ATTR_PACKET H) M raw) as Hfcmd.
  pose proof (fanout_frame_attrs (WIFIROUTER_CMD_NOTIFY H) (WIFIROUTER_ATTR_MAC H)
                (WIFIROUTER_ATTR_PACKET H) maxtype M raw HM Hraw16 Hmac_ty Hpkt_ty Hmax Hne)
    as (_ & Ha1 & Ha2 & Hl1 & Hp1 & Hl2 & Hp2).
  cbv zeta in Ha1, Ha2, Hl1, Hp1, Hl2, Hp2.
  rewrite <- Hlayout in Hflen, Hfcmd, Ha1, Ha2, Hl1, Hp1, Hl2, Hp2.
  rewrite Hraw in Hl2, Hp2.
  (* the route *)
  rewrite (RouteWIFIPacket_routes H sys family len buf st1 addr Hn Hord1).
  fold frame. rewrite Hkey2.
  rewrite fold_RemoveClient_history. simpl history.
  rewrite deliver_history, <- app_assoc.
  eexists. split; [reflexivity|].
  split.
  { assert (Hexact : memcpy_src frame (Netlink.nlmsg_len frame) = frame)
      by (rewrite Hflen; apply memcpy_src_exact; reflexivity).
    rewrite sends_to_app, sends_to_closes, app_nil_r.
    rewrite sends_to_sent_complete by (intros tr; rewrite Hexact; apply Hsend).
    rewrite count_occ_subscribers, Ht, count_emplace_same, Hfirst.
    simpl. rewrite Hexact, Hflen. reflexivity. }
  split; [exact Hfcmd|].
  exists 20, 32. repeat split; assumption.
Qed.

(** ** The attributes of a request *)

(** One turn of [nla_for_each_attr] over an attribute on the wire, of a
    type within [maxtype] or beyond. *)
Lemma nla_walk_step (fuel : nat) (pre post : bytes) (ty : Z) (payload : bytes)
      (maxtype nla remaining : Z) (tb : Netlink.attr_table) :
  nla = Z.of_nat (length pre) ->
  attr_fits (ty, payload) ->
  Netlink.NLA_ALIGN (4 + Z.of_nat (length payload)) <= remaining ->
  let mem := pre ++ nla_wire ty payload ++ post in
  let totlen := Netlink.NLA_ALIGN (4 + Z.of_nat (length payload)) in
  Netlink.nla_walk (S fuel) mem maxtype nla remaining tb
  = Netlink.nla_walk fuel mem maxtype (nla + totlen) (remaining - totlen)
                     (if ty >? maxtype then tb else Netlink.tb_set tb ty nla).
Proof.
  intros Hnla [Hty Hlen] Hrem mem totlen. cbn [fst snd] in Hty, Hlen.
  destruct (nla_wire_fields pre post ty payload nla Hnla Hlen Hty) as (Hl & Ht & _).
  fold mem in Hl, Ht.
  pose proof (NLA_ALIGN_bounds (4 + Z.of_nat (length payload))) as [Hb _].
  cbn [Netlink.nla_walk]. unfold Netlink.nla_ok. rewrite Hl, Ht.
  unfold Netlink.NLA_HDRLEN.
  replace (4 <=? remaining) with true by (symmetry; apply Z.leb_le; lia).
  replace (4 <=? 4 + Z.of_nat (length payload)) with true by (symmetry; apply Z.leb_le; lia).
  replace (4 + Z.of_nat (length payload) <=? remaining) with true
    by (symmetry; apply Z.leb_le; lia).
  reflexivity.
Qed.

Lemma length_attrs_wire_cons (a : Z * bytes) (attrs : list (Z * bytes)) :
  Z.of_nat (length (attrs_wire (a :: attrs)))
  = Netlink.NLA_ALIGN (4 + Z.of_nat (length (snd a))) + Z.of_nat (length (attrs_wire attrs)).
Proof.
  unfold attrs_wire. cbn [flat_map]. rewrite length_app, Nat2Z.inj_add, length_nla_wire.
  reflexivity.
Qed.

Lemma length_attrs_wire_ge (attrs : list (Z * bytes)) :
  4 * Z.of_nat (length attrs) <= Z.of_nat (length (attrs_wire attrs)).
Proof.
  induction attrs as [|a attrs IH]; [simpl; lia|].
  rewrite length_attrs_wire_cons.
  pose proof (NLA_ALIGN_bounds (4 + Z.of_nat (length (snd a)))) as [Hb _].
  cbn [length]. lia.
Qed.

(** The walk over attributes on the wire leaves a slot empty exactly when
    it was empty and no attribute has its type. *)
Lemma nla_walk_attrs (attrs : list (Z * bytes)) :
  forall (fuel : nat) (pre post : bytes) (maxtype nla : Z) (tb : Netlink.attr_table) (T : Z),
    nla = Z.of_nat (length pre) ->
    Forall attr_fits attrs ->
    (length attrs <= fuel)%nat ->
    T <= maxtype ->
    Netlink.nla_walk fuel (pre ++ attrs_wire attrs ++ post) maxtype nla
                     (Z.of_nat (length (attrs_wire attrs))) tb T = None
    <-> tb T = None /\ has_attr T attrs = false.
Proof.
  induction attrs as [|[ty payload] attrs IH];
    intros fuel pre post maxtype nla tb T Hnla Hfits Hfuel HT.
  - rewrite nla_walk_end by (simpl; lia). cbn [has_attr existsb]. tauto.
  - destruct fuel as [|fuel]; [cbn [length] in Hfuel; lia|].
    inversion Hfits as [|a l Hfit Hrest]; subst.
    pose proof (length_attrs_wire_cons (ty, payload) attrs) as Hlen. cbn [snd] in Hlen.
    assert (Hmem : pre ++ attrs_wire ((ty, payload) :: attrs) ++ post
                   = pre ++ nla_wire ty payload ++ (attrs_wire attrs ++ post)).
    { unfold attrs_wire. cbn [flat_map fst snd]. rewrite <- app_assoc. reflexivity. }
    rewrite Hmem, Hlen.
    rewrite nla_walk_step by (try reflexivity; try assumption; lia).
    replace (Netlink.NLA_ALIGN (4 + Z.of_nat (length payload))
             + Z.of_nat (length (attrs_wire attrs))
             - Netlink.NLA_ALIGN (4 + Z.of_nat (length payload)))
      with (Z.of_nat (length (attrs_wire attrs))) by lia.
    rewrite (app_assoc pre (nla_wire ty payload)).
    rewrite IH;
      [| rewrite length_app, Nat2Z.inj_add, length_nla_wire; reflexivity
       | exact Hrest | cbn [length] in Hfuel; lia | exact HT].
    cbn [has_attr existsb fst]. fold (has_attr T attrs).
    destruct (ty >? maxtype) eqn:Egt.
    + assert (Hne : (ty =? T) = false).
      { apply Z.eqb_neq. rewrite Z.gtb_ltb in Egt. apply Z.ltb_lt in Egt. lia. }
      rewrite Hne. cbn [orb]. tauto.
    + unfold Netlink.tb_set. rewrite (Z.eqb_sym T ty).
      destruct (ty =? T); cbn [orb]; [|tauto].
      split; [intros [Hd _]; discriminate Hd | intros [_ Hd]; discriminate Hd].
Qed.

Section RegisterRequest.
Variables (type flags seq pid cmd version : Z) (attrs : list (Z * bytes)) (stale : bytes).
Hypothesis Hseq : 0 <= seq < 2 ^ 32.
Hypothesis Hpid : 0 <= pid < 2 ^ 32.
Hypothesis Hcmd : 0 <= cmd < 256.
Hypothesis Hfits : Forall attr_fits attrs.
Hypothesis Htotal : 20 + Z.of_nat (length (attrs_wire attrs)) < 2 ^ 31.

Let total := 20 + Z.of_nat (length (attrs_wire attrs)).
Let head8 : bytes := le_split 4 total ++ le_split 2 type ++ le_split 2 flags.
Let genl : bytes := [byte.of_Z (to_uint8 cmd); byte.of_Z (to_uint8 version);
                     Byte.x00; Byte.x00].
Let hdr20 : bytes := head8 ++ le_split 4 seq ++ le_split 4 pid ++ genl.
Let request : bytes := request_wire type flags seq pid cmd version attrs.

Local Lemma request_split : request = hdr20 ++ attrs_wire attrs.
Proof.
  unfold request, request_wire, hdr20, head8, genl. fold total.
  rewrite <- !app_assoc. reflexivity.
Qed.

Local Lemma length_head8 : length head8 = 8%nat.
Proof. unfold head8. rewrite !length_app, !length_le_split. reflexivity. Qed.

Local Lemma length_request_hdr : length hdr20 = 20%nat.
Proof.
  unfold hdr20. rewrite !length_app, length_head8, !length_le_split. reflexivity.
Qed.

Lemma length_request_wire : Z.of_nat (length request) = total.
Proof.
  rewrite request_split, length_app, Nat2Z.inj_add, length_request_hdr.
  unfold total. lia.
Qed.

Lemma request_wire_fields :
  Netlink.nlmsg_len (request ++ stale) = total
  /\ Netlink.nlmsg_seq (request ++ stale) = seq
  /\ Netlink.nlmsg_pid (request ++ stale) = pid
  /\ Netlink.genl_cmd (request ++ stale) = cmd.
Proof.
  rewrite request_split. unfold hdr20.
  assert (Htot : 0 <= total < 2 ^ 32) by (unfold total; pow2; lia).
  split; [|split; [|split]].
  - unfold head8, Netlink.nlmsg_len. rewrite <- !app_assoc.
    rewrite load_first. apply Z.mod_small. exact Htot.
  - unfold Netlink.nlmsg_seq. rewrite <- !app_assoc.
    rewrite (load_at_offset 4 head8) by (rewrite length_head8; reflexivity).
    apply Z.mod_small. exact Hseq.
  - unfold Netlink.nlmsg_pid. rewrite <- !app_assoc.
    rewrite (app_assoc head8 (le_split 4 seq)).
    rewrite (load_at_offset 4 (head8 ++ le_split 4 seq))
      by (rewrite length_app, length_head8, length_le_split; reflexivity).
    apply Z.mod_small. exact Hpid.
  - unfold Netlink.genl_cmd, genl.
    change [byte.of_Z (to_uint8 cmd); byte.of_Z (to_uint8 version); Byte.x00; Byte.x00]
      with (le_split 1 (to_uint8 cmd) ++ [byte.of_Z (to_uint8 version); Byte.x00; Byte.x00]).
    rewrite <- !app_assoc.
    rewrite (app_assoc head8 (le_split 4 seq)), (app_assoc _ (le_split 4 pid)).
    rewrite (load_at_offset 1 ((head8 ++ le_split 4 seq) ++ le_split 4 pid))
      by (rewrite !length_app, length_head8, !length_le_split; reflexivity).
    unfold to_uint8. change (2 ^ (Z.of_nat 1 * 8)) with (2 ^ 8).
    rewrite Z.mod_mod by discriminate. apply Z.mod_small. pow2. lia.
Qed.

Lemma request_wire_framing : bad_framing (Z.of_nat (length request)) (request ++ stale) = false.
Proof.
  destruct request_wire_fields as (Hlen & _).
  unfold bad_framing. rewrite Hlen, length_request_wire, Z.eqb_refl.
  unfold sizeof_nlmsghdr.
  replace (total =? 0) with false by (symmetry; apply Z.eqb_neq; unfold total; lia).
  replace (total <? 16) with false by (symmetry; apply Z.ltb_ge; unfold total; lia).
  reflexivity.
Qed.

(** [nlmsg_parse] finds a MAC attribute in the request exactly when one
    of its attributes has that type. *)
Lemma request_wire_mac_attribute (H : RouterH) :
  WIFIROUTER_ATTR_MAC H <= WIFIROUTER_ATTR_MAX H - 1 ->
  mac_attribute H (request ++ stale) = None
  <-> has_attr (WIFIROUTER_ATTR_MAC H) attrs = false.
Proof.
  intros Hmax.
  destruct request_wire_fields as (Hlen & _).
  unfold mac_attribute, Netlink.nlmsg_parse, Netlink.nlmsg_valid_hdr. rewrite Hlen.
  unfold sizeof_genlmsghdr, Netlink.NLMSG_HDRLEN.
  replace (total <? 16 + 4) with false by (symmetry; apply Z.ltb_ge; unfold total; lia).
  cbn [negb]. change (Netlink.NLMSG_ALIGN 4) with 4.
  assert (Ei : to_int (total - 16) = total - 16).
  { unfold to_int. unfold total in *. pow2. rewrite Z.mod_small by lia. lia. }
  rewrite Ei.
  replace (Z.max (total - 16 - 4) 0) with (Z.of_nat (length (attrs_wire attrs)))
    by (unfold total; lia).
  unfold Netlink.nla_parse. rewrite Z.eqb_refl.
  rewrite request_split, <- app_assoc.
  rewrite nla_walk_attrs;
    [| rewrite length_request_hdr; reflexivity | exact Hfits | | exact Hmax].
  - unfold Netlink.tb_empty. tauto.
  - pose proof (length_attrs_wire_ge attrs) as Hge.
    assert (Z.of_nat (length attrs) <= Z.of_nat (length (attrs_wire attrs)) / 4)
      by (apply Z.div_le_lower_bound; lia).
    lia.
Qed.
End RegisterRequest.


(** ** Sample runs *)

(** Closes a hypothesis about sample inputs by evaluation. *)
Ltac by_evaluation :=
  intros;
  first
    [ reflexivity
    | discriminate
    | lia
    | solve [vm_compute; first [reflexivity | discriminate | lia]]
    | solve [vm_compute; repeat split; first [reflexivity | discriminate]]
    | solve [repeat constructor]
    | solve [vm_compute; repeat constructor; discriminate]
    | solve [unfold hwsim_notification; repeat split; vm_compute;
             first [reflexivity | discriminate]] ].

Lemma registration_round_trip_witness :
  exists evs,
    history (RouteWIFIPacket Sample.router_h Sample.sys_ok Sample.family 40
               (Sample.notification Sample.mac_c Sample.payload)
               (Sample.registered Sample.sys_ok [5] Sample.mac_c))
    = history (Sample.registered Sample.sys_ok [5] Sample.mac_c) ++ evs
    /\ sends_to 5 evs
       = [(fanout_wire 2 1 2 Sample.mac_c (Sample.notification Sample.mac_c Sample.payload),
           76)].
Proof.
  unshelve epose proof
    (registration_round_trip Sample.router_h Sample.sys_ok Sample.family 5 32
       (Sample.register_request 7 42 Sample.mac_c) (Sample.state [5]) 20 40
       (Sample.notification Sample.mac_c Sample.payload) 20 Sample.mac_c
       _ _ _ _ _ _ _ _ _ _ _ _ _ _ _ _ _) as W; [by_evaluation .. |].
  destruct W as (evs & Hh & Hs & _). exists evs. split; [exact Hh|].
  rewrite Hs. vm_compute. reflexivity.
Defined.

Lemma RemoveClient_idempotent_witness :
  IntSet.mem 7 (clients (Sample.registered Sample.sys_ok [5] Sample.mac_c)) = false
  /\ (forall k, MultiMap.count k 7 (targets (Sample.registered Sample.sys_ok [5] Sample.mac_c))
                = 0%nat)
  /\ clients (RemoveClient 7 (Sample.registered Sample.sys_ok [5] Sample.mac_c)) = [5]
  /\ targets (RemoveClient 7 (Sample.registered Sample.sys_ok [5] Sample.mac_c))
     = targets (Sample.registered Sample.sys_ok [5] Sample.mac_c).
Proof.
  assert (Hc : IntSet.mem 7 (clients (Sample.registered Sample.sys_ok [5] Sample.mac_c)) = false)
    by reflexivity.
  assert (Ht : forall k, MultiMap.count k 7
                           (targets (Sample.registered Sample.sys_ok [5] Sample.mac_c)) = 0%nat).
  { intros k.
    assert (E : targets (Sample.registered Sample.sys_ok [5] Sample.mac_c)
                = [(GetMacHash Sample.mac_c, 5)]) by (vm_compute; reflexivity).
    rewrite E. unfold MultiMap.count. cbn [filter fst snd].
    change (5 =? 7) with false. rewrite andb_false_r. reflexivity. }
  split; [exact Hc|]. split; [exact Ht|].
  destruct (RemoveClient_idempotent 7 (Sample.registered Sample.sys_ok [5] Sample.mac_c))
    as (_ & _ & _ & _ & _ & Hnoop).
  destruct (Hnoop Hc Ht) as (E1 & E2). split; [rewrite E1; reflexivity | exact E2].
Defined.




(** C1 as stated fails.  Client 5 registers [mac_c] a second time and is
    acknowledged; a notification from [mac_c] is then sent to the client
    twice.  Client 7 registers [mac_b] and then [mac_a], which has the same
    key; one notification from [mac_a] is sent to the client twice.  Client
    5 registers [mac_c] once; a notification from [mac_c] of 4116 bytes does
    not fit the page libnl allocates, and the one frame sent to the client
    has 32 bytes and no packet attribute. *)
Lemma round_trip_counterexample :
  (fst (HandleClientMessage Sample.router_h Sample.sys_ok 5 32
          (Sample.register_request 7 42 Sample.mac_c)
          (Sample.registered Sample.sys_ok [5] Sample.mac_c)) = true
   /\ hwsim_notification Sample.family 40
                         (Sample.notification Sample.mac_c Sample.payload) 20
   /\ history
        (RouteWIFIPacket Sample.router_h Sample.sys_ok Sample.family 40
           (Sample.notification Sample.mac_c Sample.payload)
           (snd (HandleClientMessage Sample.router_h Sample.sys_ok 5 32
                   (Sample.register_request 7 42 Sample.mac_c)
                   (Sample.registered Sample.sys_ok [5] Sample.mac_c))))
      = history
          (snd (HandleClientMessage Sample.router_h Sample.sys_ok 5 32
                  (Sample.register_request 7 42 Sample.mac_c)
                  (Sample.registered Sample.sys_ok [5] Sample.mac_c)))
        ++ [EvSend 5 (fanout_wire 2 1 2 Sample.mac_c
                        (Sample.notification Sample.mac_c Sample.payload)) 76;
            EvSend 5 (fanout_wire 2 1 2 Sample.mac_c
                        (Sample.notification Sample.mac_c Sample.payload)) 76])
  /\ (Sample.mac_b <> Sample.mac_a
      /\ fst (HandleClientMessage Sample.router_h Sample.sys_ok 7 32
                (Sample.register_request 7 2 Sample.mac_a)
                (snd (HandleClientMessage Sample.router_h Sample.sys_ok 7 32
                        (Sample.register_request 7 1 Sample.mac_b) (Sample.state [7]))))
         = true
      /\ hwsim_notification Sample.family 40
                            (Sample.notification Sample.mac_a Sample.payload) 20
      /\ history
           (RouteWIFIPacket Sample.router_h Sample.sys_ok Sample.family 40
              (Sample.notification Sample.mac_a Sample.payload)
              (snd (HandleClientMessage Sample.router_h Sample.sys_ok 7 32
                      (Sample.register_request 7 2 Sample.mac_a)
                      (snd (HandleClientMessage Sample.router_h Sample.sys_ok 7 32
                              (Sample.register_request 7 1 Sample.mac_b)
                              (Sample.state [7]))))))
         = history
             (snd (HandleClientMessage Sample.router_h Sample.sys_ok 7 32
                     (Sample.register_request 7 2 Sample.mac_a)
                     (snd (HandleClientMessage Sample.router_h Sample.sys_ok 7 32
                             (Sample.register_request 7 1 Sample.mac_b)
                             (Sample.state [7])))))
           ++ [EvSend 7 (fanout_wire 2 1 2 Sample.mac_a
                           (Sample.notification Sample.mac_a Sample.payload)) 76;
               EvSend 7 (fanout_wire 2 1 2 Sample.mac_a
                           (Sample.notification Sample.mac_a Sample.payload)) 76])
  /\ (fst (HandleClientMessage Sample.router_h Sample.sys_ok 5 32
             (Sample.register_request 7 42 Sample.mac_c) (Sample.state [5])) = true
      /\ hwsim_notification Sample.family 4116 Scenario.large_notification 20
      /\ memcpy_src (at_offset Scenario.large_notification (Netlink.nla_data 20)) 6
         = Sample.mac_c
      /\ history (RouteWIFIPacket Sample.router_h Sample.sys_ok Sample.family 4116
                    Scenario.large_notification
                    (Sample.registered Sample.sys_ok [5] Sample.mac_c))
         = history (Sample.registered Sample.sys_ok [5] Sample.mac_c)
           ++ [EvSend 5 (mac_only_wire 2 1 Sample.mac_c) 32]
      /\ snd (Netlink.genlmsg_parse (mac_only_wire 2 1 Sample.mac_c) 0 2) 2 = None).
Proof.
  split; [|split].
  - split; [vm_compute; reflexivity|].
    split; [by_evaluation|].
    vm_compute. reflexivity.
  - split; [discriminate|].
    split; [vm_compute; reflexivity|].
    split; [by_evaluation|].
    vm_compute. reflexivity.
  - split; [vm_compute; reflexivity|].
    split; [by_evaluation|].
    split; [vm_compute; reflexivity|].
    split; vm_compute; reflexivity.
Qed.


(** C3 as stated fails: after client 5 has connected and sent the same
    REGISTER twice, the pair occurs twice in the table of a reachable state,
    and one notification is sent to the client twice. *)
Lemma duplicate_registration_counterexample :
  reachable Sample.router_h Sample.sys_ok Sample.server_fd Sample.netlink_fd Sample.family
            Sample.registered_twice
  /\ MultiMap.count (GetMacHash Sample.mac_c) 5 (targets Sample.registered_twice) = 2%nat
  /\ history (Sample.loop_pass Sample.sys_ok Sample.pass_notify Sample.registered_twice)
     = history Sample.registered_twice
       ++ [EvSend 5 (fanout_wire 2 1 2 Sample.mac_c
                       (Sample.notification Sample.mac_c Sample.payload)) 76;
           EvSend 5 (fanout_wire 2 1 2 Sample.mac_c
                       (Sample.notification Sample.mac_c Sample.payload)) 76].
Proof.
  split; [|split].
  - unfold Sample.registered_twice, Sample.loop_pass.
    repeat apply reachable_pass. apply reachable_init.
  - vm_compute. reflexivity.
  - vm_compute. reflexivity.
Qed.

Lemma registration_counts_witness :
  MultiMap.count (GetMacHash Sample.mac_c) 5
    (targets (snd (HandleClientMessage Sample.router_h Sample.sys_ok 5 32
                     (Sample.register_request 7 42 Sample.mac_c)
                     (Sample.registered Sample.sys_ok [5] Sample.mac_c))))
  = 2%nat.
Proof.
  unshelve epose proof
    (registration_counts Sample.router_h Sample.sys_ok Sample.family 5 32
       (Sample.register_request 7 42 Sample.mac_c)
       (Sample.registered Sample.sys_ok [5] Sample.mac_c) 20 _ _ _ _) as W;
    [by_evaluation .. |].
  destruct W as (Hc & _). exact Hc.
Defined.

(** C7 as stated fails: a request of 17 bytes that declares 17 bytes is too
    short for [nlmsg_parse], yet client 5 is answered, with [-EINVAL], and
    stays in the set of clients. *)
Lemma unparsable_request_counterexample :
  bad_framing 17 Sample.short_request = false
  /\ fst (Netlink.nlmsg_parse Sample.short_request sizeof_genlmsghdr
                              (WIFIROUTER_ATTR_MAX Sample.router_h - 1)) <> 0
  /\ client_loop Sample.router_h Sample.sys_ok (fun _ => true)
                 (fun _ => (17, Sample.short_request)) [5] (Sample.state [5])
     = {| clients := [5]; targets := [];
          history := [EvSend 5 (Netlink.nlmsg_hdr
                                  (ack_msg Sample.sys_ok Sample.short_request (- EINVAL)))
                             36] |}.
Proof.
  split; [reflexivity|]. split; [vm_compute; discriminate | vm_compute; reflexivity].
Qed.

Lemma protocol_violation_witness :
  client_loop Sample.router_h Sample.sys_ok (fun _ => true)
              (fun _ => (32, Sample.mismatched_request)) [5] (Sample.state [5])
  = RemoveClient 5 (Sample.state [5]).
Proof.
  unshelve epose proof
    (protocol_violation Sample.router_h Sample.sys_ok 5 32 Sample.mismatched_request
       (Sample.state [5]) (fun _ => true) (fun _ => (32, Sample.mismatched_request))
       _ _ _) as W; [by_evaluation .. |].
  destruct W as (Hbad & _). apply Hbad. vm_compute. reflexivity.
Defined.

(** C2 fails on the code: [mac_b] differs from [mac_a] and has the same
    key, so the notification from [mac_a] is sent to client 7, who
    registered [mac_b] only, as well as to clients 5 and 6. *)
Theorem hash_collision_misroutes :
  Sample.mac_b <> Sample.mac_a
  /\ targets (Sample.three_clients Sample.sys_ok)
     = [(GetMacHash Sample.mac_a, 5); (GetMacHash Sample.mac_a, 6);
        (GetMacHash Sample.mac_b, 7)]
  /\ history (RouteWIFIPacket Sample.router_h Sample.sys_ok Sample.family 40
                (Sample.notification Sample.mac_a Sample.payload)
                (Sample.three_clients Sample.sys_ok))
     = history (Sample.three_clients Sample.sys_ok)
       ++ map (fun fd => EvSend fd (fanout_wire 2 1 2 Sample.mac_a
                                      (Sample.notification Sample.mac_a Sample.payload)) 76)
              [5; 6; 7].
Proof.
  split; [discriminate|]. split; vm_compute; reflexivity.
Qed.

(** The request path turns down whatever is shorter than a header. *)
Lemma HandleClientMessage_short (H : RouterH) (sys : System) (client size : Z)
      (msg : bytes) (st : State) :
  size < sizeof_nlmsghdr ->
  HandleClientMessage H sys client size msg st = (false, st).
Proof.
  intros Hsize. apply HandleClientMessage_rejects. unfold bad_framing.
  replace (size <? sizeof_nlmsghdr) with true by (symmetry; apply Z.ltb_lt; exact Hsize).
  apply orb_true_r.
Qed.

(** C8 fails on the code: [RouteWIFIPacket] does not compare the length
    received with anything.  Of a datagram of 8 bytes it reads the fields
    and attributes behind the bytes received: with what an earlier
    notification left in the buffer, a frame is sent to the subscriber; with
    zeros there, nothing is. *)
Theorem truncated_notification_routed :
  Z.of_nat (length Sample.truncated) = 8
  /\ 8 < sizeof_nlmsghdr
  /\ history (RouteWIFIPacket Sample.router_h Sample.sys_ok Sample.family 8
                (Sample.truncated ++ Sample.stale)
                (Sample.registered Sample.sys_ok [5] Sample.mac_c))
     = history (Sample.registered Sample.sys_ok [5] Sample.mac_c)
       ++ [EvSend 5 (fanout_wire 2 1 2 Sample.mac_c Sample.truncated) 44]
  /\ RouteWIFIPacket Sample.router_h Sample.sys_ok Sample.family 8 Sample.truncated
                     (Sample.registered Sample.sys_ok [5] Sample.mac_c)
     = Sample.registered Sample.sys_ok [5] Sample.mac_c.
Proof.
  split; [reflexivity|]. split; [reflexivity|]. split; vm_compute; reflexivity.
Qed.

(** * Further properties of the router *)

(** ** GetMacHash *)

(** X1: the hash is a function of the six bytes at the address: two images
    that agree on their first six bytes have the same hash. *)
Theorem GetMacHash_reads_six_bytes (m m' : bytes) :
  memcpy_src m 6 = memcpy_src m' 6 -> GetMacHash m = GetMacHash m'.
Proof.
  intros E. rewrite <- (GetMacHash_six_bytes m), <- (GetMacHash_six_bytes m'), E.
  reflexivity.
Qed.

Lemma GetMacHash_reads_six_bytes_witness :
  GetMacHash (Sample.mac_c ++ Sample.payload) = GetMacHash Sample.mac_c.
Proof. apply GetMacHash_reads_six_bytes. vm_compute. reflexivity. Defined.

Lemma lor_shifted_add (a b n : Z) :
  0 <= n -> 0 <= b < 2 ^ n -> Z.lor (a * 2 ^ n) b = a * 2 ^ n + b.
Proof.
  intros Hn Hb.
  assert (Hland : Z.land (a * 2 ^ n) b = 0).
  { apply Z.bits_inj'. intros k Hk. rewrite Z.land_spec, Z.bits_0.
    destruct (Z_lt_le_dec k n) as [Hlt|Hge].
    - rewrite Z.mul_pow2_bits_low by lia. reflexivity.
    - rewrite (testbit_small b n k) by lia. apply andb_false_r. }
  rewrite <- Z.lxor_lor by exact Hland. symmetry. apply Z.add_nocarry_lxor. exact Hland.
Qed.

(** When bit 15 of the second word is clear, the hash is the three words
    side by side. *)
Lemma GetMacHash_low (m : bytes) :
  typed m 1 < 2 ^ 15 ->
  GetMacHash m = typed m 0 * 2 ^ 32 + typed m 1 * 2 ^ 16 + typed m 2.
Proof.
  intros Hlow.
  pose proof (typed_range m 0) as H0. pose proof (typed_range m 1) as H1.
  pose proof (typed_range m 2) as H2.
  unfold GetMacHash, to_uint64, to_int.
  rewrite Z.mul_1_l, !Z.shiftl_mul_pow2 by lia. pow2.
  rewrite (Z.mod_small (typed m 0)) by lia.
  rewrite (Z.mod_small (typed m 0 * 4294967296)) by lia.
  rewrite (Z.mod_small (typed m 1 * 65536 + 2147483648)) by lia.
  replace (typed m 1 * 65536 + 2147483648 - 2147483648) with (typed m 1 * 65536) by lia.
  rewrite (Z.mod_small (typed m 1 * 65536)) by lia.
  rewrite (Z.mod_small (typed m 2)) by lia.
  change 4294967296 with (2 ^ 32) at 1.
  rewrite (lor_shifted_add (typed m 0) (typed m 1 * 65536) 32) by (pow2; lia).
  replace (typed m 0 * 2 ^ 32 + typed m 1 * 65536)
    with ((typed m 0 * 65536 + typed m 1) * 2 ^ 16) by (pow2; lia).
  rewrite lor_shifted_add by (pow2; lia). pow2. lia.
Qed.

Lemma typed_words (b0 b1 b2 b3 b4 b5 : byte) :
  typed [b0; b1; b2; b3; b4; b5] 0 = le_combine [b0; b1]
  /\ typed [b0; b1; b2; b3; b4; b5] 1 = le_combine [b2; b3]
  /\ typed [b0; b1; b2; b3; b4; b5] 2 = le_combine [b4; b5].
Proof. repeat split; reflexivity. Qed.

(** X2: on addresses whose second 16-bit word has bit 15 clear (the fourth
    byte is below 0x80), the hash tells the addresses apart: equal hashes
    mean equal addresses. *)
Theorem GetMacHash_injective_low (m m' : bytes) :
  length m = 6%nat -> length m' = 6%nat ->
  typed m 1 < 2 ^ 15 -> typed m' 1 < 2 ^ 15 ->
  GetMacHash m = GetMacHash m' -> m = m'.
Proof.
  intros L L' Hlow Hlow' E.
  rewrite (GetMacHash_low m Hlow), (GetMacHash_low m' Hlow') in E.
  pose proof (typed_range m 0). pose proof (typed_range m 1). pose proof (typed_range m 2).
  pose proof (typed_range m' 0). pose proof (typed_range m' 1). pose proof (typed_range m' 2).
  assert (E0 : typed m 0 = typed m' 0) by (pow2; lia).
  assert (E1 : typed m 1 = typed m' 1) by (pow2; lia).
  assert (E2 : typed m 2 = typed m' 2) by (pow2; lia).
  destruct m as [|b0 [|b1 [|b2 [|b3 [|b4 [|b5 [|]]]]]]]; try discriminate L.
  destruct m' as [|c0 [|c1 [|c2 [|c3 [|c4 [|c5 [|]]]]]]]; try discriminate L'.
  destruct (typed_words b0 b1 b2 b3 b4 b5) as (W0 & W1 & W2).
  destruct (typed_words c0 c1 c2 c3 c4 c5) as (V0 & V1 & V2).
  rewrite W0, V0 in E0. rewrite W1, V1 in E1. rewrite W2, V2 in E2.
  apply le_combine_inj in E0; [|reflexivity].
  apply le_combine_inj in E1; [|reflexivity].
  apply le_combine_inj in E2; [|reflexivity].
  congruence.
Qed.

Lemma GetMacHash_injective_low_witness :
  Scenario.mac_1 = firstn 6 (Scenario.mac_1 ++ Sample.payload).
Proof.
  apply GetMacHash_injective_low;
    [reflexivity | reflexivity | vm_compute; reflexivity | vm_compute; reflexivity
    | vm_compute; reflexivity].
Defined.

(** ** AcceptNewClient *)

(** X3: a failed [accept] changes nothing; a successful one adds the
    descriptor to the set of clients (which stays a set in increasing order)
    and touches neither the subscription index nor the history. *)
Theorem AcceptNewClient_adds_client (client : Z) (st : State) :
  (client < 0 -> AcceptNewClient client st = st)
  /\ (0 <= client ->
      (forall x, In x (clients (AcceptNewClient client st)) <-> x = client \/ In x (clients st))
      /\ (increasing (clients st) -> increasing (clients (AcceptNewClient client st))))
  /\ targets (AcceptNewClient client st) = targets st
  /\ history (AcceptNewClient client st) = history st.
Proof.
  unfold AcceptNewClient. split; [|split; [|split]].
  - intros Hneg. replace (client <? 0) with true by (symmetry; apply Z.ltb_lt; exact Hneg).
    reflexivity.
  - intros Hpos. replace (client <? 0) with false by (symmetry; apply Z.ltb_ge; exact Hpos).
    simpl. split; [intros x; apply In_insert | apply insert_increasing].
  - destruct (client <? 0); reflexivity.
  - destruct (client <? 0); reflexivity.
Qed.

Lemma AcceptNewClient_adds_client_witness :
  AcceptNewClient (-1) (Sample.state [5]) = Sample.state [5]
  /\ clients (AcceptNewClient 4 (Sample.state [5])) = [4; 5].
Proof.
  destruct (AcceptNewClient_adds_client (-1) (Sample.state [5])) as (Hfail & _).
  split; [apply Hfail; reflexivity | reflexivity].
Defined.

(** ** RouteWIFIPacket *)

Lemma sent_fds_app (t1 t2 : trace) : sent_fds (t1 ++ t2) = sent_fds t1 ++ sent_fds t2.
Proof. unfold sent_fds. apply flat_map_app. Qed.

Lemma sent_fds_closes (l : list Z) : sent_fds (map EvClose l) = [].
Proof. induction l as [|x l IH]; simpl; [reflexivity | exact IH]. Qed.

Lemma sent_fds_sent (sys : System) (frame : bytes) (subs : list Z) (tr : trace) :
  sent_fds (sent sys frame subs tr) = subs.
Proof.
  revert tr. induction subs as [|c subs IH]; intros tr; simpl; [reflexivity|].
  rewrite IH. reflexivity.
Qed.

Lemma sent_frames (sys : System) (frame : bytes) (subs : list Z) (tr : trace)
      (fd : Z) (f : bytes) (n : Z) :
  In (EvSend fd f n) (sent sys frame subs tr) -> f = frame.
Proof.
  revert tr. induction subs as [|c subs IH]; intros tr; simpl; [intros []|].
  intros [E|Hin]; [inversion E; reflexivity | exact (IH _ Hin)].
Qed.

(** The events of a routed notification: the [send]s, then the [close]s. *)
Lemma RouteWIFIPacket_events (H : RouterH) (sys : System) (family len : Z) (buf : bytes)
      (st : State) (addr : Z) :
  hwsim_notification family len buf addr ->
  key_ordered (targets st) ->
  let hdr := Netlink.nlmsg_hdr (notify_msg H sys len buf addr) in
  let frame := memcpy_src hdr (Netlink.nlmsg_len hdr) in
  let key := GetMacHash (at_offset buf (Netlink.nla_data addr)) in
  let subs := subscribers key (targets st) in
  let removed := snd (deliver sys hdr subs (history st) IntSet.empty) in
  RouteWIFIPacket H sys family len buf st
  = fold_left (fun st' c => RemoveClient c st') removed
              {| clients := clients st; targets := targets st;
                 history := history st ++ sent sys frame subs (history st) |}.
Proof.
  intros Hn Hord hdr frame key subs removed.
  rewrite (RouteWIFIPacket_routes H sys family len buf st addr Hn Hord).
  fold hdr key subs. rewrite deliver_history. reflexivity.
Qed.

(** X4: a notification of the radio is sent to the subscribers of the key
    of its transmitter address, one [send] for each registration in the
    order of the registrations, the same frame every time; whoever is not
    registered under that key is sent nothing; [close]s come after all
    [send]s. *)
Theorem route_sends_to_subscribers (H : RouterH) (sys : System) (family len : Z)
        (buf : bytes) (st : State) (addr : Z) :
  hwsim_notification family len buf addr ->
  key_ordered (targets st) ->
  let hdr := Netlink.nlmsg_hdr (notify_msg H sys len buf addr) in
  let key := GetMacHash (at_offset buf (Netlink.nla_data addr)) in
  exists sends removed,
    history (RouteWIFIPacket H sys family len buf st)
    = history st ++ sends ++ map EvClose removed
    /\ forallb is_send sends = true
    /\ sent_fds sends = subscribers key (targets st)
    /\ (forall fd f n, In (EvSend fd f n) sends -> f = memcpy_src hdr (Netlink.nlmsg_len hdr))
    /\ (forall c, MultiMap.count key c (targets st) = 0%nat -> sends_to c sends = []).
Proof.
  intros Hn Hord hdr key.
  rewrite (RouteWIFIPacket_events H sys family len buf st addr Hn Hord).
  fold hdr key. rewrite fold_RemoveClient_history. simpl history.
  eexists. eexists. split; [rewrite <- app_assoc; reflexivity|].
  split; [apply sent_all_sends|].
  split; [apply sent_fds_sent|].
  split; [intros fd f n Hin; exact (sent_frames _ _ _ _ _ _ _ Hin)|].
  intros c Hc.
  pose proof (sends_to_sent sys hdr (subscribers key (targets st)) (history st) c) as Hs.
  rewrite count_occ_subscribers, Hc in Hs. simpl in Hs.
  destruct (sends_to c _); [reflexivity | discriminate].
Qed.

Lemma route_sends_to_subscribers_witness :
  exists sends removed,
    history (RouteWIFIPacket Sample.router_h Sample.sys_ok Sample.family 40
               (Sample.notification Sample.mac_a Sample.payload)
               (Sample.three_clients Sample.sys_ok))
    = history (Sample.three_clients Sample.sys_ok) ++ sends ++ map EvClose removed
    /\ sent_fds sends = [5; 6; 7].
Proof.
  unshelve epose proof
    (route_sends_to_subscribers Sample.router_h Sample.sys_ok Sample.family 40
       (Sample.notification Sample.mac_a Sample.payload)
       (Sample.three_clients Sample.sys_ok) 20 _ _) as W; [by_evaluation .. |].
  destruct W as (sends & removed & Hh & _ & Hf & _).
  exists sends, removed. split; [exact Hh|]. rewrite Hf. vm_compute. reflexivity.
Defined.

Lemma deliver_all_complete (sys : System) (hdr : bytes) (subs : list Z) (tr : trace)
      (p : IntSet.t) :
  (forall tr' fd, In fd subs ->
                  sys_send sys tr' fd (memcpy_src hdr (Netlink.nlmsg_len hdr))
                  = Netlink.nlmsg_len hdr) ->
  snd (deliver sys hdr subs tr p) = p.
Proof.
  revert tr p. induction subs as [|c subs IH]; intros tr p Hok; simpl; [reflexivity|].
  rewrite (Hok tr c (or_introl eq_refl)), Z.eqb_refl. simpl.
  apply IH. intros tr' fd Hin. apply Hok. right. exact Hin.
Qed.

(** X5: when every [send] of the frame to a subscriber returns the length
    of the frame, routing changes neither the set of clients nor the
    subscription index, and closes nothing. *)
Theorem route_all_delivered (H : RouterH) (sys : System) (family len : Z)
        (buf : bytes) (st : State) (addr : Z) :
  hwsim_notification family len buf addr ->
  key_ordered (targets st) ->
  let hdr := Netlink.nlmsg_hdr (notify_msg H sys len buf addr) in
  let key := GetMacHash (at_offset buf (Netlink.nla_data addr)) in
  (forall tr fd, In fd (subscribers key (targets st)) ->
                 sys_send sys tr fd (memcpy_src hdr (Netlink.nlmsg_len hdr))
                 = Netlink.nlmsg_len hdr) ->
  let st' := RouteWIFIPacket H sys family len buf st in
  clients st' = clients st
  /\ targets st' = targets st
  /\ exists sends, history st' = history st ++ sends /\ forallb is_send sends = true.
Proof.
  intros Hn Hord hdr key Hok st'. unfold st'.
  rewrite (RouteWIFIPacket_events H sys family len buf st addr Hn Hord).
  fold hdr key. rewrite (deliver_all_complete sys hdr _ _ _ Hok). simpl.
  split; [reflexivity|]. split; [reflexivity|].
  eexists. split; [reflexivity | apply sent_all_sends].
Qed.

Lemma route_all_delivered_witness :
  clients (RouteWIFIPacket Sample.router_h Sample.sys_ok Sample.family 40
             (Sample.notification Sample.mac_a Sample.payload)
             (Sample.three_clients Sample.sys_ok)) = [5; 6; 7].
Proof.
  unshelve epose proof
    (route_all_delivered Sample.router_h Sample.sys_ok Sample.family 40
       (Sample.notification Sample.mac_a Sample.payload)
       (Sample.three_clients Sample.sys_ok) 20 _ _ _) as W; [by_evaluation .. |].
  destruct W as (Hc & _). rewrite Hc. reflexivity.
Defined.

Lemma fold_RemoveClient_targets (l : list Z) (st : State) (e : Z * Z) :
  In e (targets (fold_left (fun st' c => RemoveClient c st') l st))
  <-> In e (targets st) /\ ~ In (snd e) l.
Proof.
  revert st. induction l as [|c l IH]; intros st; simpl; [tauto|].
  rewrite IH. simpl. unfold MultiMap.erase_value.
  rewrite filter_In, negb_true_iff, Z.eqb_neq. intuition congruence.
Qed.

(** What [RouteWIFIPacket] returns, whatever it is given: the state it got,
    or that state with more history and some clients removed. *)
Lemma RouteWIFIPacket_cases (H : RouterH) (sys : System) (family len : Z)
      (buf : bytes) (st : State) :
  exists tr removed,
    RouteWIFIPacket H sys family len buf st
    = fold_left (fun st' c => RemoveClient c st') removed
                {| clients := clients st; targets := targets st;
                   history := history st ++ tr |}.
Proof.
  assert (Hsame : exists tr removed,
             st = fold_left (fun st' c => RemoveClient c st') removed
                            {| clients := clients st; targets := targets st;
                               history := history st ++ tr |}).
  { exists [], []. simpl. rewrite app_nil_r. destruct st; reflexivity. }
  unfold RouteWIFIPacket.
  destruct (len <? 0); [exact Hsame|].
  destruct (negb (Netlink.nlmsg_type buf =? family)); [exact Hsame|].
  destruct (Netlink.genlmsg_parse buf 0 HWSIM_ATTR_MAX) as [err attrs].
  destruct (negb (err =? 0)); [exact Hsame|].
  destruct (attrs HWSIM_ATTR_ADDR_TRANSMITTER) as [addr|]; [|exact Hsame].
  match goal with |- context [fanout sys ?k ?h ?it ?t ?p] =>
    assert (Hpre : exists tr, fst (fanout sys k h it t p) = t ++ tr);
    [|destruct (fanout sys k h it t p) as [tr' pend]] end.
  { match goal with |- context [fanout sys ?k ?h ?it ?t ?p] =>
      generalize it, t, p end.
    intros it. induction it as [|[k v] it IH]; intros t p; simpl.
    - exists []. rewrite app_nil_r. reflexivity.
    - destruct (k =? _); [|exists []; rewrite app_nil_r; reflexivity].
      match goal with |- context [fanout sys ?k0 ?h0 it ?t0 ?p0] =>
        destruct (IH t0 p0) as (tr & Htr) end.
      rewrite Htr. unfold send. simpl. rewrite <- app_assoc. eexists. reflexivity. }
  destruct Hpre as (tr & Htr). simpl in Htr. subst tr'.
  exists tr, pend. reflexivity.
Qed.

Lemma fold_RemoveClient_clients_count (l : list Z) (st : State) (c : Z) :
  count_occ Z.eq_dec (clients (fold_left (fun st' c' => RemoveClient c' st') l st)) c
  = if IntSet.mem c l then 0%nat else count_occ Z.eq_dec (clients st) c.
Proof.
  revert st. induction l as [|x l IH]; intros st; simpl; [reflexivity|].
  rewrite IH. unfold IntSet.mem. simpl.
  destruct (existsb (Z.eqb c) l); [rewrite orb_true_r; reflexivity|].
  rewrite orb_false_r. unfold IntSet.erase. rewrite count_occ_filter.
  destruct (c =? x); reflexivity.
Qed.

(** X6: whatever arrives from the kernel, [RouteWIFIPacket] adds no client
    and no registration: no descriptor occurs more often among the clients
    and no pair more often in the subscription index than before, and the
    history is only extended. *)
Theorem RouteWIFIPacket_never_adds (H : RouterH) (sys : System) (family len : Z)
        (buf : bytes) (st : State) :
  let st' := RouteWIFIPacket H sys family len buf st in
  (forall c, count_occ Z.eq_dec (clients st') c <= count_occ Z.eq_dec (clients st) c)%nat
  /\ (forall k c, MultiMap.count k c (targets st') <= MultiMap.count k c (targets st))%nat
  /\ exists evs, history st' = history st ++ evs.
Proof.
  intros st'. unfold st'.
  destruct (RouteWIFIPacket_cases H sys family len buf st) as (tr & removed & ->).
  split; [|split].
  - intros c. rewrite fold_RemoveClient_clients_count. simpl.
    destruct (IntSet.mem c removed); lia.
  - intros k c. rewrite fold_RemoveClient_count. simpl.
    destruct (IntSet.mem c removed); lia.
  - rewrite fold_RemoveClient_history. simpl. rewrite <- app_assoc. eexists. reflexivity.
Qed.

(** X12: a client that was removed is sent nothing by the notifications
    that follow, whatever it had registered. *)
Theorem removed_client_gets_nothing (H : RouterH) (sys : System) (family len : Z)
        (buf : bytes) (st : State) (addr client : Z) :
  hwsim_notification family len buf addr ->
  key_ordered (targets st) ->
  let st1 := RemoveClient client st in
  exists evs,
    history (RouteWIFIPacket H sys family len buf st1) = history st1 ++ evs
    /\ sends_to client evs = [].
Proof.
  intros Hn Hord st1.
  destruct (route_after_removal H sys family len buf st addr [client] Hn Hord)
    as (evs & Hh & Hev).
  exists evs. split; [exact Hh|].
  specialize (Hev client). unfold IntSet.mem in Hev. simpl in Hev.
  rewrite Z.eqb_refl in Hev. simpl in Hev.
  destruct (sends_to client evs); [reflexivity | discriminate].
Qed.

Lemma removed_client_gets_nothing_witness :
  exists evs,
    history (RouteWIFIPacket Sample.router_h Sample.sys_ok Sample.family 40
               (Sample.notification Sample.mac_a Sample.payload)
               (RemoveClient 6 (Sample.three_clients Sample.sys_ok)))
    = history (RemoveClient 6 (Sample.three_clients Sample.sys_ok)) ++ evs
    /\ sends_to 6 evs = [].
Proof.
  apply (removed_client_gets_nothing Sample.router_h Sample.sys_ok Sample.family 40
           (Sample.notification Sample.mac_a Sample.payload)
           (Sample.three_clients Sample.sys_ok) 20 6); by_evaluation.
Defined.

(** The frame of a notification too long for the message libnl allocated:
    the second [nla_put] fails and its result is not looked at. *)
Lemma notify_frame_oversized (H : RouterH) (sys : System) (len : Z) (buf : bytes) (addr : Z) :
  0 <= len ->
  Netlink.nla_len buf addr = 6 ->
  32 <= getpagesize sys < 32 + Netlink.NLA_ALIGN (4 + len) ->
  Netlink.nlmsg_hdr (notify_msg H sys len buf addr)
  = mac_only_wire (WIFIROUTER_CMD_NOTIFY H) (WIFIROUTER_ATTR_MAC H)
                  (memcpy_src (at_offset buf (Netlink.nla_data addr)) 6).
Proof.
  intros Hlen Hmac Hpage. unfold notify_msg, mac_only_wire. rewrite Hmac.
  rewrite genlmsg_put_alloc by lia.
  rewrite (nla_put_wire _ (WIFIROUTER_ATTR_MAC H));
    [| lia | reflexivity | change (16 + 4 + 12 <= getpagesize sys); lia].
  set (mac := nla_wire (WIFIROUTER_ATTR_MAC H) (memcpy_src (at_offset buf (Netlink.nla_data addr)) 6)).
  assert (Lmac : Z.of_nat (length mac) = 12).
  { unfold mac. rewrite length_nla_wire, length_memcpy_src. reflexivity. }
  cbn [Netlink.nm_payload Netlink.with_payload].
  unfold Netlink.nla_put.
  replace (len <? 0) with false by (symmetry; apply Z.ltb_ge; exact Hlen).
  assert (Hnm : Netlink.nm_len
                  (Netlink.with_payload
                     (Netlink.with_payload (Netlink.nlmsg_alloc (getpagesize sys))
                        [byte.of_Z (to_uint8 (WIFIROUTER_CMD_NOTIFY H)); Byte.x00; Byte.x00;
                         Byte.x00])
                     ([byte.of_Z (to_uint8 (WIFIROUTER_CMD_NOTIFY H)); Byte.x00; Byte.x00;
                       Byte.x00] ++ mac)) = 32).
  { unfold Netlink.nm_len. cbn [Netlink.nm_payload Netlink.with_payload].
    rewrite length_app, Nat2Z.inj_add, Lmac. reflexivity. }
  rewrite Hnm. change (Netlink.NLMSG_ALIGN 32) with 32.
  cbn [Netlink.nm_size Netlink.with_payload Netlink.nlmsg_alloc].
  rewrite gtb_true by (unfold Netlink.NLA_HDRLEN; lia).
  unfold Netlink.nlmsg_hdr. rewrite Hnm.
  cbn [Netlink.nm_payload Netlink.with_payload Netlink.nlmsg_alloc Netlink.nm_type
       Netlink.nm_flags Netlink.nm_seq Netlink.nm_pid].
  rewrite <- !app_assoc. reflexivity.
Qed.

Lemma mac_only_wire_len (cmd ty : Z) (M : bytes) :
  length M = 6%nat ->
  Netlink.nlmsg_len (mac_only_wire cmd ty M) = 32
  /\ Z.of_nat (length (mac_only_wire cmd ty M)) = 32.
Proof.
  intros HM. unfold mac_only_wire. split.
  - unfold Netlink.nlmsg_len. rewrite <- !app_assoc. rewrite load_first. reflexivity.
  - rewrite !length_app, !length_le_split, !Nat2Z.inj_add, length_nla_wire, HM. reflexivity.
Qed.

(** X7: a notification that, with its 32 bytes of headers and address,
    does not fit one page is still sent to the subscribers, but as a frame
    of 32 bytes that carries the address only: the packet is left out. *)
Theorem oversized_notification_loses_packet (H : RouterH) (sys : System) (family len : Z)
        (buf : bytes) (st : State) (addr : Z) :
  hwsim_notification family len buf addr ->
  key_ordered (targets st) ->
  Netlink.nla_len buf addr = 6 ->
  32 <= getpagesize sys < 32 + Netlink.NLA_ALIGN (4 + len) ->
  let key := GetMacHash (at_offset buf (Netlink.nla_data addr)) in
  let M := memcpy_src (at_offset buf (Netlink.nla_data addr)) 6 in
  exists sends removed,
    history (RouteWIFIPacket H sys family len buf st)
    = history st ++ sends ++ map EvClose removed
    /\ sent_fds sends = subscribers key (targets st)
    /\ forall fd f n,
        In (EvSend fd f n) sends ->
        f = mac_only_wire (WIFIROUTER_CMD_NOTIFY H) (WIFIROUTER_ATTR_MAC H) M
        /\ Z.of_nat (length f) = 32.
Proof.
  intros Hn Hord Hmac Hpage key M.
  pose proof Hn as (Hlen & _).
  rewrite (RouteWIFIPacket_events H sys family len buf st addr Hn Hord).
  fold key. rewrite fold_RemoveClient_history. simpl history.
  rewrite (notify_frame_oversized H sys len buf addr Hlen Hmac Hpage). fold M.
  assert (HM : length M = 6%nat) by (unfold M; rewrite length_memcpy_src; reflexivity).
  destruct (mac_only_wire_len (WIFIROUTER_CMD_NOTIFY H) (WIFIROUTER_ATTR_MAC H) M HM)
    as (Hl & Hsz).
  rewrite Hl, (memcpy_src_exact _ 32 Hsz).
  eexists. eexists. split; [rewrite <- app_assoc; reflexivity|].
  split; [apply sent_fds_sent|].
  intros fd f n Hin. apply sent_frames in Hin. subst f. split; [reflexivity | exact Hsz].
Qed.

Lemma oversized_notification_loses_packet_witness :
  exists sends removed,
    history (RouteWIFIPacket Sample.router_h Sample.sys_ok Sample.family 4116
               Scenario.large_notification
               (Sample.registered Sample.sys_ok [5] Sample.mac_c))
    = history (Sample.registered Sample.sys_ok [5] Sample.mac_c)
      ++ sends ++ map EvClose removed
    /\ sent_fds sends = [5].
Proof.
  unshelve epose proof
    (oversized_notification_loses_packet Sample.router_h Sample.sys_ok Sample.family 4116
       Scenario.large_notification (Sample.registered Sample.sys_ok [5] Sample.mac_c) 20
       _ _ _ _) as W; [by_evaluation .. |].
  destruct W as (sends & removed & Hh & Hf & _).
  exists sends, removed. split; [exact Hh|]. rewrite Hf. vm_compute. reflexivity.
Defined.

(** X13: a REGISTER changes the delivery for its own key only: a
    notification under another key goes to the subscribers that key had
    before. *)
Theorem registration_leaves_other_keys (H : RouterH) (sys : System) (family client size : Z)
        (msg : bytes) (st : State) (mac len : Z) (buf : bytes) (addr : Z) :
  bad_framing size msg = false ->
  Netlink.genl_cmd msg = WIFIROUTER_CMD_REGISTER H ->
  mac_attribute H msg = Some mac ->
  key_ordered (targets st) ->
  hwsim_notification family len buf addr ->
  GetMacHash (at_offset buf (Netlink.nla_data addr))
  <> GetMacHash (at_offset msg (Netlink.nla_data mac)) ->
  let st1 := snd (HandleClientMessage H sys client size msg st) in
  exists sends removed,
    history (RouteWIFIPacket H sys family len buf st1)
    = history st1 ++ sends ++ map EvClose removed
    /\ sent_fds sends
       = subscribers (GetMacHash (at_offset buf (Netlink.nla_data addr))) (targets st).
Proof.
  intros Hframe Hcmd Hmac Hord Hn Hkey st1.
  destruct (HandleClientMessage_registers H sys client size msg st mac Hframe Hcmd Hmac)
    as (Ht & _ & _).
  fold st1 in Ht.
  assert (Hord1 : key_ordered (targets st1)) by (rewrite Ht; apply emplace_ordered; exact Hord).
  rewrite (RouteWIFIPacket_events H sys family len buf st1 addr Hn Hord1).
  rewrite fold_RemoveClient_history. simpl history.
  eexists. eexists. split; [rewrite <- app_assoc; reflexivity|].
  rewrite sent_fds_sent, Ht. apply subscribers_emplace_other. exact Hkey.
Qed.

Lemma registration_leaves_other_keys_witness :
  exists sends removed,
    history (RouteWIFIPacket Sample.router_h Sample.sys_ok Sample.family 40
               (Sample.notification Sample.mac_a Sample.payload)
               (Sample.registered Sample.sys_ok [5] Sample.mac_c))
    = history (Sample.registered Sample.sys_ok [5] Sample.mac_c)
      ++ sends ++ map EvClose removed
    /\ sent_fds sends = [].
Proof.
  unshelve epose proof
    (registration_leaves_other_keys Sample.router_h Sample.sys_ok Sample.family 5 32
       (Sample.register_request 7 42 Sample.mac_c) (Sample.state [5]) 20 40
       (Sample.notification Sample.mac_a Sample.payload) 20 _ _ _ _ _ _) as W;
    [by_evaluation .. |].
  destruct W as (sends & removed & Hh & Hf).
  exists sends, removed. split; [exact Hh | exact Hf].
Defined.

(** ** HandleClientMessage, further *)

(** X8: a well-framed request with a command other than REGISTER is
    answered with a frame of 36 bytes of type [NLMSG_ERROR] that carries
    [-EINVAL] under the port and sequence number of the request; the
    subscription index and the clients stay as they are, and the flag
    returned only tells whether the answer was sent in full. *)
Theorem unsupported_command_acked (H : RouterH) (sys : System) (client size : Z)
        (msg : bytes) (st : State) :
  36 <= getpagesize sys ->
  bad_framing size msg = false ->
  Netlink.genl_cmd msg <> WIFIROUTER_CMD_REGISTER H ->
  exists ack n,
    HandleClientMessage H sys client size msg st
    = (n =? 36, {| clients := clients st; targets := targets st;
                   history := history st ++ [EvSend client ack n] |})
    /\ Z.of_nat (length ack) = 36
    /\ Netlink.nlmsg_type ack = Netlink.NLMSG_ERROR
    /\ to_int (load 4 ack 16) = - EINVAL
    /\ Netlink.nlmsg_pid ack = Netlink.nlmsg_pid msg
    /\ Netlink.nlmsg_seq ack = Netlink.nlmsg_seq msg.
Proof.
  intros Hpage Hframe Hcmd.
  rewrite (HandleClientMessage_acks H sys client size msg st Hpage Hframe).
  rewrite switch_cmd_result.
  replace (Netlink.genl_cmd msg =? WIFIROUTER_CMD_REGISTER H) with false
    by (symmetry; apply Z.eqb_neq; exact Hcmd).
  simpl fst. simpl snd.
  destruct (ack_fields sys msg (- EINVAL) Hpage) as (_ & Hsize & Hty & Hseq & Hpid & Hres).
  eexists. eexists. split; [reflexivity|].
  change (-22) with (- EINVAL).
  split; [exact Hsize|]. split; [exact Hty|].
  split; [rewrite Hres; reflexivity|]. split; [exact Hpid | exact Hseq].
Qed.

Lemma unsupported_command_acked_witness :
  exists ack n,
    HandleClientMessage Sample.router_h Sample.sys_ok 5 20 Scenario.unknown_request
                        (Sample.registered Sample.sys_ok [5] Sample.mac_c)
    = (n =? 36,
       {| clients := [5];
          targets := targets (Sample.registered Sample.sys_ok [5] Sample.mac_c);
          history := history (Sample.registered Sample.sys_ok [5] Sample.mac_c)
                     ++ [EvSend 5 ack n] |})
    /\ Netlink.nlmsg_type ack = Netlink.NLMSG_ERROR
    /\ to_int (load 4 ack 16) = - EINVAL.
Proof.
  unshelve epose proof
    (unsupported_command_acked Sample.router_h Sample.sys_ok 5 20 Scenario.unknown_request
       (Sample.registered Sample.sys_ok [5] Sample.mac_c) _ _ _) as W; [by_evaluation .. |].
  destruct W as (ack & n & Hh & _ & Hty & Hres & _). exists ack, n.
  split; [exact Hh|]. split; [exact Hty | exact Hres].
Defined.

(** X9: whatever a client sends, [HandleClientMessage] leaves the set of
    clients alone and adds at most one registration, for the sender; the
    registrations of every other client are as before. *)
Theorem HandleClientMessage_subscribes_only_caller (H : RouterH) (sys : System)
        (client size : Z) (msg : bytes) (st : State) :
  let st' := snd (HandleClientMessage H sys client size msg st) in
  clients st' = clients st
  /\ (targets st' = targets st
      \/ exists k, targets st' = MultiMap.emplace k client (targets st))
  /\ forall k c, c <> client ->
                 MultiMap.count k c (targets st') = MultiMap.count k c (targets st).
Proof.
  intros st'. unfold st', HandleClientMessage.
  destruct (_ || _ || _); [simpl; auto|].
  rewrite switch_cmd_result.
  destruct (Netlink.genl_cmd msg =? WIFIROUTER_CMD_REGISTER H);
    [destruct (mac_attribute H msg) as [mac|]|];
    destruct (send sys _ _ _ _) as [n tr]; simpl; try (split; [reflexivity|]; auto).
  split; [right; eexists; reflexivity|].
  intros k c Hne. apply count_emplace_other. congruence.
Qed.

(** X10: [HandleClientMessage] returns true only after it has handed a
    complete acknowledgement of 36 bytes to [send] and [send] took all of
    it; when it returns false, either nothing was sent and the state is
    untouched, or the one [send] came back short. *)
Theorem HandleClientMessage_true_means_acked (H : RouterH) (sys : System)
        (client size : Z) (msg : bytes) (st : State) :
  36 <= getpagesize sys ->
  let r := HandleClientMessage H sys client size msg st in
  (fst r = true ->
   exists ack, history (snd r) = history st ++ [EvSend client ack 36]
               /\ Z.of_nat (length ack) = 36
               /\ Netlink.nlmsg_type ack = Netlink.NLMSG_ERROR)
  /\ (fst r = false ->
      snd r = st
      \/ exists ack n, n <> 36 /\ history (snd r) = history st ++ [EvSend client ack n]).
Proof.
  intros Hpage r. unfold r.
  destruct (bad_framing size msg) eqn:Hframe.
  - rewrite (HandleClientMessage_rejects H sys client size msg st Hframe). simpl.
    split; [discriminate | auto].
  - rewrite (HandleClientMessage_acks H sys client size msg st Hpage Hframe). simpl.
    destruct (ack_fields sys msg (fst (switch_cmd H client msg (targets st))) Hpage)
      as (_ & Hsz & Hty & _).
    split.
    + intros Hn. apply Z.eqb_eq in Hn. rewrite Hn. eexists. split; [reflexivity|].
      split; [exact Hsz | exact Hty].
    + intros Hn. apply Z.eqb_neq in Hn. right. eexists. eexists.
      split; [exact Hn | reflexivity].
Qed.

Lemma HandleClientMessage_true_means_acked_witness :
  exists ack,
    history (Sample.registered Sample.sys_ok [5] Sample.mac_c) = [EvSend 5 ack 36]
    /\ Z.of_nat (length ack) = 36.
Proof.
  unshelve epose proof
    (HandleClientMessage_true_means_acked Sample.router_h Sample.sys_ok 5 32
       (Sample.register_request 7 42 Sample.mac_c) (Sample.state [5]) _) as W;
    [by_evaluation |].
  destruct W as (Htrue & _). destruct (Htrue eq_refl) as (ack & Hh & Hsz & _).
  exists ack. split; [exact Hh | exact Hsz].
Defined.

Lemma HandleClientMessage_subscribes_only_caller_witness :
  MultiMap.count (GetMacHash Sample.mac_a) 6 (targets (Sample.three_clients Sample.sys_ok))
  = MultiMap.count (GetMacHash Sample.mac_a) 6
      (targets (snd (HandleClientMessage Sample.router_h Sample.sys_ok 6 32
                       (Sample.register_request 6 2 Sample.mac_a)
                       (snd (HandleClientMessage Sample.router_h Sample.sys_ok 5 32
                               (Sample.register_request 5 1 Sample.mac_a)
                               (Sample.state [5; 6; 7])))))).
Proof.
  destruct (HandleClientMessage_subscribes_only_caller Sample.router_h Sample.sys_ok 7 32
              (Sample.register_request 7 3 Sample.mac_b)
              (snd (HandleClientMessage Sample.router_h Sample.sys_ok 6 32
                      (Sample.register_request 6 2 Sample.mac_a)
                      (snd (HandleClientMessage Sample.router_h Sample.sys_ok 5 32
                              (Sample.register_request 5 1 Sample.mac_a)
                              (Sample.state [5; 6; 7]))))))
    as (_ & _ & Hother).
  apply (Hother (GetMacHash Sample.mac_a) 6). discriminate.
Defined.

(** ** The loop *)

Lemma RemoveClient_index_within (c : Z) (st : State) :
  index_within_clients st -> index_within_clients (RemoveClient c st).
Proof.
  intros Hinv k x Hin. simpl in *. unfold MultiMap.erase_value in Hin.
  apply filter_In in Hin. destruct Hin as [Hin Hne]. simpl in Hne.
  apply negb_true_iff, Z.eqb_neq in Hne.
  apply In_erase. split; [exact (Hinv k x Hin) | exact Hne].
Qed.

Lemma RouteWIFIPacket_index_within (H : RouterH) (sys : System) (family len : Z)
      (buf : bytes) (st : State) :
  index_within_clients st ->
  index_within_clients (RouteWIFIPacket H sys family len buf st).
Proof.
  intros Hinv.
  destruct (RouteWIFIPacket_cases H sys family len buf st) as (tr & removed & ->).
  intros k c Hin. apply fold_RemoveClient_targets in Hin. simpl in Hin.
  apply fold_RemoveClient_clients. simpl. split; [apply (Hinv k c), Hin | apply Hin].
Qed.

Lemma HandleClientMessage_index_within (H : RouterH) (sys : System) (client size : Z)
      (msg : bytes) (st : State) :
  In client (clients st) ->
  index_within_clients st ->
  index_within_clients (snd (HandleClientMessage H sys client size msg st)).
Proof.
  intros Hc Hinv. unfold HandleClientMessage.
  destruct (_ || _ || _); [exact Hinv|].
  rewrite switch_cmd_result.
  destruct (Netlink.genl_cmd msg =? WIFIROUTER_CMD_REGISTER H);
    [destruct (mac_attribute H msg) as [mac|]|];
    destruct (send sys _ _ _ _) as [n tr]; intros k c Hin; simpl in *;
      try exact (Hinv k c Hin).
  apply In_emplace in Hin. destruct Hin as [E|Hin]; [|exact (Hinv k c Hin)].
  inversion E; subst. exact Hc.
Qed.

Lemma HandleClientMessage_clients (H : RouterH) (sys : System) (client size : Z)
      (msg : bytes) (st : State) :
  clients (snd (HandleClientMessage H sys client size msg st)) = clients st.
Proof.
  unfold HandleClientMessage.
  destruct (_ || _ || _); [reflexivity|].
  destruct (switch_cmd H client msg (targets st)) as [result t'].
  destruct (send sys _ _ _ _) as [n tr]. reflexivity.
Qed.

Lemma client_loop_index_within (H : RouterH) (sys : System) (isset : Z -> bool)
      (rx : Z -> Z * bytes) (cs : list Z) (st : State) :
  NoDup cs ->
  (forall c, In c cs -> In c (clients st)) ->
  index_within_clients st ->
  index_within_clients (client_loop H sys isset rx cs st).
Proof.
  revert st. induction cs as [|cfd cs IH]; intros st Hnd Hcs Hinv; simpl; [exact Hinv|].
  inversion Hnd as [|? ? Hnotin Hnd']; subst.
  destruct (isset cfd).
  - pose proof (HandleClientMessage_index_within H sys cfd (fst (rx cfd)) (snd (rx cfd)) st
                  (Hcs cfd (or_introl eq_refl)) Hinv) as Hinv1.
    pose proof (HandleClientMessage_clients H sys cfd (fst (rx cfd)) (snd (rx cfd)) st) as Hcl.
    destruct (HandleClientMessage H sys cfd (fst (rx cfd)) (snd (rx cfd)) st) as [ok st1].
    simpl in Hinv1, Hcl. destruct ok; simpl.
    + apply IH; [exact Hnd' | | exact Hinv1].
      intros c Hin. rewrite Hcl. apply Hcs. right. exact Hin.
    + apply IH; [exact Hnd' | | apply RemoveClient_index_within; exact Hinv1].
      intros c Hin. simpl. apply In_erase. rewrite Hcl.
      split; [apply Hcs; right; exact Hin | intros ->; contradiction].
  - apply IH; [exact Hnd' | | exact Hinv].
    intros c Hin. apply Hcs. right. exact Hin.
Qed.

(** X11: in every state the loop reaches, each registration in the
    subscription index belongs to a client that is in the set of clients. *)
Theorem reachable_index_within_clients (H : RouterH) (sys : System)
        (server_fd netlink_fd family : Z) (st : State) :
  reachable H sys server_fd netlink_fd family st -> index_within_clients st.
Proof.
  induction 1 as [|st r Hreach IH].
  - intros k c [].
  - pose proof (reachable_invariant H sys server_fd netlink_fd family st Hreach) as Hord.
    unfold ServerLoop_pass. destruct (select_ret r <=? 0); [exact IH|].
    match goal with |- context [if ?c then RouteWIFIPacket _ _ _ _ _ ?s else _] =>
      assert (Hs : (key_ordered (targets s) /\ increasing (clients s))
                   /\ index_within_clients s) end.
    { match goal with |- context [if ?c then AcceptNewClient _ _ else _] => destruct c end;
        [|split; assumption].
      unfold AcceptNewClient. destruct (accept_ret r <? 0); [split; assumption|]. simpl.
      split; [split; [apply Hord | apply insert_increasing; apply Hord]|].
      intros k c Hin. simpl in *. apply In_insert. right. exact (IH k c Hin). }
    destruct Hs as (Hord1 & Hinv1).
    match goal with |- context [client_loop _ _ _ _ (clients ?s2) ?s2] =>
      assert (Hs2 : increasing (clients s2) /\ index_within_clients s2) end.
    { match goal with |- context [if ?c then RouteWIFIPacket _ _ _ _ _ _ else _] => destruct c end;
        [|split; [apply Hord1 | exact Hinv1]].
      split; [apply RouteWIFIPacket_invariant; exact Hord1
             | apply RouteWIFIPacket_index_within; exact Hinv1]. }
    destruct Hs2 as (Hinc2 & Hinv2).
    apply client_loop_index_within;
      [apply increasing_NoDup; exact Hinc2 | auto | exact Hinv2].
Qed.

Lemma reachable_index_within_clients_witness :
  index_within_clients Sample.registered_twice.
Proof.
  apply (reachable_index_within_clients Sample.router_h Sample.sys_ok Sample.server_fd
           Sample.netlink_fd Sample.family).
  unfold Sample.registered_twice, Sample.loop_pass.
  repeat apply reachable_pass. apply reachable_init.
Defined.

(** ** Startup *)

Lemma strncpy_prefix (src : bytes) (n : nat) :
  strncpy src n = strncpy (firstn n src) n.
Proof.
  revert src. induction n as [|n IH]; intros src; [reflexivity|].
  destruct src as [|c src]; [reflexivity|]. simpl.
  destruct (Byte.eqb c Byte.x00); [reflexivity|]. rewrite <- IH. reflexivity.
Qed.

Lemma length_strncpy (src : bytes) (n : nat) : length (strncpy src n) = n.
Proof.
  revert src. induction n as [|n IH]; intros src; [reflexivity|].
  destruct src as [|c src]; [simpl; rewrite repeat_length; reflexivity|].
  simpl. destruct (Byte.eqb c Byte.x00); simpl; [rewrite repeat_length | rewrite IH];
    reflexivity.
Qed.

Lemma strncpy_no_nul (src : bytes) (n : nat) :
  ~ In Byte.x00 src -> (n <= length src)%nat -> strncpy src n = firstn n src.
Proof.
  revert src. induction n as [|n IH]; intros src Hnul Hlen; [reflexivity|].
  destruct src as [|c src]; [simpl in Hlen; lia|]. simpl.
  destruct (Byte.eqb c Byte.x00) eqn:E.
  - apply Byte.byte_dec_bl in E. subst c. exfalso. apply Hnul. left. reflexivity.
  - f_equal. apply IH; [intros Hin; apply Hnul; right; exact Hin | simpl in Hlen; lia].
Qed.


Lemma socket_name_len_range (socket_name : bytes) :
  0 <= socket_name_len socket_name <= 106
  /\ Z.to_nat (socket_name_len socket_name) = Nat.min 106 (length socket_name).
Proof.
  unfold socket_name_len, sizeof_sun_path. change (108 - 2) with 106. lia.
Qed.

Lemma bind_address_layout (socket_name : bytes) :
  bind_address socket_name
  = [Byte.x01; Byte.x00; Byte.x00]
    ++ strncpy socket_name (Nat.min 106 (length socket_name)).
Proof.
  destruct (socket_name_len_range socket_name) as (Hr & Hn).
  unfold bind_address, sockaddr_un_bytes. rewrite Hn.
  change (le_split 2 AF_UNIX ++ [Byte.x00] ++
          strncpy socket_name (Nat.min 106 (length socket_name)) ++
          repeat Byte.x00 (Z.to_nat (sizeof_sun_path - 1 - socket_name_len socket_name)))
    with (([Byte.x01; Byte.x00; Byte.x00]
             ++ strncpy socket_name (Nat.min 106 (length socket_name)))
            ++ repeat Byte.x00 (Z.to_nat (sizeof_sun_path - 1 - socket_name_len socket_name))).
  apply memcpy_src_app.
  rewrite length_app, length_strncpy, Nat2Z.inj_add, <- Hn, Z2Nat.id by lia.
  unfold offsetof_sun_path. simpl length. lia.
Qed.

(** X14: whatever the flag [socket_name] holds, the address handed to
    [bind] is at most 109 bytes, so it lies within [sockaddr_un]; it starts
    with the family [AF_UNIX] and a NUL, which puts the socket in the
    abstract namespace; and it depends on the first 106 bytes of the name
    only, so that two names which agree on these are bound to the same
    address. *)
Theorem bind_address_bounded (socket_name : bytes) :
  Z.of_nat (length (bind_address socket_name))
  = Z.min 106 (Z.of_nat (length socket_name)) + 3
  /\ Z.of_nat (length (bind_address socket_name)) <= 109
  /\ firstn 3 (bind_address socket_name) = [Byte.x01; Byte.x00; Byte.x00]
  /\ forall other, firstn 106 other = firstn 106 socket_name ->
                   bind_address other = bind_address socket_name.
Proof.
  rewrite bind_address_layout.
  split; [|split; [|split]].
  - rewrite length_app, length_strncpy. simpl length. lia.
  - rewrite length_app, length_strncpy. simpl length. lia.
  - reflexivity.
  - intros other Hsame. rewrite bind_address_layout. f_equal.
    assert (Hlen : Nat.min 106 (length other) = Nat.min 106 (length socket_name)).
    { rewrite <- !length_firstn, Hsame. reflexivity. }
    rewrite Hlen.
    set (n := Nat.min 106 (length socket_name)).
    assert (Hcut : forall l : bytes, firstn n l = firstn n (firstn 106 l)).
    { intros l. rewrite firstn_firstn. f_equal. unfold n. lia. }
    rewrite (strncpy_prefix other), (strncpy_prefix socket_name).
    rewrite (Hcut other), (Hcut socket_name), Hsame. reflexivity.
Qed.

Lemma bind_address_bounded_witness :
  bind_address (repeat Byte.x41 106 ++ [Byte.x42])
  = bind_address (repeat Byte.x41 106 ++ [Byte.x43]).
Proof.
  destruct (bind_address_bounded (repeat Byte.x41 106 ++ [Byte.x43])) as (_ & _ & _ & Hsame).
  apply Hsame. vm_compute. reflexivity.
Defined.

(** X15: a name of at most 106 bytes without a NUL is bound as it is,
    behind the family and the leading NUL; different such names are bound
    to different addresses. *)
Theorem bind_address_keeps_name (socket_name : bytes) :
  ~ In Byte.x00 socket_name ->
  (length socket_name <= 106)%nat ->
  bind_address socket_name = [Byte.x01; Byte.x00; Byte.x00] ++ socket_name.
Proof.
  intros Hnul Hlen. rewrite bind_address_layout. f_equal.
  rewrite strncpy_no_nul by (exact Hnul || lia).
  apply firstn_all2. lia.
Qed.

Lemma bind_address_keeps_name_witness :
  bind_address Scenario.default_socket_name
  = [Byte.x01; Byte.x00; Byte.x00] ++ Scenario.default_socket_name.
Proof.
  apply bind_address_keeps_name.
  - vm_compute. intros Hin. repeat (destruct Hin as [Hin|Hin]; [discriminate Hin|]). exact Hin.
  - vm_compute. repeat constructor.
Defined.

(** X16: [main] enters [ServerLoop] exactly when [nl_connect] did not fail,
    the family was resolved to a positive number, the kernel acknowledged
    the registration, [socket] gave a positive descriptor and [bind] did
    not fail; the loop then gets that descriptor and that family, and the
    socket is listening with a backlog of 4.  In every other case the
    program exits with status 1 and never listens. *)
Theorem main_startup_outcome (pagesize : Z) (socket_name : bytes) (env : StartupEnv) :
  let r := main_startup pagesize socket_name env in
  (0 <= nl_connect_ret env /\ 0 < genl_ctrl_resolve_ret env
   /\ 0 <= nl_wait_for_ack_ret env /\ 0 < socket_ret env /\ 0 <= bind_ret env
   /\ snd r = Returns (socket_ret env, genl_ctrl_resolve_ret env)
   /\ exists calls,
       fst r = calls ++ [CallBind (socket_ret env) (bind_address socket_name);
                         CallListen (socket_ret env) 4])
  \/ ((nl_connect_ret env < 0 \/ genl_ctrl_resolve_ret env <= 0
       \/ nl_wait_for_ack_ret env < 0 \/ socket_ret env <= 0 \/ bind_ret env < 0)
      /\ snd r = Exits 1
      /\ forall fd backlog, ~ In (CallListen fd backlog) (fst r)).
Proof.
  intros r. unfold r, main_startup, RegisterForHWSimNotifications,
              CreateWifiRouterServerSocket.
  destruct (Z.ltb_spec (nl_connect_ret env) 0) as [H1|H1].
  { right. split; [auto|]. split; [reflexivity|].
    intros fd b [E|[]]. discriminate E. }
  destruct (Z.leb_spec (genl_ctrl_resolve_ret env) 0) as [H2|H2].
  { right. split; [auto|]. split; [reflexivity|].
    intros fd b [E|[E|[]]]; discriminate E. }
  destruct (Z.ltb_spec (nl_wait_for_ack_ret env) 0) as [H3|H3].
  { right. split; [auto|]. split; [reflexivity|].
    intros fd b [E|[E|[E|[E|[]]]]]; discriminate E. }
  destruct (Z.leb_spec (socket_ret env) 0) as [H4|H4].
  { right. split; [auto 6|]. split; [reflexivity|].
    intros fd b [E|[E|[E|[E|[E|[]]]]]]; discriminate E. }
  destruct (Z.ltb_spec (bind_ret env) 0) as [H5|H5].
  { right. split; [auto 6|]. split; [reflexivity|].
    intros fd b [E|[E|[E|[E|[E|[E|[]]]]]]]; discriminate E. }
  left. repeat (split; [lia|]). split; [reflexivity|].
  eexists. simpl.
  match goal with |- ?a :: ?b :: ?c :: ?d :: ?e :: ?rest = _ =>
    change (a :: b :: c :: d :: e :: rest) with ([a; b; c; d; e] ++ rest) end.
  reflexivity.
Qed.

Lemma genlmsg_put_fresh (page port seq family flags cmd : Z) :
  20 <= page ->
  Netlink.genlmsg_put (Netlink.nlmsg_alloc page) port seq family 0 flags cmd 0
  = {| Netlink.nm_size := page; Netlink.nm_type := to_uint16 family;
       Netlink.nm_flags := to_uint16 flags; Netlink.nm_seq := to_uint32 seq;
       Netlink.nm_pid := to_uint32 port;
       Netlink.nm_payload := [byte.of_Z (to_uint8 cmd); Byte.x00; Byte.x00; Byte.x00] |}.
Proof.
  intros Hpage. unfold Netlink.genlmsg_put, Netlink.nlmsg_put, Netlink.nlmsg_reserve.
  cbn [Netlink.nm_size Netlink.nlmsg_alloc Netlink.nm_payload].
  change (Netlink.GENL_HDRLEN + 0 >? 0) with true. cbv iota.
  change (Netlink.GENL_HDRLEN + 0) with 4.
  rewrite gtb_false by lia.
  change (Netlink.NLMSG_ALIGNTO =? 0) with false. cbv iota.
  change (Netlink.align_to Netlink.NLMSG_ALIGNTO 4) with 4.
  unfold Netlink.nm_len at 1. cbn [Netlink.nm_payload length].
  rewrite gtb_false by (unfold Netlink.NLMSG_HDRLEN; lia).
  reflexivity.
Qed.

(** X17: the request [RegisterForHWSimNotifications] hands to libnl is a
    generic netlink message of 20 bytes for the family, flagged as a
    request, with the command [HWSIM_CMD_REGISTER] and no attribute; the
    function returns when the acknowledgement is not negative and exits
    with status 1 when it is. *)
Theorem hwsim_register_request (pagesize family res : Z) :
  20 <= pagesize ->
  0 <= family < 2 ^ 16 ->
  exists req,
    fst (RegisterForHWSimNotifications pagesize family res)
    = [CallNlSendAuto req; CallNlWaitForAck]
    /\ Z.of_nat (length req) = 20
    /\ Netlink.nlmsg_len req = 20
    /\ Netlink.nlmsg_type req = family
    /\ Netlink.nlmsg_flags req = NLM_F_REQUEST
    /\ Netlink.genl_cmd req = HWSIM_CMD_REGISTER
    /\ (forall maxtype type, snd (Netlink.genlmsg_parse req 0 maxtype) type = None)
    /\ snd (RegisterForHWSimNotifications pagesize family res)
       = if res <? 0 then Exits 1 else Returns tt.
Proof.
  intros Hpage Hfam.
  assert (Hreq : Netlink.nlmsg_hdr (hwsim_register_msg pagesize family)
                 = le_split 4 20 ++ le_split 2 family ++ le_split 2 1 ++ le_split 4 0
                   ++ le_split 4 0 ++ [Byte.x01; Byte.x00; Byte.x00; Byte.x00]).
  { unfold hwsim_register_msg. rewrite genlmsg_put_fresh by exact Hpage.
    unfold Netlink.nlmsg_hdr, Netlink.nm_len.
    cbn [Netlink.nm_payload Netlink.nm_type Netlink.nm_flags Netlink.nm_seq Netlink.nm_pid].
    rewrite le_split_to_uint16. reflexivity. }
  set (req := le_split 4 20 ++ le_split 2 family ++ le_split 2 1 ++ le_split 4 0
                ++ le_split 4 0 ++ [Byte.x01; Byte.x00; Byte.x00; Byte.x00]) in *.
  assert (Hlen : Netlink.nlmsg_len req = 20) by (unfold req; apply load_first).
  assert (Hsz : Z.of_nat (length req) = 20)
    by (unfold req; rewrite !length_app, !length_le_split; reflexivity).
  exists req.
  split.
  { unfold RegisterForHWSimNotifications. rewrite Hreq, Hlen, (memcpy_src_exact req 20 Hsz).
    destruct (res <? 0); reflexivity. }
  split; [exact Hsz|]. split; [exact Hlen|].
  split.
  { unfold Netlink.nlmsg_type, req.
    rewrite (load_at_offset 2 (le_split 4 20)) by reflexivity.
    apply Z.mod_small. exact Hfam. }
  split.
  { unfold Netlink.nlmsg_flags, req. rewrite (app_assoc (le_split 4 20)).
    rewrite (load_at_offset 2 (le_split 4 20 ++ le_split 2 family))
      by (rewrite length_app, !length_le_split; reflexivity).
    reflexivity. }
  split.
  { unfold Netlink.genl_cmd, req.
    change [Byte.x01; Byte.x00; Byte.x00; Byte.x00]
      with (le_split 1 1 ++ [Byte.x00; Byte.x00; Byte.x00]).
    rewrite (app_assoc (le_split 4 20)), (app_assoc _ (le_split 2 1)),
            (app_assoc _ (le_split 4 0)), (app_assoc _ (le_split 4 0)).
    rewrite load_at_offset by (rewrite !length_app, !length_le_split; reflexivity).
    reflexivity. }
  split.
  { intros maxtype type.
    unfold Netlink.genlmsg_parse, Netlink.genlmsg_valid_hdr, Netlink.nlmsg_valid_hdr,
      Netlink.genlmsg_len. rewrite Hlen. reflexivity. }
  unfold RegisterForHWSimNotifications. destruct (res <? 0); reflexivity.
Qed.

Lemma hwsim_register_request_witness :
  exists req,
    fst (RegisterForHWSimNotifications 4096 25 0) = [CallNlSendAuto req; CallNlWaitForAck]
    /\ Netlink.nlmsg_type req = 25.
Proof.
  unshelve epose proof (hwsim_register_request 4096 25 0 _ _) as W; [by_evaluation .. |].
  destruct W as (req & Hc & _ & _ & Hty & _). exists req. split; [exact Hc | exact Hty].
Defined.
